(** * NASLib trainer and NAS-Bench-201 analysis script: a shallow embedding

    The development follows two Python files:

    - [naslib/optimizers/core/evaluator.py], the [Trainer] class with its
      search loop, its evaluation loop, the checkpoint set-up and the
      per-epoch statistics written to disk;
    - [naslib/analysis/evaluate_nasbench_201.py], the script that reads
      the statistics back and draws the comparison plots.

    The trainer is stateful code that may raise.  It is rendered in a
    state-and-exception monad over the trainer object ([self]) and the world
    it acts on (file system, clock, call trace).  A raised exception keeps
    the state reached at the raise, as a Python object mutated in place
    does.

    Everything that belongs to PyTorch (tensors, modules, optimisers,
    schedulers) is opaque: the optimizer object and all the torch objects
    it owns are one abstract state [O], acted on through the methods of the
    class [Optimizer].  Floats are an abstract type with the arithmetic the
    code uses; no property of float arithmetic is assumed anywhere. *)

From Stdlib Require Import ZArith List Ascii String Bool Lia DecimalString.
From stdpp Require Import base gmap strings list.
Import ListNotations.
Open Scope string_scope.
Open Scope Z_scope.

(** ** Python values *)

(** The exceptions the modelled code can raise. *)
Inductive Exception :=
| AttributeError (attr : string)
| KeyError (key : string)
| ValueError
| TypeError
| AssertionError
| UnpicklingError
| FileNotFoundError
| NotADirectoryError
| IsADirectoryError
| FileExistsError
| UnicodeDecodeError.

(** Python floats: the operations the sources apply to them. *)
Class FloatOps (F : Type) := {
  float_of_int : Z -> F;
  fadd : F -> F -> F;
  fsub : F -> F -> F;
  fmul : F -> F -> F;
  fdiv : F -> F -> F;
  float_bool : F -> bool          (* truth value: [x != 0.0] *)
}.

(** A number as Python holds it: an [int] or a [float]. *)
Inductive PyNum (F : Type) :=
| PyInt (z : Z)
| PyFloat (x : F).
Arguments PyInt {F} z.
Arguments PyFloat {F} x.

(** [float(x)], the conversion Python applies when a float meets an int. *)
Definition to_float {F} `{FloatOps F} (x : PyNum F) : F :=
  match x with
  | PyInt z => float_of_int z
  | PyFloat f => f
  end.

(** Truth value of a number. *)
Definition pynum_bool {F} `{FloatOps F} (x : PyNum F) : bool :=
  match x with
  | PyInt z => negb (z =? 0)
  | PyFloat f => float_bool f
  end.

(** ['{:.5}'.format(x)]: a precision is refused for an [int]. *)
Definition format_prec {F} (x : PyNum F) : option Exception :=
  match x with
  | PyInt _ => Some ValueError
  | PyFloat _ => None
  end.

(** The argument [resume_from] / [search_model]: a string in every
    intended use; [evaluate] also builds a tuple (see
    [resolve_search_model]). *)
Inductive PyPath :=
| PyStr (s : string)
| PyTuple (items : list string).

(** Truth value of a string or tuple: non-empty. *)
Definition truthy (p : PyPath) : bool :=
  match p with
  | PyStr s => negb (String.eqb s "")
  | PyTuple l => negb (Nat.eqb (List.length l) 0)
  end.

(** [range(a, b)] *)
Definition range (a b : Z) : list Z :=
  map (fun i => a + Z.of_nat i) (seq 0 (Z.to_nat (b - a))).

(** [s.endswith('/')] *)
Fixpoint ends_with_sep (s : string) : bool :=
  match s with
  | EmptyString => false
  | String c EmptyString => Ascii.eqb c "/"%char
  | String _ rest => ends_with_sep rest
  end.

(** [s.startswith('/')] *)
Definition starts_with_sep (s : string) : bool :=
  match s with
  | String c _ => Ascii.eqb c "/"%char
  | EmptyString => false
  end.

(** [os.path.join(a, *p)] (posixpath). *)
Definition os_path_join (a : string) (p : list string) : string :=
  fold_left
    (fun path b =>
       if starts_with_sep b then b
       else if String.eqb path "" || ends_with_sep path then path +:+ b
       else path +:+ "/" +:+ b)
    p a.

(** ['/' in s] *)
Fixpoint has_sep (s : string) : bool :=
  match s with
  | EmptyString => false
  | String c rest => Ascii.eqb c "/"%char || has_sep rest
  end.

(** [s.rstrip('/')] *)
Fixpoint rstrip_sep (s : string) : string :=
  match s with
  | EmptyString => EmptyString
  | String c rest =>
      match rstrip_sep rest with
      | EmptyString => if Ascii.eqb c "/"%char then EmptyString else String c EmptyString
      | r => String c r
      end
  end.

(** [p[:p.rfind('/') + 1]]: the part of [p] up to its last separator,
    nothing when [p] has none. *)
Fixpoint head_upto_sep (p : string) : option string :=
  match p with
  | EmptyString => None
  | String c rest =>
      match head_upto_sep rest with
      | Some h => Some (String c h)
      | None => if Ascii.eqb c "/"%char then Some (String c EmptyString) else None
      end
  end.

(** [os.path.dirname(p)] (posixpath): the head up to the last separator,
    without its trailing separators unless it consists of separators
    only. *)
Definition dirname (p : string) : string :=
  let head := default EmptyString (head_upto_sep p) in
  if String.eqb (rstrip_sep head) "" then head else rstrip_sep head.

(** [os.path.basename(p)]: what follows the last separator. *)
Fixpoint os_path_basename (p : string) : string :=
  match p with
  | EmptyString => EmptyString
  | String c rest =>
      if has_sep rest then os_path_basename rest
      else if Ascii.eqb c "/"%char then rest else p
  end.

(** The directories above [p], nearest first: [dirname p], its [dirname],
    and so on, as long as they are not empty and get shorter. *)
Fixpoint ancestors_within (fuel : nat) (p : string) : list string :=
  match fuel with
  | O => []
  | S n =>
      let d := dirname p in
      if String.eqb d "" || String.eqb d p then [] else d :: ancestors_within n d
  end.

Definition ancestors (p : string) : list string := ancestors_within (String.length p) p.

(** [c.isspace()] for an ASCII character. *)
Definition is_space (c : ascii) : bool :=
  let n := nat_of_ascii c in
  ((9 <=? n)%nat && (n <=? 13)%nat) || ((28 <=? n)%nat && (n <=? 32)%nat).

(** [s.lstrip()], [s.rstrip()], [s.strip()] *)
Fixpoint lstrip (s : string) : string :=
  match s with
  | EmptyString => EmptyString
  | String c rest => if is_space c then lstrip rest else s
  end.

Fixpoint rstrip (s : string) : string :=
  match s with
  | EmptyString => EmptyString
  | String c rest =>
      match rstrip rest with
      | EmptyString => if is_space c then EmptyString else String c EmptyString
      | r => String c r
      end
  end.

Definition strip (s : string) : string := rstrip (lstrip s).

(** ['{}'.format(n)] for an int. *)
Definition str_of_int (n : Z) : string := NilZero.string_of_int (Z.to_int n).

(** ['{:07d}'.format(n)]: sign first, then zeros up to width 7. *)
Definition zero_pad (width : nat) (digits : string) : string :=
  String.concat "" (repeat "0" (width - String.length digits)) +:+ digits.

Definition format_07d (n : Z) : string :=
  if n <? 0
  then "-" +:+ zero_pad 6 (NilZero.string_of_uint (N.to_uint (Z.abs_N n)))
  else zero_pad 7 (NilZero.string_of_uint (N.to_uint (Z.abs_N n))).

(** ** [utils.AverageMeter] *)

Module AverageMeter.
Section Meter.
Context {F : Type} `{FloatOps F}.

(** Modelled from the spec: [utils.AverageMeter] of [naslib/utils/utils.py],
    which is not among the sources.  A meter holds a running weighted
    [sum], the total weight [cnt] and their quotient [avg]; its reset
    state is all zero (the int [0]), and [update(val, n)] adds [val * n]
    to [sum] and [n] to [cnt] and sets [avg = sum / cnt]. *)
Record t := mk { avg : PyNum F; sum : PyNum F; cnt : Z }.

(** [AverageMeter()] *)
Definition new : t := mk (PyInt 0) (PyInt 0) 0.

(** [m.reset()] *)
Definition reset (m : t) : t := mk (PyInt 0) (PyInt 0) 0.

(** [m.update(val, n)].  The weight is a batch size, at least one, so the
    division is defined. *)
Definition update (val : F) (n : positive) (m : t) : t :=
  let s := fadd (to_float (sum m)) (fmul val (float_of_int (Z.pos n))) in
  let c := cnt m + Z.pos n in
  mk (PyFloat (fdiv s (float_of_int c))) (PyFloat s) c.

(** [m.avg = x] *)
Definition set_avg (x : PyNum F) (m : t) : t := mk x (sum m) (cnt m).

(** What the spec calls a weighted average: the values weighted by their
    batch sizes, summed in order, over the total size. *)
Definition weighted_sum (l : list (F * positive)) : F :=
  fold_left (fun acc vn => fadd acc (fmul (fst vn) (float_of_int (Z.pos (snd vn)))))
            l (float_of_int 0).

Definition total_weight (l : list (F * positive)) : Z :=
  fold_left (fun acc vn => acc + Z.pos (snd vn)) l 0.

Definition weighted_average (l : list (F * positive)) : F :=
  fdiv (weighted_sum l) (float_of_int (total_weight l)).
End Meter.
Arguments t F : clear implicits.
End AverageMeter.

(** ** Configuration and recorded statistics *)

Module Config.
(** One of [config.search] and [config.evaluation]. *)
Record section (F : Type) := mk_section {
  epochs : Z;
  learning_rate : F;
  learning_rate_min : F;
  momentum : F;
  weight_decay : F;
  grad_clip : PyNum F
}.
Arguments mk_section {F}.
Arguments epochs {F}.
Arguments learning_rate {F}.
Arguments learning_rate_min {F}.
Arguments momentum {F}.
Arguments weight_decay {F}.
Arguments grad_clip {F}.

Record t (F : Type) := mk {
  save : string;
  seed : Z;
  dataset : string;
  data : string;
  search : section F;
  evaluation : section F
}.
Arguments mk {F}.
Arguments save {F}.
Arguments seed {F}.
Arguments dataset {F}.
Arguments data {F}.
Arguments search {F}.
Arguments evaluation {F}.
End Config.

Module ErrorsDict.
(** [self.errors_dict]: the lists grow by [append]; [params] is fixed. *)
Record t (F : Type) := mk {
  train_acc : list (PyNum F);
  train_loss : list (PyNum F);
  valid_acc : list (PyNum F);
  valid_loss : list (PyNum F);
  test_acc : list (PyNum F);
  test_loss : list (PyNum F);
  runtime : list (PyNum F);
  params : F
}.
Arguments mk {F}.
Arguments train_acc {F}.
Arguments train_loss {F}.
Arguments valid_acc {F}.
Arguments valid_loss {F}.
Arguments test_acc {F}.
Arguments test_loss {F}.
Arguments runtime {F}.
Arguments params {F}.

(** The dictionary [__init__] builds. *)
Definition empty {F} (n_parameters : F) : t F :=
  mk [] [] [] [] [] [] [] n_parameters.

(** [d.<list>.append(x)] *)
Definition append_train_acc {F} (x : PyNum F) (d : t F) : t F :=
  mk (train_acc d ++ [x]) (train_loss d) (valid_acc d) (valid_loss d) (test_acc d) (test_loss d) (runtime d) (params d).
Definition append_train_loss {F} (x : PyNum F) (d : t F) : t F :=
  mk (train_acc d) (train_loss d ++ [x]) (valid_acc d) (valid_loss d) (test_acc d) (test_loss d) (runtime d) (params d).
Definition append_valid_acc {F} (x : PyNum F) (d : t F) : t F :=
  mk (train_acc d) (train_loss d) (valid_acc d ++ [x]) (valid_loss d) (test_acc d) (test_loss d) (runtime d) (params d).
Definition append_valid_loss {F} (x : PyNum F) (d : t F) : t F :=
  mk (train_acc d) (train_loss d) (valid_acc d) (valid_loss d ++ [x]) (test_acc d) (test_loss d) (runtime d) (params d).
Definition append_test_acc {F} (x : PyNum F) (d : t F) : t F :=
  mk (train_acc d) (train_loss d) (valid_acc d) (valid_loss d) (test_acc d ++ [x]) (test_loss d) (runtime d) (params d).
Definition append_test_loss {F} (x : PyNum F) (d : t F) : t F :=
  mk (train_acc d) (train_loss d) (valid_acc d) (valid_loss d) (test_acc d) (test_loss d ++ [x]) (runtime d) (params d).
Definition append_runtime {F} (x : PyNum F) (d : t F) : t F :=
  mk (train_acc d) (train_loss d) (valid_acc d) (valid_loss d) (test_acc d) (test_loss d) (runtime d ++ [x]) (params d).
End ErrorsDict.

(** ** The torch side *)

(** Tensors.  [accuracy] is [utils.accuracy(logits, target, topk=(1, 5))]
    followed by [.data.item()] on both results; [utils.accuracy] is not
    among the sources and is taken as given.  A batch holds at least one
    sample, so [size(0)] is positive. *)
Class Tensors (F : Type) := {
  Input : Type;
  Target : Type;
  Logits : Type;
  input_size0 : Input -> positive;
  logits_size0 : Logits -> positive;
  accuracy : Logits -> Target -> F * F
}.

(** An object handed to the checkpointer. *)
Inductive Obj :=
| ObjOwned (name : string)      (* an object the optimizer owns *)
| ObjScheduler
| ObjArch
| ObjOptim.

(** [torch.optim.lr_scheduler.CosineAnnealingLR(opt, T_max, eta_min=...)],
    as the trainer holds it; its counters live on the torch side. *)
Record Scheduler (F : Type) := mk_scheduler { T_max : F; eta_min : F }.
Arguments mk_scheduler {F}.
Arguments T_max {F}.
Arguments eta_min {F}.

(** The interface of [self.optimizer].  Every method may change the
    optimizer, hence [O -> O]. *)
Class Optimizer (F : Type) `{Tensors F} (O : Type) := {
  get_model_size : O -> F;
  using_step_function : O -> bool;
  before_training : O -> O;
  new_epoch : Z -> O -> O;
  step : Input * Target -> Input * Target -> O -> O * (Logits * Logits * F * F);
  train_statistics : O -> O * (PyNum F * PyNum F * PyNum F * PyNum F);
  test_statistics : O -> O * option (PyNum F * PyNum F);
  after_training : O -> O;
  get_checkpointables : O -> gmap string Obj;
  get_final_architecture : O -> O;
  get_op_optimizer : F -> F -> F -> O -> O
}.

(** The torch objects reached from the trainer: the scheduler, the state
    dictionaries a checkpoint stores, and the final architecture
    [best_arch] with the optimiser built for its retraining; and two
    library functions taken as given: the data loaders and the text
    [json.dump] writes. *)
Class Torch (F : Type) `{Tensors F} (O : Type) := {
  scheduler_new : Scheduler F -> O -> O;
  scheduler_step : Scheduler F -> O -> O;
  load_state_dict : list string -> O -> O -> O;  (* keys, saved, current *)
  QUERYABLE : O -> bool;
  query : string -> string -> string -> O -> O;
  to_device : O -> O;
  reset_weights : O -> O;
  train_mode : O -> O;
  eval_mode : O -> O;
  forward : bool -> bool -> Input -> O -> O * Logits;  (* training, grad *)
  zero_grad : O -> O;
  loss_backward : Logits -> Target -> O -> O;
  clip_grad_norm : PyNum F -> O -> O;
  optim_step : O -> O;
  get_train_val_loaders :
    Config.section F -> list (Input * Target) * list (Input * Target) * list (Input * Target);
  json_text : ErrorsDict.t F -> string
}.

(** ** fvcore's checkpointer and the file system *)

(** A checkpoint file: the state dictionaries of the model and of the
    checkpointables (one snapshot of the torch side, with the keys saved)
    and the extra entries passed to [save], here ["iteration"]. *)
Record Checkpoint (O : Type) := mk_checkpoint {
  ck_state : O;
  ck_keys : list string;
  ck_extra : gmap string Z
}.
Arguments mk_checkpoint {O}.
Arguments ck_state {O}.
Arguments ck_keys {O}.
Arguments ck_extra {O}.

(** What a file holds. *)
Inductive FileData (F O : Type) :=
| JsonFile (d : ErrorsDict.t F)
| CheckpointFile (c : Checkpoint O)
| TextFile (s : string).
Arguments JsonFile {F O}.
Arguments CheckpointFile {F O}.
Arguments TextFile {F O}.

(** Directories and files by path.  A path is the string the program
    passes to the operating system: two spellings of one path (a doubled
    or trailing separator, a component [.] or [..]) are two keys, and
    there are no links.  The root and the current directory always exist.
    A file can be opened for writing only in a directory that exists;
    permissions and full disks are outside the model. *)
Record FileSystem (F O : Type) := mk_fs {
  dirs : gset string;
  files : gmap string (FileData F O)
}.
Arguments mk_fs {F O}.
Arguments dirs {F O}.
Arguments files {F O}.

(** [fvcore.common.checkpoint.Checkpointer] *)
Record Checkpointer := mk_checkpointer {
  model : Obj;
  save_dir : string;
  checkpointables : gmap string Obj
}.

(** [fvcore.common.checkpoint.PeriodicCheckpointer] *)
Record PeriodicCheckpointer := mk_periodic {
  pc_checkpointer : Checkpointer;
  period : Z;
  max_iter : Z
}.

(** ** The trainer object, the world, and the monad *)

Section TrainerModel.
Context {F : Type} {FO : FloatOps F} {TS : Tensors F}.
Context {O : Type} {OPT : Optimizer F O} {TORCH : Torch F O}.

Definition Batch : Type := Input * Target.

(** The attributes of [self].  [scheduler], [checkpointer] and
    [periodic_checkpointer] are assigned by [search] and
    [_setup_checkpointers] only, not by [__init__]: [None] stands for an
    attribute that does not exist yet. *)
Record Trainer := mk_trainer {
  optimizer : O;
  config : Config.t F;
  epochs : Z;
  train_queue : list Batch;
  valid_queue : list Batch;
  test_queue : list Batch;
  train_top1 : AverageMeter.t F;
  train_top5 : AverageMeter.t F;
  train_loss : AverageMeter.t F;
  val_top1 : AverageMeter.t F;
  val_top5 : AverageMeter.t F;
  val_loss : AverageMeter.t F;
  errors_dict : ErrorsDict.t F;
  scheduler : option (Scheduler F);
  checkpointer : option Checkpointer;
  periodic_checkpointer : option PeriodicCheckpointer
}.

(** Calls that leave the trainer, in the order they happen. *)
Inductive Event :=
| EvBeforeTraining
| EvNewEpoch (e : Z)
| EvStep
| EvTrainStatistics
| EvTestStatistics (truthy : bool)
| EvAfterTraining
| EvGetFinalArchitecture
| EvGetOpOptimizer
| EvSchedulerNew
| EvSchedulerStep
| EvCheckpointLoad (path : string)
| EvCheckpointSave (path : string) (iteration : Z)
| EvMakedirs (path : string)
| EvJsonDump (path : string)
| EvQuery
| EvToDevice
| EvResetWeights
| EvTrainMode
| EvEvalMode
| EvZeroGrad
| EvForward (training grad : bool) (x : Input)
| EvBackward
| EvClipGrad
| EvOptimStep
| EvTestAccuracies (top1 top5 : PyNum F).

(** What the trainer acts on besides itself.  [training] is the mode flag
    of [best_arch]; [grad_enabled] is torch's global gradient switch;
    [clock] lists the readings [time.time()] returns, [ticks] counts the
    readings taken. *)
Record World := mk_world {
  fs : FileSystem F O;
  clock : nat -> F;
  ticks : nat;
  training : bool;
  grad_enabled : bool;
  trace : list Event
}.

Definition State : Type := Trainer * World.

Inductive Outcome (A : Type) :=
| Return (a : A) (s : State)
| Raise (e : Exception) (s : State).
Arguments Return {A}.
Arguments Raise {A}.

Definition M (A : Type) : Type := State -> Outcome A.

Definition ret {A} (a : A) : M A := fun s => Return a s.

Definition bind {A B} (c : M A) (k : A -> M B) : M B :=
  fun s => match c s with
           | Return a s' => k a s'
           | Raise e s' => Raise e s'
           end.

Definition raise {A} (e : Exception) : M A := fun s => Raise e s.

(** Read of [self] and of the world. *)
Definition self {A} (f : Trainer -> A) : M A := fun s => Return (f (fst s)) s.
Definition world {A} (f : World -> A) : M A := fun s => Return (f (snd s)) s.

(** Assignment to attributes of [self]; change of the world. *)
Definition set_self (f : Trainer -> Trainer) : M unit :=
  fun s => Return tt (f (fst s), snd s).
Definition set_world (f : World -> World) : M unit :=
  fun s => Return tt (fst s, f (snd s)).

(** [try: c finally: h] *)
Definition finally {A} (c : M A) (h : M unit) : M A :=
  fun s => match c s with
           | Return a s' => match h s' with
                            | Return _ s'' => Return a s''
                            | Raise e s'' => Raise e s''
                            end
           | Raise e s' => match h s' with
                           | Return _ s'' => Raise e s''
                           | Raise e' s'' => Raise e' s''
                           end
           end.
End TrainerModel.

Arguments Trainer F {TS} O.
Arguments World F {TS} O.
Arguments State F {TS} O.
Arguments Event {F TS}.
Arguments M F {TS} O A.
Arguments Outcome F {TS} O A.
Arguments Return {F TS O A}.
Arguments Raise {F TS O A}.

Declare Scope trainer_scope.
Delimit Scope trainer_scope with trainer.
Notation "x <- c ;; k" := (bind c (fun x => k))
  (at level 100, c at next level, right associativity) : trainer_scope.
Notation "c ;; k" := (bind c (fun _ => k))
  (at level 100, right associativity) : trainer_scope.
Open Scope trainer_scope.

(** [for x in l: body x] *)
Fixpoint for_each {F} {TS : Tensors F} {O A} (l : list A) (body : A -> M F O unit)
  : M F O unit :=
  match l with
  | [] => ret tt
  | x :: rest => body x ;; for_each rest body
  end.

(** ** Assignments to the attributes of [self] *)

Section Attributes.
Context {F : Type} {TS : Tensors F} {O : Type}.

Definition set_optimizer (x : O) (t : Trainer F O)
  : Trainer F O :=
  mk_trainer x (config t) (epochs t) (train_queue t) (valid_queue t)
    (test_queue t) (train_top1 t) (train_top5 t) (train_loss t) (val_top1 t)
    (val_top5 t) (val_loss t) (errors_dict t) (scheduler t) (checkpointer t)
    (periodic_checkpointer t).

Definition set_train_queue (x : list (Input * Target)) (t : Trainer F O)
  : Trainer F O :=
  mk_trainer (optimizer t) (config t) (epochs t) x (valid_queue t)
    (test_queue t) (train_top1 t) (train_top5 t) (train_loss t) (val_top1 t)
    (val_top5 t) (val_loss t) (errors_dict t) (scheduler t) (checkpointer t)
    (periodic_checkpointer t).

Definition set_valid_queue (x : list (Input * Target)) (t : Trainer F O)
  : Trainer F O :=
  mk_trainer (optimizer t) (config t) (epochs t) (train_queue t) x
    (test_queue t) (train_top1 t) (train_top5 t) (train_loss t) (val_top1 t)
    (val_top5 t) (val_loss t) (errors_dict t) (scheduler t) (checkpointer t)
    (periodic_checkpointer t).

Definition set_test_queue (x : list (Input * Target)) (t : Trainer F O)
  : Trainer F O :=
  mk_trainer (optimizer t) (config t) (epochs t) (train_queue t)
    (valid_queue t) x (train_top1 t) (train_top5 t) (train_loss t)
    (val_top1 t) (val_top5 t) (val_loss t) (errors_dict t) (scheduler t)
    (checkpointer t) (periodic_checkpointer t).

Definition set_train_top1 (x : AverageMeter.t F) (t : Trainer F O)
  : Trainer F O :=
  mk_trainer (optimizer t) (config t) (epochs t) (train_queue t)
    (valid_queue t) (test_queue t) x (train_top5 t) (train_loss t)
    (val_top1 t) (val_top5 t) (val_loss t) (errors_dict t) (scheduler t)
    (checkpointer t) (periodic_checkpointer t).

Definition set_train_top5 (x : AverageMeter.t F) (t : Trainer F O)
  : Trainer F O :=
  mk_trainer (optimizer t) (config t) (epochs t) (train_queue t)
    (valid_queue t) (test_queue t) (train_top1 t) x (train_loss t)
    (val_top1 t) (val_top5 t) (val_loss t) (errors_dict t) (scheduler t)
    (checkpointer t) (periodic_checkpointer t).

Definition set_train_loss (x : AverageMeter.t F) (t : Trainer F O)
  : Trainer F O :=
  mk_trainer (optimizer t) (config t) (epochs t) (train_queue t)
    (valid_queue t) (test_queue t) (train_top1 t) (train_top5 t) x
    (val_top1 t) (val_top5 t) (val_loss t) (errors_dict t) (scheduler t)
    (checkpointer t) (periodic_checkpointer t).

Definition set_val_top1 (x : AverageMeter.t F) (t : Trainer F O)
  : Trainer F O :=
  mk_trainer (optimizer t) (config t) (epochs t) (train_queue t)
    (valid_queue t) (test_queue t) (train_top1 t) (train_top5 t)
    (train_loss t) x (val_top5 t) (val_loss t) (errors_dict t) (scheduler t)
    (checkpointer t) (periodic_checkpointer t).

Definition set_val_top5 (x : AverageMeter.t F) (t : Trainer F O)
  : Trainer F O :=
  mk_trainer (optimizer t) (config t) (epochs t) (train_queue t)
    (valid_queue t) (test_queue t) (train_top1 t) (train_top5 t)
    (train_loss t) (val_top1 t) x (val_loss t) (errors_dict t) (scheduler t)
    (checkpointer t) (periodic_checkpointer t).

Definition set_val_loss (x : AverageMeter.t F) (t : Trainer F O)
  : Trainer F O :=
  mk_trainer (optimizer t) (config t) (epochs t) (train_queue t)
    (valid_queue t) (test_queue t) (train_top1 t) (train_top5 t)
    (train_loss t) (val_top1 t) (val_top5 t) x (errors_dict t) (scheduler t)
    (checkpointer t) (periodic_checkpointer t).

Definition set_errors_dict (x : ErrorsDict.t F) (t : Trainer F O)
  : Trainer F O :=
  mk_trainer (optimizer t) (config t) (epochs t) (train_queue t)
    (valid_queue t) (test_queue t) (train_top1 t) (train_top5 t)
    (train_loss t) (val_top1 t) (val_top5 t) (val_loss t) x (scheduler t)
    (checkpointer t) (periodic_checkpointer t).

Definition set_scheduler (x : option (Scheduler F)) (t : Trainer F O)
  : Trainer F O :=
  mk_trainer (optimizer t) (config t) (epochs t) (train_queue t)
    (valid_queue t) (test_queue t) (train_top1 t) (train_top5 t)
    (train_loss t) (val_top1 t) (val_top5 t) (val_loss t) (errors_dict t) x
    (checkpointer t) (periodic_checkpointer t).

Definition set_checkpointer (x : option Checkpointer) (t : Trainer F O)
  : Trainer F O :=
  mk_trainer (optimizer t) (config t) (epochs t) (train_queue t)
    (valid_queue t) (test_queue t) (train_top1 t) (train_top5 t)
    (train_loss t) (val_top1 t) (val_top5 t) (val_loss t) (errors_dict t)
    (scheduler t) x (periodic_checkpointer t).

Definition set_periodic_checkpointer (x : option PeriodicCheckpointer) (t : Trainer F O)
  : Trainer F O :=
  mk_trainer (optimizer t) (config t) (epochs t) (train_queue t)
    (valid_queue t) (test_queue t) (train_top1 t) (train_top5 t)
    (train_loss t) (val_top1 t) (val_top5 t) (val_loss t) (errors_dict t)
    (scheduler t) (checkpointer t) x.

End Attributes.

(** ** Primitive actions *)

Section Primitives.
Context {F : Type} {FO : FloatOps F} {TS : Tensors F}.
Context {O : Type} {OPT : Optimizer F O} {TORCH : Torch F O}.

Definition emit (ev : Event) : M F O unit :=
  set_world (fun w => mk_world (fs w) (clock w) (ticks w) (training w)
                               (grad_enabled w) (trace w ++ [ev])).

(** A method call on the optimizer or on a torch object it owns. *)
Definition call (ev : Event) (f : O -> O) : M F O unit :=
  emit ev ;;
  set_self (fun t => set_optimizer (f (optimizer t)) t).

(** The same, for a method that returns a result; the event may record
    it. *)
Definition call_with {A} (ev : A -> Event) (f : O -> O * A) : M F O A :=
  o <- self optimizer ;;
  emit (ev (snd (f o))) ;;
  set_self (set_optimizer (fst (f o))) ;;
  ret (snd (f o)).

(** [time.time()] *)
Definition time_time : M F O F :=
  now <- world (fun w => clock w (ticks w)) ;;
  set_world (fun w => mk_world (fs w) (clock w) (S (ticks w)) (training w)
                               (grad_enabled w) (trace w)) ;;
  ret now.

Definition set_fs (x : FileSystem F O) (w : World F O) : World F O :=
  mk_world x (clock w) (ticks w) (training w) (grad_enabled w) (trace w).

Definition set_training (b : bool) (w : World F O) : World F O :=
  mk_world (fs w) (clock w) (ticks w) b (grad_enabled w) (trace w).

Definition set_grad_enabled (b : bool) (w : World F O) : World F O :=
  mk_world (fs w) (clock w) (ticks w) (training w) b (trace w).

(** [os.path.isdir(p)], given the directories there are: no path is
    empty, and a path made of separators is the root. *)
Definition isdir (p : string) (ds : gset string) : bool :=
  negb (String.eqb p "") && (String.eqb (rstrip_sep p) "" || bool_decide (p ∈ ds)).

(** Whether a file has the path [p]. *)
Definition is_file (p : string) (x : FileSystem F O) : bool :=
  match files x !! p with Some _ => true | None => false end.

(** [os.path.exists(p)] *)
Definition fs_exists (p : string) (x : FileSystem F O) : bool :=
  isdir p (dirs x) || (negb (String.eqb p "") && is_file p x).

Definition os_path_exists (p : string) : M F O bool :=
  world (fun w => fs_exists p (fs w)).

(** [os.makedirs(p)]: [mkdir] refuses the empty path and a path that
    exists, and cannot go below a regular file; otherwise [p] and the
    directories above it that are missing are created. *)
Definition os_makedirs (p : string) : M F O unit :=
  x <- world fs ;;
  if String.eqb p "" then raise FileNotFoundError
  else if fs_exists p x then raise FileExistsError
  else if existsb (fun a => is_file a x) (ancestors p) then raise NotADirectoryError
  else
    set_world (set_fs (mk_fs ({[p]} ∪ list_to_set (ancestors p) ∪ dirs x) (files x))) ;;
    emit (EvMakedirs p).

(** What [open(p, 'w')] raises, if anything: the directory of [p] must
    exist, and [p] must not be a directory. *)
Definition open_error (p : string) (x : FileSystem F O) : option Exception :=
  if String.eqb p "" then Some FileNotFoundError
  else
    let q := rstrip_sep p in
    if String.eqb q "" then Some IsADirectoryError
    else
      let d := dirname q in
      if negb (String.eqb d "" || isdir d (dirs x)) then
        Some (if existsb (fun a => is_file a x) (d :: ancestors d)
              then NotADirectoryError else FileNotFoundError)
      else if ends_with_sep p || isdir q (dirs x) then Some IsADirectoryError
      else None.

(** [with open(p, 'w') as file: dump(data, file)]: once opened, the file
    is created or truncated, and then holds [data] alone. *)
Definition write_file (p : string) (data : FileData F O) : M F O unit :=
  x <- world fs ;;
  match open_error p x with
  | Some e => raise e
  | None => set_world (set_fs (mk_fs (dirs x) (<[p := data]> (files x))))
  end.

Definition read_file (p : string) : M F O (option (FileData F O)) :=
  world (fun w => files (fs w) !! p).

(** [with torch.no_grad(): c] *)
Definition no_grad {A} (c : M F O A) : M F O A :=
  prev <- world grad_enabled ;;
  set_world (set_grad_enabled false) ;;
  finally c (set_world (set_grad_enabled prev)).

(** *** fvcore *)

(** [Checkpointer.has_checkpoint()] *)
Definition has_checkpoint (c : Checkpointer) : M F O bool :=
  os_path_exists (os_path_join (save_dir c) ["last_checkpoint"]).

(** [Checkpointer.get_checkpoint_file()]: the file named by the text of
    [last_checkpoint], stripped, or [""] when [last_checkpoint] cannot be
    opened (an [IOError]: there is no such file).  A statistics file
    reads as the text [json.dump] wrote; a checkpoint is a pickle and does
    not decode as text. *)
Definition get_checkpoint_file (c : Checkpointer) : M F O string :=
  f <- read_file (os_path_join (save_dir c) ["last_checkpoint"]) ;;
  match f with
  | None => ret ""
  | Some (TextFile last_saved) => ret (os_path_join (save_dir c) [strip last_saved])
  | Some (JsonFile d) => ret (os_path_join (save_dir c) [strip (json_text d)])
  | Some (CheckpointFile _) => raise UnicodeDecodeError
  end.

(** The keys of a dictionary, in the order the map lists them. *)
Definition keys (m : gmap string Obj) : list string := (map_to_list m).*1.

(** [Checkpointer.load(path, checkpointables)]: nothing for an empty
    path; otherwise the file must exist and hold a checkpoint, whose model
    and requested objects are restored (those the file has), and whose
    remaining entries are returned. *)
Definition load (c : Checkpointer) (path : PyPath) (wanted : option (list string))
  : M F O (gmap string Z) :=
  if negb (truthy path) then ret ∅
  else match path with
       | PyTuple _ => raise TypeError
       | PyStr p =>
           f <- read_file p ;;
           match f with
           | None => raise AssertionError
           | Some (CheckpointFile ck) =>
               let requested := default (keys (checkpointables c)) wanted in
               let restored :=
                 "model" :: List.filter (fun k => bool_decide (k ∈ ck_keys ck)) requested in
               call (EvCheckpointLoad p) (load_state_dict restored (ck_state ck)) ;;
               ret (ck_extra ck)
           | Some _ => raise UnpicklingError
           end
       end.

(** [Checkpointer.resume_or_load(path, resume=resume)] *)
Definition resume_or_load (c : Checkpointer) (path : PyPath) (resume : bool)
  : M F O (gmap string Z) :=
  has <- has_checkpoint c ;;
  if resume && has
  then p <- get_checkpoint_file c ;; load c (PyStr p) None
  else load c path (Some []).

(** [Checkpointer.save(name, iteration=iteration)]: nothing without a
    [save_dir]; otherwise the state dictionaries go to
    [<save_dir>/<name>.pth], which is asserted to be a file of [save_dir],
    and then [last_checkpoint] gets the name of that file.  The directory
    is not created. *)
Definition save (c : Checkpointer) (name : string) (iteration : Z) : M F O unit :=
  if String.eqb (save_dir c) "" then ret tt
  else
    o <- self optimizer ;;
    let basename := name +:+ ".pth" in
    let save_file := os_path_join (save_dir c) [basename] in
    if negb (String.eqb (os_path_basename save_file) basename) then raise AssertionError
    else
      write_file save_file
        (CheckpointFile (mk_checkpoint o ("model" :: keys (checkpointables c))
                                       {["iteration" := iteration]})) ;;
      emit (EvCheckpointSave save_file iteration) ;;
      write_file (os_path_join (save_dir c) ["last_checkpoint"]) (TextFile basename).

(** [PeriodicCheckpointer.step(iteration)] *)
Definition periodic_step (p : PeriodicCheckpointer) (iteration : Z) : M F O unit :=
  (if (iteration + 1) mod period p =? 0
   then save (pc_checkpointer p) ("model_" +:+ format_07d iteration) iteration
   else ret tt) ;;
  (if iteration >=? max_iter p - 1
   then save (pc_checkpointer p) "model_final" iteration
   else ret tt).
End Primitives.

(** ** The [Trainer] class *)

Section TrainerCode.
Context {F : Type} {FO : FloatOps F} {TS : Tensors F}.
Context {O : Type} {OPT : Optimizer F O} {TORCH : Torch F O}.

(** [Trainer.__init__(optimizer, dataset, config)].  The data loaders come
    from [utils.get_train_val_loaders], which is not among the sources
    and is taken as given. *)
Definition __init__ (opt : O) (cfg : Config.t F) : Trainer F O :=
  let '(train, valid, test) := get_train_val_loaders (Config.search cfg) in
  mk_trainer opt cfg (Config.epochs (Config.search cfg))
             train valid test
             AverageMeter.new AverageMeter.new AverageMeter.new
             AverageMeter.new AverageMeter.new AverageMeter.new
             (ErrorsDict.empty (get_model_size opt))
             None None None.

(** [Trainer._prepare_dataloaders(config)] *)
Definition _prepare_dataloaders (cfg : Config.section F) : M F O unit :=
  let '(train, valid, test) := get_train_val_loaders cfg in
  set_self (set_train_queue train) ;;
  set_self (set_valid_queue valid) ;;
  set_self (set_test_queue test).

(** [Trainer._setup_checkpointers(resume_from, search, **add_checkpointables)] *)
Definition _setup_checkpointers (resume_from : PyPath) (search : bool)
           (add_checkpointables : gmap string Obj) : M F O Z :=
  o <- self optimizer ;;
  let checkpointables := add_checkpointables ∪ get_checkpointables o in
  match checkpointables !! "model" with
  | None => raise (KeyError "model")
  | Some m =>
      cfg <- self config ;;
      let checkpointer :=
        mk_checkpointer m
          (if search then Config.save cfg +:+ "/search" else Config.save cfg +:+ "/eval")
          (delete "model" checkpointables) in
      set_self (set_checkpointer (Some checkpointer)) ;;
      set_self (set_periodic_checkpointer
                  (Some (mk_periodic checkpointer 1
                           (if search then Config.epochs (Config.search cfg)
                            else Config.epochs (Config.evaluation cfg))))) ;;
      if truthy resume_from then
        checkpoint <- resume_or_load checkpointer resume_from true ;;
        has <- has_checkpoint checkpointer ;;
        if has then ret (default (-1) (checkpoint !! "iteration") + 1)
        else ret 0
      else ret 0
  end.

(** [self.scheduler], [self.periodic_checkpointer]: reading an attribute
    that was never assigned raises. *)
Definition get_scheduler : M F O (Scheduler F) :=
  s <- self scheduler ;;
  match s with
  | Some x => ret x
  | None => raise (AttributeError "scheduler")
  end.

Definition get_periodic_checkpointer : M F O PeriodicCheckpointer :=
  p <- self periodic_checkpointer ;;
  match p with
  | Some x => ret x
  | None => raise (AttributeError "periodic_checkpointer")
  end.

(** [Trainer._store_accuracies(logits, target, split)] *)
Definition _store_accuracies (logits : Logits) (target : Target) (split : string)
  : M F O unit :=
  let '(prec1, prec5) := accuracy logits target in
  let n := logits_size0 logits in
  if String.eqb split "train" then
    set_self (fun t => set_train_top1 (AverageMeter.update prec1 n (train_top1 t)) t) ;;
    set_self (fun t => set_train_top5 (AverageMeter.update prec5 n (train_top5 t)) t)
  else if String.eqb split "val" then
    set_self (fun t => set_val_top1 (AverageMeter.update prec1 n (val_top1 t)) t) ;;
    set_self (fun t => set_val_top5 (AverageMeter.update prec5 n (val_top5 t)) t)
  else raise ValueError.

(** [Trainer._log_and_reset_accuracies(epoch)].  The log line formats the
    averages with ['{:.5f}'], which accepts ints and floats alike. *)
Definition _log_and_reset_accuracies (epoch : Z) : M F O unit :=
  set_self (fun t => set_train_top1 (AverageMeter.reset (train_top1 t)) t) ;;
  set_self (fun t => set_train_top5 (AverageMeter.reset (train_top5 t)) t) ;;
  set_self (fun t => set_train_loss (AverageMeter.reset (train_loss t)) t) ;;
  set_self (fun t => set_val_top1 (AverageMeter.reset (val_top1 t)) t) ;;
  set_self (fun t => set_val_top5 (AverageMeter.reset (val_top5 t)) t) ;;
  set_self (fun t => set_val_loss (AverageMeter.reset (val_loss t)) t).

(** The file [log_to_json] writes. *)
Definition errors_path (cfg : Config.t F) : string :=
  os_path_join (Config.save cfg) ["errors_" +:+ str_of_int (Config.seed cfg) +:+ ".json"].

(** [Trainer.log_to_json()] *)
Definition log_to_json : M F O unit :=
  cfg <- self config ;;
  ex <- os_path_exists (Config.save cfg) ;;
  (if negb ex then os_makedirs (Config.save cfg) else ret tt) ;;
  d <- self errors_dict ;;
  write_file (errors_path cfg) (JsonFile d) ;;
  emit (EvJsonDump (errors_path cfg)).

(** *** [Trainer.search] *)

(** [d.<list>.append(x)] on [self.errors_dict] *)
Definition record (app : PyNum F -> ErrorsDict.t F -> ErrorsDict.t F) (x : PyNum F)
  : M F O unit :=
  set_self (fun t => set_errors_dict (app x (errors_dict t)) t).

(** Lines 96-102: what [search] does before its loop; the result is
    [start_epoch]. *)
Definition search_setup (resume_from : PyPath) : M F O Z :=
  call EvBeforeTraining before_training ;;
  o <- self optimizer ;;
  (if using_step_function o then
     n <- self epochs ;;
     cfg <- self config ;;
     let s := mk_scheduler (float_of_int n)
                           (Config.learning_rate_min (Config.search cfg)) in
     call EvSchedulerNew (scheduler_new s) ;;
     set_self (set_scheduler (Some s))
   else ret tt) ;;
  _ <- get_scheduler ;;
  _setup_checkpointers resume_from true {["scheduler" := ObjScheduler]}.

(** Lines 110-126: one pass of the inner loop, for one pair of batches.
    The log line reads [self.scheduler]. *)
Definition search_batch (b : Batch * Batch) : M F O unit :=
  let data_train := fst b in
  let data_val := snd b in
  stats <- call_with (fun _ => EvStep) (step data_train data_val) ;;
  let '(logits_train, logits_val, train_loss_, val_loss_) := stats in
  _store_accuracies logits_train (snd data_train) "train" ;;
  _store_accuracies logits_val (snd data_val) "val" ;;
  _ <- get_scheduler ;;
  set_self (fun t => set_train_loss (AverageMeter.update train_loss_ 1 (train_loss t)) t) ;;
  set_self (fun t => set_val_loss (AverageMeter.update val_loss_ 1 (val_loss t)) t).

(** Lines 105-156: the body of the epoch loop. *)
Definition search_epoch (e : Z) : M F O unit :=
  call (EvNewEpoch e) (new_epoch e) ;;
  start_time <- time_time ;;
  o <- self optimizer ;;
  (if using_step_function o then
     train <- self train_queue ;;
     valid <- self valid_queue ;;
     for_each (combine train valid) search_batch ;;
     s <- get_scheduler ;;
     call EvSchedulerStep (scheduler_step s) ;;
     p <- get_periodic_checkpointer ;;
     periodic_step p e ;;
     end_time <- time_time ;;
     x <- self (fun t => AverageMeter.avg (train_top1 t)) ;;
     record ErrorsDict.append_train_acc x ;;
     x <- self (fun t => AverageMeter.avg (train_loss t)) ;;
     record ErrorsDict.append_train_loss x ;;
     x <- self (fun t => AverageMeter.avg (val_top1 t)) ;;
     record ErrorsDict.append_valid_acc x ;;
     x <- self (fun t => AverageMeter.avg (val_loss t)) ;;
     record ErrorsDict.append_valid_loss x ;;
     record ErrorsDict.append_runtime (PyFloat (fsub end_time start_time))
   else
     end_time <- time_time ;;
     stats <- call_with (fun _ => EvTrainStatistics) train_statistics ;;
     let '(train_acc, train_loss_, valid_acc, valid_loss) := stats in
     record ErrorsDict.append_train_acc train_acc ;;
     record ErrorsDict.append_train_loss train_loss_ ;;
     record ErrorsDict.append_valid_acc valid_acc ;;
     record ErrorsDict.append_valid_loss valid_loss ;;
     record ErrorsDict.append_runtime (PyFloat (fsub end_time start_time)) ;;
     set_self (fun t => set_train_top1 (AverageMeter.set_avg train_acc (train_top1 t)) t) ;;
     set_self (fun t => set_val_top1 (AverageMeter.set_avg valid_acc (val_top1 t)) t)) ;;
  anytime_results <- call_with (fun r => EvTestStatistics (bool_decide (is_Some r)))
                               test_statistics ;;
  match anytime_results with
  | Some (acc, loss) =>
      record ErrorsDict.append_test_acc acc ;;
      record ErrorsDict.append_test_loss loss
  | None => ret tt
  end ;;
  log_to_json ;;
  _log_and_reset_accuracies e.

(** [Trainer.search(resume_from)] *)
Definition search (resume_from : PyPath) : M F O unit :=
  start_epoch <- search_setup resume_from ;;
  n <- self epochs ;;
  for_each (range start_epoch n) search_epoch ;;
  call EvAfterTraining after_training.
End TrainerCode.

(** *** [Trainer.evaluate] *)

Section EvaluateCode.
Context {F : Type} {FO : FloatOps F} {TS : Tensors F}.
Context {O : Type} {OPT : Optimizer F O} {TORCH : Torch F O}.

(** Lines 209-210.  The assignment ends in a comma, so the default is a
    one-element tuple holding the joined path. *)
Definition resolve_search_model (search_model : PyPath) : M F O PyPath :=
  if negb (truthy search_model) then
    cfg <- self config ;;
    ret (PyTuple [os_path_join (Config.save cfg) ["search"; "model_final.pth"]])
  else ret search_model.

(** ['{:.5}'.format(x)] inside a log line. *)
Definition check_format (x : PyNum F) : M F O unit :=
  match format_prec x with
  | Some e => raise e
  | None => ret tt
  end.

(** [best_arch(x)]: a forward pass in the current mode. *)
Definition best_arch_forward (x : Input) : M F O Logits :=
  tr <- world training ;;
  g <- world grad_enabled ;;
  call_with (fun _ => EvForward tr g x) (forward tr g x).

(** Lines 255-266: one training step of the retraining. *)
Definition retrain_batch (grad_clip : PyNum F) (b : Batch) : M F O unit :=
  let input_train := fst b in
  let target_train := snd b in
  call EvZeroGrad zero_grad ;;
  logits_train <- best_arch_forward input_train ;;
  call EvBackward (loss_backward logits_train target_train) ;;
  (if pynum_bool grad_clip then call EvClipGrad (clip_grad_norm grad_clip)
   else ret tt) ;;
  call EvOptimStep optim_step ;;
  _store_accuracies logits_train target_train "train".

(** Lines 254-279: one epoch of the retraining. *)
Definition retrain_epoch (sched : Scheduler F) (grad_clip : PyNum F) (e : Z)
  : M F O unit :=
  train <- self train_queue ;;
  for_each train (retrain_batch grad_clip) ;;
  call EvSchedulerStep (scheduler_step sched) ;;
  p <- get_periodic_checkpointer ;;
  periodic_step p e ;;
  top1 <- self (fun t => AverageMeter.avg (train_top1 t)) ;;
  top5 <- self (fun t => AverageMeter.avg (train_top5 t)) ;;
  check_format top1 ;;
  check_format top5 ;;
  set_self (fun t => set_train_top1 (AverageMeter.reset (train_top1 t)) t) ;;
  set_self (fun t => set_train_top5 (AverageMeter.reset (train_top5 t)) t).

(** Lines 225-279: retraining from scratch. *)
Definition retrain_from_scratch (resume_from : PyPath) : M F O unit :=
  call EvResetWeights reset_weights ;;
  cfg <- self config ;;
  let ev := Config.evaluation cfg in
  let epochs := Config.epochs ev in
  call EvGetOpOptimizer
       (get_op_optimizer (Config.learning_rate ev) (Config.momentum ev)
                         (Config.weight_decay ev)) ;;
  let sched := mk_scheduler (float_of_int epochs) (Config.learning_rate_min ev) in
  call EvSchedulerNew (scheduler_new sched) ;;
  start_epoch <- _setup_checkpointers resume_from false
                   {[ "model" := ObjArch; "optim" := ObjOptim;
                      "scheduler" := ObjScheduler ]} ;;
  let grad_clip := Config.grad_clip ev in
  call EvTrainMode train_mode ;;
  set_world (set_training true) ;;
  set_self (fun t => set_train_top1 (AverageMeter.reset (train_top1 t)) t) ;;
  set_self (fun t => set_train_top5 (AverageMeter.reset (train_top5 t)) t) ;;
  for_each (range start_epoch epochs) (retrain_epoch sched grad_clip).

(** Lines 287-301: the loop over the test queue, with the two local
    meters passed along. *)
Fixpoint measure (queue : list Batch) (top : AverageMeter.t F * AverageMeter.t F)
  : M F O (AverageMeter.t F * AverageMeter.t F) :=
  match queue with
  | [] => ret top
  | data_test :: rest =>
      let input_test := fst data_test in
      let target_test := snd data_test in
      let n := input_size0 input_test in
      top' <- no_grad
                (logits <- best_arch_forward input_test ;;
                 let '(prec1, prec5) := accuracy logits target_test in
                 ret (AverageMeter.update prec1 n (fst top),
                      AverageMeter.update prec5 n (snd top))) ;;
      measure rest top'
  end.

(** Lines 281-303: the final test accuracy, reported in the last log
    line. *)
Definition measure_test_accuracy : M F O unit :=
  call EvEvalMode eval_mode ;;
  set_world (set_training false) ;;
  test <- self test_queue ;;
  top <- measure test (AverageMeter.new, AverageMeter.new) ;;
  check_format (AverageMeter.avg (fst top)) ;;
  check_format (AverageMeter.avg (snd top)) ;;
  emit (EvTestAccuracies (AverageMeter.avg (fst top)) (AverageMeter.avg (snd top))).

(** [Trainer.evaluate(retrain, search_model, resume_from)] *)
Definition evaluate (retrain : bool) (search_model resume_from : PyPath)
  : M F O unit :=
  cfg <- self config ;;
  _prepare_dataloaders (Config.evaluation cfg) ;;
  search_model <- resolve_search_model search_model ;;
  _ <- _setup_checkpointers search_model true ∅ ;;
  call EvGetFinalArchitecture get_final_architecture ;;
  best_arch <- self optimizer ;;
  if QUERYABLE best_arch then
    call EvQuery (query "eval_acc1es" (Config.dataset cfg) (Config.data cfg))
  else
    call EvToDevice to_device ;;
    (if retrain then retrain_from_scratch resume_from else ret tt) ;;
    measure_test_accuracy.
End EvaluateCode.

(** ** The analysis script [evaluate_nasbench_201.py] *)

Module Analysis.

(** A value read by [json.load].  Numbers are read as floats. *)
#[warnings="-register-all"]
Inductive Json (F : Type) :=
| JNull
| JNum (x : F)
| JStr (s : string)
| JList (l : list (Json F))
| JDict (d : gmap string (Json F)).
Arguments JNull {F}.
Arguments JNum {F}.
Arguments JStr {F}.
Arguments JList {F}.
Arguments JDict {F}.

(** A result, or the exception raised, or nothing said: [Beyond] stands
    for a run on values beyond those modelled (arrays that are not
    matrices of numbers), of which no property is stated. *)
Inductive Res (A : Type) :=
| Ok (a : A)
| Err (e : Exception)
| Beyond.
Arguments Ok {A}.
Arguments Err {A}.
Arguments Beyond {A}.

Definition res_bind {A B} (r : Res A) (k : A -> Res B) : Res B :=
  match r with
  | Ok a => k a
  | Err e => Err e
  | Beyond => Beyond
  end.

(** [[f(x) for x in l]], stopping at the first exception. *)
Fixpoint res_map {A B} (f : A -> Res B) (l : list A) : Res (list B) :=
  match l with
  | [] => Ok []
  | x :: rest =>
      res_bind (f x) (fun y => res_bind (res_map f rest) (fun ys => Ok (y :: ys)))
  end.

(** numpy's reductions along axis 0, over the rows of a matrix. *)
Class Numpy (F : Type) := {
  np_mean_axis0 : list (list F) -> list F;
  np_std_axis0 : list (list F) -> list F
}.

(** The axis a curve is drawn on, and the two drawing calls. *)
Inductive Axis := AxLeft | AxRight.

Inductive Draw (F : Type) :=
| Plot (ax : Axis) (xs : list Z) (ys : list F)
       (label : option string) (marker : option string)
| FillBetween (ax : Axis) (xs : list Z) (lower upper : list F).
Arguments Plot {F}.
Arguments FillBetween {F}.

(** The module-level tables. *)
Definition optimizer_dir_name_to_name : gmap string string :=
  list_to_map
    [ ("DARTS", "DARTS"); ("GDAS", "GDAS"); ("PCDARTS", "PC-DARTS");
      ("SDARTSDARTS", "Smooth-DARTS"); ("SDARTSPCDARTS", "Smooth-PC-DARTS");
      ("SDARTSGDAS", "Smooth-GDAS") ].

Definition markers : gmap string string :=
  list_to_map
    [ ("SDARTSDARTS", "^"); ("SDARTSGDAS", "v"); ("RS", "D");
      ("SDARTSPCDARTS", "o"); ("GDAS", "s"); ("RL", "s"); ("True", "^");
      ("Surrogate", "h"); ("PC-DARTS", "^"); ("DARTS", "h");
      ("RandomNAS", "s"); ("HB", ">"); ("BOHB", "*"); ("TPE", "<") ].

Section Script.
Context {F : Type} {FO : FloatOps F} {NP : Numpy F}.

(** [v[k]] for a string key: a dictionary yields the entry or
    [KeyError]; nothing else takes a string index. *)
Definition getitem (v : Json F) (k : string) : Res (Json F) :=
  match v with
  | JDict d => match d !! k with
               | Some x => Ok x
               | None => Err (KeyError k)
               end
  | _ => Err TypeError
  end.

(** [for x in v]: the items of a list, the keys of a dictionary, the
    characters of a string. *)
Definition iterate (v : Json F) : Res (list (Json F)) :=
  match v with
  | JList l => Ok l
  | JDict d => Ok (map (fun kv => JStr (fst kv)) (map_to_list d))
  | JStr s => Ok (map (fun c => JStr (String c EmptyString)) (list_ascii_of_string s))
  | _ => Err TypeError
  end.

(** [get_nb_eval(optimizer_runs, dataset, metric)] *)
Definition get_nb_eval (optimizer_runs : list (Json F)) (dataset metric : string)
  : Res (list (list (Json F))) :=
  res_map
    (fun run =>
       res_bind (getitem run "arch_eval") (fun arch_eval =>
       res_bind (iterate arch_eval) (fun evals =>
       res_map (fun eval => res_bind (getitem eval dataset)
                                     (fun by_metric => getitem by_metric metric))
               evals)))
    optimizer_runs.

(** [np.array(rows)] for a list of lists: a float matrix when every entry
    is a number and the rows have one length, the empty array when there
    is no row.  Other arrays (ragged rows, entries that are not numbers)
    are beyond the model. *)
Definition as_number (v : Json F) : Res F :=
  match v with
  | JNum x => Ok x
  | _ => Beyond
  end.

Definition rectangular (rows : list (list F)) : bool :=
  match rows with
  | [] => true
  | r :: rest => forallb (fun r' => Nat.eqb (List.length r') (List.length r)) rest
  end.

Definition np_array (rows : list (list (Json F))) : Res (list (list F)) :=
  res_bind (res_map (res_map as_number) rows) (fun m =>
  if rectangular m then Ok m else Beyond).

(** A value [np.array] takes for a row: a list. *)
Definition as_row (v : Json F) : Res (list (Json F)) :=
  match v with
  | JList l => Ok l
  | _ => Beyond
  end.

(** [len(mean)] for [mean = np.mean(a, axis=0)]: the mean of an array
    without rows is a scalar, which has no length. *)
Definition len_mean (a : list (list F)) : Res Z :=
  match a with
  | [] => Err TypeError
  | _ => Ok (Z.of_nat (List.length (np_mean_axis0 a)))
  end.

(** [100 - a], element by element. *)
Definition hundred_minus (a : list (list F)) : list (list F) :=
  map (map (fun x => fsub (float_of_int 100) x)) a.

(** [a - b] and [a + b] on vectors. *)
Definition vsub (a b : list F) : list F := zip_with fsub a b.
Definition vadd (a b : list F) : list F := zip_with fadd a b.

(** [np.arange(n)] *)
Definition arange (n : Z) : list Z := range 0 n.

(** Lines 51-59: the test-error curve and band of one optimizer.  The
    arguments of [plot] are evaluated in order: [len(mean)] comes before
    the look-up of the label. *)
Definition draw_test_error (dataset : string) (entry : string * list (Json F))
  : Res (list (Draw F)) :=
  let optimizer_name := fst entry in
  let optimizer_runs := snd entry in
  res_bind (get_nb_eval optimizer_runs dataset "test_accuracy") (fun accs =>
  res_bind (np_array accs) (fun a =>
  let nb_test_error := hundred_minus a in
  let mean := np_mean_axis0 nb_test_error in
  let std := np_std_axis0 nb_test_error in
  res_bind (len_mean nb_test_error) (fun n =>
  match optimizer_dir_name_to_name !! optimizer_name with
  | None => Err (KeyError optimizer_name)
  | Some label =>
      Ok [ Plot AxLeft (arange n) mean (Some label) (markers !! optimizer_name);
           FillBetween AxLeft (arange n) (vsub mean std) (vadd mean std) ]
  end))).

(** Lines 70-74: the validation-error curve and band of one optimizer. *)
Definition draw_valid_error (entry : string * list (Json F)) : Res (list (Draw F)) :=
  let optimizer_runs := snd entry in
  res_bind (res_map (fun run => getitem run "valid_acc") optimizer_runs) (fun accs =>
  res_bind (res_map as_row accs) (fun rows =>
  res_bind (np_array rows) (fun a =>
  let one_shot_valid_error := hundred_minus a in
  let mean := np_mean_axis0 one_shot_valid_error in
  let std := np_std_axis0 one_shot_valid_error in
  res_bind (len_mean one_shot_valid_error) (fun n =>
  Ok [ Plot AxRight (arange n) mean None None;
       FillBetween AxRight (arange n) (vsub mean std) (vadd mean std) ])))).

(** [analyze(optimizer_dict, dataset)]: the drawing calls, in order.
    The dictionary is walked in insertion order, hence a list of
    entries. *)
Definition analyze (optimizer_dict : list (string * list (Json F))) (dataset : string)
  : Res (list (Draw F)) :=
  res_bind (res_map (draw_test_error dataset) optimizer_dict) (fun left =>
  res_bind (res_map draw_valid_error optimizer_dict) (fun right =>
  Ok (concat left ++ concat right)%list)).
End Script.
End Analysis.

(** ** A small concrete instance

    Integers stand in for floats, a batch is its size, and the optimizer is
    a record of switches.  The instance is only used to run the model on
    concrete inputs. *)

Module Toy.

#[export] Instance float_ops : FloatOps Z := {
  float_of_int := fun z => z;
  fadd := Z.add;
  fsub := Z.sub;
  fmul := Z.mul;
  fdiv := Z.div;
  float_bool := fun z => negb (z =? 0)
}.

(** A batch input is its size; logits are the size and a top-1 score. *)
#[export] Instance tensors : Tensors Z := {
  Input := positive;
  Target := unit;
  Logits := positive * Z;
  input_size0 := fun x => x;
  logits_size0 := fun l => fst l;
  accuracy := fun l _ => (snd l, 100)
}.

Record Opt := mk_opt {
  uses_step : bool;        (* using_step_function *)
  reports_test : bool;     (* whether test_statistics returns a result *)
  is_queryable : bool;     (* best_arch.QUERYABLE *)
  has_model : bool;        (* whether the checkpointables hold a model *)
  calls : Z                (* number of new_epoch calls seen *)
}.

#[export] Instance optimizer_ops : Optimizer Z Opt := {
  get_model_size := fun _ => 1;
  using_step_function := uses_step;
  before_training := fun o => o;
  new_epoch := fun _ o =>
    mk_opt (uses_step o) (reports_test o) (is_queryable o) (has_model o) (calls o + 1);
  step := fun data_train data_val o =>
    (o, ((fst data_train, 50), (fst data_val, 40), 3, 4));
  train_statistics := fun o => (o, (PyFloat 1, PyFloat 2, PyFloat 3, PyFloat 4));
  test_statistics := fun o =>
    (o, if reports_test o then Some (PyFloat 7, PyFloat 8) else None);
  after_training := fun o => o;
  get_checkpointables := fun o =>
    if has_model o
    then {[ "model" := ObjOwned "graph"; "op_optimizer" := ObjOwned "op_optimizer" ]}
    else {[ "op_optimizer" := ObjOwned "op_optimizer" ]};
  get_final_architecture := fun o => o;
  get_op_optimizer := fun _ _ _ o => o
}.

#[export] Instance torch_ops : Torch Z Opt := {
  scheduler_new := fun _ o => o;
  scheduler_step := fun _ o => o;
  load_state_dict := fun _ saved _ => saved;
  QUERYABLE := is_queryable;
  query := fun _ _ _ o => o;
  to_device := fun o => o;
  reset_weights := fun o => o;
  train_mode := fun o => o;
  eval_mode := fun o => o;
  forward := fun tr _ x o => (o, (x, if tr then 10 else 90));
  zero_grad := fun o => o;
  loss_backward := fun _ _ o => o;
  clip_grad_norm := fun _ o => o;
  optim_step := fun o => o;
  get_train_val_loaders := fun _ =>
    ([(2%positive, tt); (3%positive, tt)],
     [(2%positive, tt); (3%positive, tt)],
     [(4%positive, tt); (6%positive, tt)]);
  json_text := fun _ => "{}"
}.

Definition section_cfg (n : Z) : Config.section Z :=
  Config.mk_section n 1 0 0 0 (PyInt 5).

(** Three search epochs, two evaluation epochs, results under ["out"]. *)
Definition cfg : Config.t Z :=
  Config.mk "out" 7 "cifar10" "data" (section_cfg 3) (section_cfg 2).

(** An optimizer that trains by steps, and one that does not. *)
Definition stepper : Opt := mk_opt true true false true 0.
Definition sampler : Opt := mk_opt false false false true 0.

(** The world before anything ran: no file, the clock at 0. *)
Definition world0 : World Z Opt :=
  mk_world (mk_fs ∅ ∅) (fun n => Z.of_nat n) 0 false true [].

Definition start (o : Opt) : State Z Opt := (__init__ o cfg, world0).

(** The directories of a run: the save directory with [search] and
    [eval] in it. *)
Definition run_dirs : gset string := {[ "out"; "out/search"; "out/eval" ]}.

(** The world before a run: these directories and no file. *)
Definition world_ready : World Z Opt :=
  mk_world (mk_fs run_dirs ∅) (fun n => Z.of_nat n) 0 false true [].

Definition start_ready (o : Opt) : State Z Opt := (__init__ o cfg, world_ready).

(** An optimizer whose final architecture can be queried, and one without
    a model among its checkpointables. *)
Definition queryable : Opt := mk_opt true true true true 0.
Definition no_model : Opt := mk_opt true true false false 0.

(** A world whose only file is a checkpoint holding the optimizer [o]. *)
Definition world_with (o : Opt) : World Z Opt :=
  mk_world (mk_fs ∅ {[ "arch.pth" := CheckpointFile (mk_checkpoint o [] ∅) ]})
           (fun n => Z.of_nat n) 0 false true [].

(** A world whose search directory names a last checkpoint. *)
Definition world_resumable : World Z Opt :=
  mk_world (mk_fs ∅ {[ "out/search/last_checkpoint" := TextFile "model_0000000.pth";
                       "out/search/model_0000000.pth"
                       := CheckpointFile (mk_checkpoint stepper [] {[ "iteration" := 0 ]}) ]})
           (fun n => Z.of_nat n) 0 false true [].

(** A trainer as [search] has it in its loop. *)
Definition in_loop (o : Opt) : Trainer Z Opt :=
  set_periodic_checkpointer
    (Some (mk_periodic (mk_checkpointer (ObjOwned "graph") "out/search" ∅) 1 3))
    (set_scheduler (Some (mk_scheduler 3 0)) (__init__ o cfg)).

(** Statistics of two runs of two epochs. *)
Definition statistics : list (ErrorsDict.t Z) :=
  [ ErrorsDict.mk [] [] [PyFloat 80; PyFloat 81] [] [] [] [] 1;
    ErrorsDict.mk [] [] [PyFloat 82; PyInt 85] [] [] [] [] 1 ].


(** numpy on integer matrices: the mean of a column and the integer square
    root of its variance. *)
Definition columns (rows : list (list Z)) : list (list Z) :=
  match rows with
  | [] => []
  | r :: _ => map (fun i => map (fun row => nth i row 0) rows) (seq 0 (List.length r))
  end.

Definition total (c : list Z) : Z := fold_right Z.add 0 c.

Definition mean_of (c : list Z) : Z := total c / Z.of_nat (List.length c).

#[export] Instance numpy_ops : Analysis.Numpy Z := {
  Analysis.np_mean_axis0 := fun rows => map mean_of (columns rows);
  Analysis.np_std_axis0 := fun rows =>
    map (fun c => Z.sqrt (mean_of (map (fun x => (x - mean_of c) * (x - mean_of c)) c)))
        (columns rows)
}.

(** Two runs of two epochs, as the analysis script reads them. *)
Definition run_of (a b va vb : Z) : Analysis.Json Z :=
  let eval x : Analysis.Json Z :=
    Analysis.JDict {[ "cifar10" := Analysis.JDict {[ "test_accuracy" := Analysis.JNum x ]} ]} in
  Analysis.JDict
    {[ "arch_eval" := Analysis.JList [eval a; eval b];
       "valid_acc" := Analysis.JList [Analysis.JNum va; Analysis.JNum vb] ]}.

Definition runs : list (Analysis.Json Z) := [run_of 90 92 80 81; run_of 94 96 82 85].

End Toy.

(** A second instance, for an optimizer class that always trains by steps
    and always has a model among its checkpointables; the optimizer is a
    counter of its method calls, which [reset_weights] sets to 100 and
    every step of the retraining increments. *)
Module Stepper.
Import Toy.

#[export] Instance optimizer_ops : Optimizer Z Z := {
  get_model_size := fun _ => 1;
  using_step_function := fun _ => true;
  before_training := fun o => o + 1;
  new_epoch := fun _ o => o + 1;
  step := fun data_train data_val o =>
    (o + 1, ((fst data_train, 50), (fst data_val, 40), 3, 4));
  train_statistics := fun o => (o, (PyFloat 1, PyFloat 2, PyFloat 3, PyFloat 4));
  test_statistics := fun o => (o, None);
  after_training := fun o => o + 1;
  get_checkpointables := fun _ => {[ "model" := ObjOwned "graph" ]};
  get_final_architecture := fun o => o;
  get_op_optimizer := fun _ _ _ o => o
}.

#[export] Instance torch_ops : Torch Z Z := {
  scheduler_new := fun _ o => o;
  scheduler_step := fun _ o => o;
  load_state_dict := fun _ saved _ => saved;
  QUERYABLE := fun _ => false;
  query := fun _ _ _ o => o;
  to_device := fun o => o;
  reset_weights := fun _ => 100;
  train_mode := fun o => o;
  eval_mode := fun o => o;
  forward := fun tr _ x o => (o, (x, if tr then 10 else 90));
  zero_grad := fun o => o;
  loss_backward := fun _ _ o => o;
  clip_grad_norm := fun _ o => o;
  optim_step := fun o => o + 1;
  get_train_val_loaders := fun _ =>
    ([(2%positive, tt)], [(2%positive, tt)], [(4%positive, tt)]);
  json_text := fun _ => "{}"
}.

Definition world0 : World Z Z :=
  mk_world (mk_fs ∅ ∅) (fun n => Z.of_nat n) 0 false true [].

Definition start : State Z Z := (__init__ 0 cfg, world0).

(** The world before a run: the directories of a run and no file. *)
Definition world_ready : World Z Z :=
  mk_world (mk_fs run_dirs ∅) (fun n => Z.of_nat n) 0 false true [].

Definition start_ready : State Z Z := (__init__ 0 cfg, world_ready).

(** The world after a search: the last checkpoint of the search directory
    is [model_final.pth]. *)
Definition world_searched : World Z Z :=
  mk_world (mk_fs run_dirs
                  {[ "out/search/last_checkpoint" := TextFile "model_final.pth";
                     "out/search/model_final.pth"
                     := CheckpointFile (mk_checkpoint 5 [] {[ "iteration" := 2 ]}) ]})
           (fun n => Z.of_nat n) 0 false true [].

(** A world whose only file is a checkpoint of the search model. *)
Definition world_with_model : World Z Z :=
  mk_world (mk_fs ∅ {[ "out/search/model_final.pth" := CheckpointFile (mk_checkpoint 5 [] ∅) ]})
           (fun n => Z.of_nat n) 0 false true [].
End Stepper.

(** ** Observations on traces and states *)

Section Observations.
Context {F : Type} {FO : FloatOps F} {TS : Tensors F}.
Context {O : Type} {OPT : Optimizer F O} {TORCH : Torch F O}.

(** The epochs passed to [optimizer.new_epoch], in call order. *)
Definition new_epoch_calls (evs : list (@Event F TS)) : list Z :=
  flat_map (fun ev => match ev with EvNewEpoch e => [e] | _ => [] end) evs.

(** The paths [json.dump] wrote to, in call order. *)
Definition json_dumps (evs : list (@Event F TS)) : list string :=
  flat_map (fun ev => match ev with EvJsonDump p => [p] | _ => [] end) evs.

(** The checkpoints saved: file and iteration, in call order. *)
Definition checkpoint_saves (evs : list (@Event F TS)) : list (string * Z) :=
  flat_map (fun ev => match ev with EvCheckpointSave p i => [(p, i)] | _ => [] end) evs.

(** The number of [optimizer.test_statistics()] calls with a truthy
    result. *)
Definition truthy_tests (evs : list (@Event F TS)) : nat :=
  List.length (List.filter (fun ev => match ev with
                                      | EvTestStatistics b => b
                                      | _ => false
                                      end) evs).

(** The events of the training loop proper: gradient steps and forward
    passes in training mode. *)
Definition is_training_event (ev : @Event F TS) : bool :=
  match ev with
  | EvZeroGrad | EvBackward | EvClipGrad | EvOptimStep => true
  | EvForward tr _ _ => tr
  | _ => false
  end.

(** The world with more events in its trace. *)
Definition add_events (evs : list (@Event F TS)) (w : World F O) : World F O :=
  mk_world (fs w) (clock w) (ticks w) (training w) (grad_enabled w) (trace w ++ evs).

(** The attributes the loops leave alone. *)
Definition same_setup (t t' : Trainer F O) : Prop :=
  config t' = config t /\ epochs t' = epochs t /\
  train_queue t' = train_queue t /\ valid_queue t' = valid_queue t /\
  test_queue t' = test_queue t /\ scheduler t' = scheduler t /\
  checkpointer t' = checkpointer t /\
  periodic_checkpointer t' = periodic_checkpointer t.

(** The attributes [search] needs in its loop are there. *)
Definition ready (t : Trainer F O) : Prop :=
  (exists s, scheduler t = Some s) /\ (exists p, periodic_checkpointer t = Some p).

(** All six meters are in their reset state. *)
Definition meters_reset (t : Trainer F O) : Prop :=
  train_top1 t = AverageMeter.new /\ train_top5 t = AverageMeter.new /\
  train_loss t = AverageMeter.new /\ val_top1 t = AverageMeter.new /\
  val_top5 t = AverageMeter.new /\ val_loss t = AverageMeter.new.

(** The five lists that get an entry in every epoch all have [n] more
    entries in [d'] than in [d]. *)
Definition grown (n : nat) (d d' : ErrorsDict.t F) : Prop :=
  List.length (ErrorsDict.train_acc d') = (List.length (ErrorsDict.train_acc d) + n)%nat /\
  List.length (ErrorsDict.train_loss d') = (List.length (ErrorsDict.train_loss d) + n)%nat /\
  List.length (ErrorsDict.valid_acc d') = (List.length (ErrorsDict.valid_acc d) + n)%nat /\
  List.length (ErrorsDict.valid_loss d') = (List.length (ErrorsDict.valid_loss d) + n)%nat /\
  List.length (ErrorsDict.runtime d') = (List.length (ErrorsDict.runtime d) + n)%nat.

(** A meter fed a list of values with their weights. *)
Definition meter_fold (l : list (F * positive)) (m : AverageMeter.t F) : AverageMeter.t F :=
  fold_left (fun m vn => AverageMeter.update (fst vn) (snd vn) m) l m.

(** What [optimizer.step] returns along the batches of one epoch, with the
    targets of the two batches. *)
Fixpoint epoch_steps (o : O) (l : list (Batch * Batch))
  : list (Target * Target * (Logits * Logits * F * F)) :=
  match l with
  | [] => []
  | b :: rest =>
      let r := step (fst b) (snd b) o in
      (snd (fst b), snd (snd b), snd r) :: epoch_steps (fst r) rest
  end.

(** The optimizer after these steps. *)
Fixpoint after_steps (o : O) (l : list (Batch * Batch)) : O :=
  match l with
  | [] => o
  | b :: rest => after_steps (fst (step (fst b) (snd b) o)) rest
  end.

(** What one epoch feeds to the four meters whose averages are recorded. *)
Definition train_top1_feed (r : Target * Target * (Logits * Logits * F * F)) : F * positive :=
  let '(target_train, _, (logits_train, _, _, _)) := r in
  (fst (accuracy logits_train target_train), logits_size0 logits_train).

Definition val_top1_feed (r : Target * Target * (Logits * Logits * F * F)) : F * positive :=
  let '(_, target_val, (_, logits_val, _, _)) := r in
  (fst (accuracy logits_val target_val), logits_size0 logits_val).

Definition train_loss_feed (r : Target * Target * (Logits * Logits * F * F)) : F * positive :=
  let '(_, _, (_, _, train_loss, _)) := r in (train_loss, 1%positive).

Definition val_loss_feed (r : Target * Target * (Logits * Logits * F * F)) : F * positive :=
  let '(_, _, (_, _, _, val_loss)) := r in (val_loss, 1%positive).

(** The accuracies and batch sizes of a pass over the test queue in
    evaluation mode with gradients off. *)
Fixpoint test_pass (o : O) (queue : list Batch) : list ((F * F) * positive) :=
  match queue with
  | [] => []
  | b :: rest =>
      let r := forward false false (fst b) o in
      (accuracy (snd r) (snd b), input_size0 (fst b)) :: test_pass (fst r) rest
  end.
End Observations.

(** ** The file system after a checkpoint *)

Section CheckpointFiles.
Context {F : Type} {FO : FloatOps F} {TS : Tensors F}.
Context {O : Type} {OPT : Optimizer F O} {TORCH : Torch F O}.

(** The files after [Checkpointer.save(name, iteration=iteration)] when the
    torch side is in state [o]. *)
Definition save_files (c : Checkpointer) (name : string) (iteration : Z) (o : O)
           (fl : gmap string (FileData F O)) : gmap string (FileData F O) :=
  if String.eqb (save_dir c) "" then fl
  else
    <[os_path_join (save_dir c) ["last_checkpoint"] := TextFile (name +:+ ".pth")]>
      (<[os_path_join (save_dir c) [name +:+ ".pth"] :=
           CheckpointFile (mk_checkpoint o ("model" :: keys (checkpointables c))
                                         {["iteration" := iteration]})]> fl).

(** The events of that call. *)
Definition save_events (c : Checkpointer) (name : string) (iteration : Z)
  : list (@Event F TS) :=
  if String.eqb (save_dir c) "" then []
  else [EvCheckpointSave (os_path_join (save_dir c) [name +:+ ".pth"]) iteration].

(** The files and the events after [PeriodicCheckpointer.step(iteration)]. *)
Definition periodic_files (p : PeriodicCheckpointer) (iteration : Z) (o : O)
           (fl : gmap string (FileData F O)) : gmap string (FileData F O) :=
  let fl1 := if (iteration + 1) mod period p =? 0
             then save_files (pc_checkpointer p) ("model_" +:+ format_07d iteration)
                             iteration o fl
             else fl in
  if iteration >=? max_iter p - 1
  then save_files (pc_checkpointer p) "model_final" iteration o fl1
  else fl1.

Definition periodic_events (p : PeriodicCheckpointer) (iteration : Z)
  : list (@Event F TS) :=
  ((if (iteration + 1) mod period p =? 0
    then save_events (pc_checkpointer p) ("model_" +:+ format_07d iteration) iteration
    else []) ++
   (if iteration >=? max_iter p - 1
    then save_events (pc_checkpointer p) "model_final" iteration
    else []))%list.
End CheckpointFiles.

(** ** What one search epoch does *)

Section EpochRecord.
Context {F : Type} {FO : FloatOps F} {TS : Tensors F}.
Context {O : Type} {OPT : Optimizer F O} {TORCH : Torch F O}.

(** The state [st'] is what one pass of the epoch loop for epoch [e] makes
    of [st], with [p] the periodic checkpointer of the trainer. *)
Definition epoch_done (e : Z) (p : PeriodicCheckpointer) (st st' : State F O) : Prop :=
  let t := fst st in
  let w := snd st in
  let t' := fst st' in
  let w' := snd st' in
  let o1 := new_epoch e (optimizer t) in
  let batches := combine (train_queue t) (valid_queue t) in
  let usf := using_step_function o1 in
  let d := errors_dict t in
  let d' := errors_dict t' in
  same_setup t t' /\ meters_reset t' /\
  grown 1 d d' /\
  (exists evs tests,
      trace w' = (trace w ++ evs)%list /\
      new_epoch_calls evs = [e] /\
      json_dumps evs = [errors_path (config t)] /\
      checkpoint_saves evs
      = (if usf then checkpoint_saves (periodic_events p e) else []) /\
      ErrorsDict.test_acc d' = (ErrorsDict.test_acc d ++ map fst tests)%list /\
      ErrorsDict.test_loss d' = (ErrorsDict.test_loss d ++ map snd tests)%list /\
      List.length tests = truthy_tests evs /\
      (List.length tests <= 1)%nat) /\
  (exists o2,
      files (fs w')
      = <[errors_path (config t) := JsonFile d']>
          (if usf then periodic_files p e o2 (files (fs w)) else files (fs w))) /\
  dirs (fs w') = dirs (fs w) /\
  (usf = true ->
   let steps := epoch_steps o1 batches in
   ErrorsDict.train_acc d'
   = (ErrorsDict.train_acc d
      ++ [AverageMeter.avg (meter_fold (map train_top1_feed steps) (train_top1 t))])%list /\
   ErrorsDict.train_loss d'
   = (ErrorsDict.train_loss d
      ++ [AverageMeter.avg (meter_fold (map train_loss_feed steps) (train_loss t))])%list /\
   ErrorsDict.valid_acc d'
   = (ErrorsDict.valid_acc d
      ++ [AverageMeter.avg (meter_fold (map val_top1_feed steps) (val_top1 t))])%list /\
   ErrorsDict.valid_loss d'
   = (ErrorsDict.valid_loss d
      ++ [AverageMeter.avg (meter_fold (map val_loss_feed steps) (val_loss t))])%list) /\
  (usf = false ->
   let r := snd (train_statistics o1) in
   ErrorsDict.train_acc d' = (ErrorsDict.train_acc d ++ [fst (fst (fst r))])%list /\
   ErrorsDict.train_loss d' = (ErrorsDict.train_loss d ++ [snd (fst (fst r))])%list /\
   ErrorsDict.valid_acc d' = (ErrorsDict.valid_acc d ++ [snd (fst r)])%list /\
   ErrorsDict.valid_loss d' = (ErrorsDict.valid_loss d ++ [snd r])%list).
End EpochRecord.

(** ** The checkpointer [_setup_checkpointers] builds *)

Section MadeCheckpointer.
Context {F : Type} {FO : FloatOps F} {TS : Tensors F}.
Context {O : Type} {OPT : Optimizer F O} {TORCH : Torch F O}.

(** The directory the checkpoints of a search or of an evaluation go to. *)
Definition checkpoint_dir (search : bool) (cfg : Config.t F) : string :=
  if search then Config.save cfg +:+ "/search" else Config.save cfg +:+ "/eval".

(** The checkpointer for model [m], with the optimizer's checkpointables
    and the extra ones [kw]. *)
Definition made_checkpointer (search : bool) (kw : gmap string Obj) (t : Trainer F O)
           (m : Obj) : Checkpointer :=
  mk_checkpointer m (checkpoint_dir search (config t))
                  (delete "model" (kw ∪ get_checkpointables (optimizer t))).

(** The trainer once both checkpointers are assigned. *)
Definition with_checkpointers (search : bool) (kw : gmap string Obj) (t : Trainer F O)
           (m : Obj) : Trainer F O :=
  set_periodic_checkpointer
    (Some (mk_periodic (made_checkpointer search kw t m) 1
                       (if search then Config.epochs (Config.search (config t))
                        else Config.epochs (Config.evaluation (config t)))))
    (set_checkpointer (Some (made_checkpointer search kw t m)) t).

(** The file that names the last checkpoint of a directory. *)
Definition last_checkpoint_file (dir : string) : string :=
  os_path_join dir ["last_checkpoint"].
End MadeCheckpointer.

(** ** The directories a run needs *)

Section Directories.
Context {F : Type} {TS : Tensors F} {O : Type}.

(** A checkpointer can write into [d]: [d] is a directory, written
    without a trailing separator, and it holds no directory (no directory
    has [d] for its [dirname]), so that no name in it is taken. *)
Definition checkpoint_dir_ready (d : string) (ds : gset string) : Prop :=
  negb (ends_with_sep d) && isdir d ds
  && bool_decide (set_Forall (fun p => dirname p <> d) ds) = true.

(** [log_to_json] finds its directory: [config.save] is a directory,
    written without a trailing separator, and the path of the statistics
    file is not that of a directory. *)
Definition log_ready (cfg : Config.t F) (ds : gset string) : Prop :=
  negb (ends_with_sep (Config.save cfg)) && isdir (Config.save cfg) ds
  && negb (isdir (errors_path cfg) ds) = true.

(** [log_to_json] finds its directory or can make it: in the second case
    [config.save] is not empty, nothing has that path, and no path above
    it is a file. *)
Definition can_log (cfg : Config.t F) (x : FileSystem F O) : Prop :=
  negb (ends_with_sep (Config.save cfg)) && negb (isdir (errors_path cfg) (dirs x))
  && (isdir (Config.save cfg) (dirs x)
      || negb (String.eqb (Config.save cfg) "") && negb (fs_exists (Config.save cfg) x)
         && negb (existsb (fun a => is_file a x) (ancestors (Config.save cfg)))) = true.

(** What a search needs on disk: the save directory and its directory
    [search]. *)
Definition search_ready (cfg : Config.t F) (ds : gset string) : Prop :=
  log_ready cfg ds /\ checkpoint_dir_ready (checkpoint_dir true cfg) ds.

(** What a retraining needs on disk: the directory [eval] of the save
    directory. *)
Definition eval_ready (cfg : Config.t F) (ds : gset string) : Prop :=
  checkpoint_dir_ready (checkpoint_dir false cfg) ds.

(** The directories the epoch loop of a trainer writes to are there. *)
Definition loop_ready (st : State F O) : Prop :=
  log_ready (config (fst st)) (dirs (fs (snd st))) /\
  forall p, periodic_checkpointer (fst st) = Some p ->
            checkpoint_dir_ready (save_dir (pc_checkpointer p)) (dirs (fs (snd st))).
End Directories.

(** ** What a run of search epochs does *)

Section EpochsRecord.
Context {F : Type} {FO : FloatOps F} {TS : Tensors F}.
Context {O : Type} {OPT : Optimizer F O} {TORCH : Torch F O}.

(** Events that are none of the calls counted below. *)
Definition silent (evs : list (@Event F TS)) : Prop :=
  new_epoch_calls evs = [] /\ json_dumps evs = [] /\
  checkpoint_saves evs = [] /\ truthy_tests evs = 0%nat.

(** The state [st'] is what the epoch loop over the epochs [es] makes of
    [st]. *)
Definition epochs_done (es : list Z) (st st' : State F O) : Prop :=
  let t := fst st in
  let w := snd st in
  let t' := fst st' in
  let w' := snd st' in
  let d := errors_dict t in
  let d' := errors_dict t' in
  same_setup t t' /\
  grown (List.length es) d d' /\
  (meters_reset t -> meters_reset t') /\
  (es <> [] -> meters_reset t') /\
  (exists evs,
      trace w' = (trace w ++ evs)%list /\
      new_epoch_calls evs = es /\
      json_dumps evs = repeat (errors_path (config t)) (List.length es) /\
      List.length (ErrorsDict.test_acc d')
      = (List.length (ErrorsDict.test_acc d) + truthy_tests evs)%nat /\
      List.length (ErrorsDict.test_loss d')
      = (List.length (ErrorsDict.test_loss d) + truthy_tests evs)%nat /\
      (truthy_tests evs <= List.length es)%nat /\
      ((forall o, using_step_function o = true) ->
       forall p, periodic_checkpointer t = Some p ->
                 checkpoint_saves evs
                 = flat_map (fun e => checkpoint_saves (periodic_events p e)) es)) /\
  dirs (fs w') = dirs (fs w) /\
  (es <> [] -> files (fs w') !! errors_path (config t) = Some (JsonFile d')).
End EpochsRecord.

(** ** The state when the epoch loop of [search] starts *)

Section SearchSetUp.
Context {F : Type} {FO : FloatOps F} {TS : Tensors F}.
Context {O : Type} {OPT : Optimizer F O} {TORCH : Torch F O}.

(** The state [st1] is what lines 96-102 of [search] make of the trainer
    [t] in the world [w]: the scheduler and both checkpointers are there,
    the periodic one with period 1 on the search directory; queues, meters
    and statistics are as before; no file changed, no epoch ran. *)
Definition search_set_up (t : Trainer F O) (w : World F O) (st1 : State F O) : Prop :=
  let t1 := fst st1 in
  let w1 := snd st1 in
  config t1 = config t /\ epochs t1 = epochs t /\
  train_queue t1 = train_queue t /\ valid_queue t1 = valid_queue t /\
  test_queue t1 = test_queue t /\
  train_top1 t1 = train_top1 t /\ train_top5 t1 = train_top5 t /\
  train_loss t1 = train_loss t /\ val_top1 t1 = val_top1 t /\
  val_top5 t1 = val_top5 t /\ val_loss t1 = val_loss t /\
  errors_dict t1 = errors_dict t /\
  (exists s, scheduler t1 = Some s) /\
  (exists c, periodic_checkpointer t1
             = Some (mk_periodic c 1 (Config.epochs (Config.search (config t)))) /\
             save_dir c = checkpoint_dir true (config t)) /\
  fs w1 = fs w /\
  (exists evs, trace w1 = (trace w ++ evs)%list /\ silent evs) /\
  (scheduler t = None -> using_step_function (before_training (optimizer t)) = true).
End SearchSetUp.

(** ** Observations on an evaluation *)

Section EvaluationRecord.
Context {F : Type} {FO : FloatOps F} {TS : Tensors F}.
Context {O : Type} {OPT : Optimizer F O} {TORCH : Torch F O}.

(** The events the retraining loop of [evaluate] can cause: gradient
    steps, forward passes in training mode, scheduler steps and checkpoint
    saves. *)
Definition retraining_event (ev : @Event F TS) : bool :=
  match ev with
  | EvZeroGrad | EvBackward | EvClipGrad | EvOptimStep
  | EvSchedulerStep | EvCheckpointSave _ _ => true
  | EvForward tr _ _ => tr
  | _ => false
  end.

(** The number of [optim.step()] calls. *)
Definition optim_steps (evs : list (@Event F TS)) : nat :=
  List.length (List.filter (fun ev => match ev with EvOptimStep => true | _ => false end) evs).

(** The torch side after a pass over the test queue. *)
Fixpoint after_test_pass (o : O) (queue : list Batch) : O :=
  match queue with
  | [] => o
  | b :: rest => after_test_pass (fst (forward false false (fst b) o)) rest
  end.

(** What a test pass feeds to the top-1 and to the top-5 meter. *)
Definition top1_feed (r : (F * F) * positive) : F * positive := (fst (fst r), snd r).
Definition top5_feed (r : (F * F) * positive) : F * positive := (snd (fst r), snd r).

(** The trainer with the queues [_prepare_dataloaders] assigns. *)
Definition with_dataloaders (cfg : Config.section F) (t : Trainer F O) : Trainer F O :=
  let '(train, valid, test) := get_train_val_loaders cfg in
  set_test_queue test (set_valid_queue valid (set_train_queue train t)).

(** The trainer after a stretch of retraining: the torch side and the two
    training meters changed, nothing else. *)
Definition retrained_trainer (o' : O) (m1 m5 : AverageMeter.t F) (t : Trainer F O)
  : Trainer F O :=
  set_train_top5 m5 (set_train_top1 m1 (set_optimizer o' t)).

(** The world after it: checkpoint files and events were added. *)
Definition retrained_world (fl : gmap string (FileData F O)) (evs : list (@Event F TS))
           (w : World F O) : World F O :=
  mk_world (mk_fs (dirs (fs w)) fl) (clock w) (ticks w) (training w) (grad_enabled w)
           (trace w ++ evs).

(** Lines 255-262 on the torch side: one training step on the batch [b],
    with the gradient switch [g]. *)
Definition retrain_step (gc : PyNum F) (g : bool) (o : O) (b : Batch) : O :=
  let r := forward true g (fst b) (zero_grad o) in
  let o3 := loss_backward (snd r) (snd b) (fst r) in
  optim_step (if pynum_bool gc then clip_grad_norm gc o3 else o3).

Definition retrain_step_events (gc : PyNum F) (g : bool) (b : Batch) : list (@Event F TS) :=
  ([EvZeroGrad; EvForward true g (fst b); EvBackward]
   ++ (if pynum_bool gc then [EvClipGrad] else []) ++ [EvOptimStep])%list.

(** What a training step feeds to the top-1 and to the top-5 meter. *)
Definition retrain_step_feed (g : bool) (o : O) (b : Batch) : (F * F) * positive :=
  let r := forward true g (fst b) (zero_grad o) in
  (accuracy (snd r) (snd b), logits_size0 (snd r)).

(** A pass over the training queue. *)
Definition retrain_pass (gc : PyNum F) (g : bool) (queue : list Batch) (o : O) : O :=
  fold_left (retrain_step gc g) queue o.

Definition retrain_pass_events (gc : PyNum F) (g : bool) (queue : list Batch)
  : list (@Event F TS) :=
  flat_map (retrain_step_events gc g) queue.

Fixpoint retrain_pass_feed (gc : PyNum F) (g : bool) (queue : list Batch) (o : O)
  : list ((F * F) * positive) :=
  match queue with
  | [] => []
  | b :: rest => retrain_step_feed g o b :: retrain_pass_feed gc g rest (retrain_step gc g o b)
  end.

(** Lines 254-268 on the torch side: one epoch is a pass over the queue
    and a step of the scheduler. *)
Definition retrain_epoch_state (sched : Scheduler F) (gc : PyNum F) (g : bool)
           (queue : list Batch) (o : O) : O :=
  scheduler_step sched (retrain_pass gc g queue o).

(** The torch side after the epochs [es], the files they leave with the
    periodic checkpointer [p], and their events. *)
Definition retrained (sched : Scheduler F) (gc : PyNum F) (g : bool) (queue : list Batch)
           (es : list Z) (o : O) : O :=
  fold_left (fun o' _ => retrain_epoch_state sched gc g queue o') es o.

Fixpoint retrain_files (sched : Scheduler F) (gc : PyNum F) (g : bool) (queue : list Batch)
         (p : PeriodicCheckpointer) (es : list Z) (o : O)
         (fl : gmap string (FileData F O)) : gmap string (FileData F O) :=
  match es with
  | [] => fl
  | e :: rest =>
      let o' := retrain_epoch_state sched gc g queue o in
      retrain_files sched gc g queue p rest o' (periodic_files p e o' fl)
  end.

Definition retrain_events (gc : PyNum F) (g : bool) (queue : list Batch)
           (p : PeriodicCheckpointer) (es : list Z) : list (@Event F TS) :=
  flat_map (fun e => retrain_pass_events gc g queue ++ [EvSchedulerStep]
                     ++ periodic_events p e)%list es.
End EvaluationRecord.


(** ** Observations on the drawing calls *)

(** The calls on the left axis, which shows the test error. *)
Definition on_left_axis {F} (d : Analysis.Draw F) : bool :=
  match d with
  | Analysis.Plot Analysis.AxLeft _ _ _ _
  | Analysis.FillBetween Analysis.AxLeft _ _ _ => true
  | _ => false
  end.

(** The calls on the right axis, which shows the validation error. *)
Definition on_right_axis {F} (d : Analysis.Draw F) : bool :=
  match d with
  | Analysis.Plot Analysis.AxRight _ _ _ _
  | Analysis.FillBetween Analysis.AxRight _ _ _ => true
  | _ => false
  end.

(** What [json.load] reads back from a file holding [errors_dict]. *)
Definition json_of_errors_dict {F} `{FloatOps F} (d : ErrorsDict.t F) : Analysis.Json F :=
  let numbers l := Analysis.JList (map (fun x => Analysis.JNum (to_float x)) l) in
  Analysis.JDict
    (list_to_map
       [ ("train_acc", numbers (ErrorsDict.train_acc d));
         ("train_loss", numbers (ErrorsDict.train_loss d));
         ("valid_acc", numbers (ErrorsDict.valid_acc d));
         ("valid_loss", numbers (ErrorsDict.valid_loss d));
         ("test_acc", numbers (ErrorsDict.test_acc d));
         ("test_loss", numbers (ErrorsDict.test_loss d));
         ("runtime", numbers (ErrorsDict.runtime d));
         ("params", Analysis.JNum (ErrorsDict.params d)) ]).


(** ** Further observations *)

Section FurtherObservations.
Context {F : Type} {FO : FloatOps F} {TS : Tensors F}.
Context {O : Type} {OPT : Optimizer F O} {TORCH : Torch F O}.

(** The events of [log_to_json] in a world. *)
Definition log_events (cfg : Config.t F) (w : World F O) : list (@Event F TS) :=
  ((if fs_exists (Config.save cfg) (fs w) then [] else [EvMakedirs (Config.save cfg)])
   ++ [EvJsonDump (errors_path cfg)])%list.

(** The events of a [test_statistics] call on the torch side [o]. *)
Definition test_events (o : O) : list (@Event F TS) :=
  [EvTestStatistics (bool_decide (is_Some (snd (test_statistics o))))].
End FurtherObservations.


(** * Properties *)

(** ** Running the monad *)

Section MonadFacts.
Context {F : Type} {TS : Tensors F} {O : Type}.

Lemma bind_return {A B} (c : M F O A) (k : A -> M F O B) s a s' :
  c s = Return a s' -> bind c k s = k a s'.
Proof. intros H. unfold bind. now rewrite H. Qed.

Lemma bind_raise {A B} (c : M F O A) (k : A -> M F O B) s e s' :
  c s = Raise e s' -> bind c k s = Raise e s'.
Proof. intros H. unfold bind. now rewrite H. Qed.

(** A sequence that returns went through a first part that returned. *)
Lemma bind_inv {A B} (c : M F O A) (k : A -> M F O B) s b s2 :
  bind c k s = Return b s2 ->
  exists a s1, c s = Return a s1 /\ k a s1 = Return b s2.
Proof.
  unfold bind. destruct (c s) as [a s1|e s1]; [eauto | discriminate].
Qed.

Lemma for_each_app {A} (l1 l2 : list A) (body : A -> M F O unit) s :
  for_each (l1 ++ l2) body s = bind (for_each l1 body) (fun _ => for_each l2 body) s.
Proof.
  revert s. induction l1 as [|x l1 IH]; intros s; simpl; [reflexivity|].
  unfold bind in *. destruct (body x s) as [[] s1|e s1]; [apply IH | reflexivity].
Qed.
End MonadFacts.

(** ** [_store_accuracies] on an unknown split *)

Section StoreAccuracies.
Context {F : Type} {FO : FloatOps F} {TS : Tensors F}.
Context {O : Type} {OPT : Optimizer F O} {TORCH : Torch F O}.

(** C8: for every logits/target pair, [_store_accuracies] called with a
    split other than ['train'] and ['val'] raises [ValueError], and the
    state at the raise is the state of the call: no meter was updated. *)
Theorem store_accuracies_unknown_split :
  forall (logits : Logits) (target : Target) (split : string) (st : State F O),
    split <> "train" -> split <> "val" ->
    _store_accuracies logits target split st = Raise ValueError st.
Proof.
  intros logits target split st Htrain Hval.
  unfold _store_accuracies.
  destruct (accuracy logits target) as [prec1 prec5].
  apply String.eqb_neq in Htrain, Hval.
  rewrite Htrain, Hval. reflexivity.
Qed.
End StoreAccuracies.

(** ** Paths *)

Lemma append_cons (c : ascii) (a b : string) : String c a +:+ b = String c (a +:+ b).
Proof. reflexivity. Qed.

Lemma append_cancel (a x y : string) : a +:+ x = a +:+ y -> x = y.
Proof.
  induction a as [|c a IH]; intros H; [exact H|].
  rewrite !append_cons in H. injection H as H. exact (IH H).
Qed.

Lemma append_assoc (a b c : string) : (a +:+ b) +:+ c = a +:+ (b +:+ c).
Proof.
  induction a as [|x a IH]; [reflexivity|].
  rewrite !append_cons. f_equal. exact IH.
Qed.

Lemma append_length (a b : string) :
  String.length (a +:+ b) = (String.length a + String.length b)%nat.
Proof. induction a as [|c a IH]; [reflexivity|]. rewrite append_cons. cbn. now rewrite IH. Qed.

Lemma ends_with_sep_append (a : string) (c : ascii) (b : string) :
  ends_with_sep (a +:+ String c b) = ends_with_sep (String c b).
Proof.
  induction a as [|x a IH]; [reflexivity|].
  rewrite append_cons, <- IH.
  destruct a as [|y a]; reflexivity.
Qed.

Lemma append_nonempty (a : string) (c : ascii) (b : string) :
  String.eqb (a +:+ String c b) "" = false.
Proof. destruct a; reflexivity. Qed.

(** A file of a directory [d], for a name that does not start with a
    separator. *)
Lemma os_path_join_in (d name : string) :
  d <> "" -> ends_with_sep d = false -> starts_with_sep name = false ->
  os_path_join d [name] = d +:+ "/" +:+ name.
Proof.
  intros Hd He Hn. unfold os_path_join. cbn [fold_left].
  rewrite Hn, He. apply String.eqb_neq in Hd. rewrite Hd. reflexivity.
Qed.

Lemma has_sep_append (a b : string) : has_sep (a +:+ b) = has_sep a || has_sep b.
Proof.
  induction a as [|c a IH]; [reflexivity|].
  rewrite append_cons. cbn [has_sep]. rewrite IH. now rewrite orb_assoc.
Qed.

Lemma has_sep_starts (s : string) : has_sep s = false -> starts_with_sep s = false.
Proof. destruct s as [|c s]; [reflexivity|]. cbn. now intros [H _]%orb_false_iff. Qed.

Lemma has_sep_ends (s : string) : has_sep s = false -> ends_with_sep s = false.
Proof.
  induction s as [|c s IH]; [reflexivity|].
  cbn [has_sep]. intros [Hc Hs]%orb_false_iff.
  destruct s as [|c' s]; [exact Hc|]. exact (IH Hs).
Qed.

Lemma rstrip_sep_id (s : string) : ends_with_sep s = false -> rstrip_sep s = s.
Proof.
  induction s as [|c s IH]; [reflexivity|].
  destruct s as [|c' s].
  - cbn. now intros ->.
  - intros H. change (ends_with_sep (String c (String c' s)))
      with (ends_with_sep (String c' s)) in H.
    cbn [rstrip_sep] in *. rewrite (IH H). reflexivity.
Qed.

Lemma rstrip_sep_snoc (d : string) : rstrip_sep (d +:+ "/") = rstrip_sep d.
Proof.
  induction d as [|c d IH]; [reflexivity|].
  rewrite append_cons. cbn [rstrip_sep]. now rewrite IH.
Qed.

Lemma rstrip_sep_length (s : string) : (String.length (rstrip_sep s) <= String.length s)%nat.
Proof.
  induction s as [|c s IH]; [reflexivity|].
  cbn [rstrip_sep]. destruct (rstrip_sep s) as [|c' r].
  - destruct (Ascii.eqb c "/"); cbn; lia.
  - cbn in *. lia.
Qed.

Lemma head_upto_sep_none (s : string) : has_sep s = false -> head_upto_sep s = None.
Proof.
  induction s as [|c s IH]; [reflexivity|].
  cbn [has_sep head_upto_sep]. intros [Hc Hs]%orb_false_iff.
  now rewrite (IH Hs), Hc.
Qed.

Lemma head_upto_sep_join (d name : string) :
  has_sep name = false -> head_upto_sep (d +:+ "/" +:+ name) = Some (d +:+ "/").
Proof.
  intros Hn. induction d as [|c d IH].
  - cbn [String.append append head_upto_sep]. change ("" +:+ "/" +:+ name) with (String "/" name).
    cbn [head_upto_sep]. now rewrite (head_upto_sep_none _ Hn).
  - change (String c d +:+ "/" +:+ name) with (String c (d +:+ "/" +:+ name)).
    change (String c d +:+ "/") with (String c (d +:+ "/")).
    cbn [head_upto_sep]. now rewrite IH.
Qed.

Lemma head_upto_sep_length (p h : string) :
  head_upto_sep p = Some h -> (String.length h <= String.length p)%nat.
Proof.
  revert h. induction p as [|c p IH]; intros h; [discriminate|].
  cbn [head_upto_sep]. destruct (head_upto_sep p) as [h'|].
  - intros [= <-]. specialize (IH h' eq_refl). cbn. lia.
  - destruct (Ascii.eqb c "/"); [|discriminate]. intros [= <-]. cbn. lia.
Qed.

(** The directory of a file of [d]. *)
Lemma dirname_join (d name : string) :
  d <> "" -> ends_with_sep d = false -> has_sep name = false ->
  dirname (d +:+ "/" +:+ name) = d.
Proof.
  intros Hd He Hn. unfold dirname.
  rewrite (head_upto_sep_join d name Hn). cbn [default from_option]. unfold id.
  rewrite rstrip_sep_snoc, (rstrip_sep_id d He).
  apply String.eqb_neq in Hd. now rewrite Hd.
Qed.

Lemma dirname_length (p : string) : (String.length (dirname p) <= String.length p)%nat.
Proof.
  unfold dirname. destruct (head_upto_sep p) as [h|] eqn:Hh; cbn [default from_option];
    unfold id.
  - pose proof (head_upto_sep_length _ _ Hh). pose proof (rstrip_sep_length h).
    destruct (String.eqb (rstrip_sep h) ""); lia.
  - cbn. lia.
Qed.

Lemma ancestors_within_length (n : nat) (p a : string) :
  In a (ancestors_within n p) -> (String.length a <= String.length p)%nat.
Proof.
  revert p. induction n as [|n IH]; intros p; [intros []|].
  cbn [ancestors_within]. pose proof (dirname_length p) as Hd.
  destruct (String.eqb (dirname p) "" || String.eqb (dirname p) p); [intros []|].
  intros [<-|H]; [assumption|]. specialize (IH _ H). lia.
Qed.

Lemma ancestors_length (p a : string) :
  In a (ancestors p) -> (String.length a <= String.length p)%nat.
Proof. apply ancestors_within_length. Qed.

Lemma os_path_basename_nosep (s : string) : has_sep s = false -> os_path_basename s = s.
Proof.
  destruct s as [|c s]; [reflexivity|].
  cbn [has_sep os_path_basename]. intros [Hc Hs]%orb_false_iff. now rewrite Hs, Hc.
Qed.

(** The name of a file of [d]. *)
Lemma os_path_basename_join (d name : string) :
  has_sep name = false -> os_path_basename (d +:+ "/" +:+ name) = name.
Proof.
  intros Hn. induction d as [|c d IH].
  - change ("" +:+ "/" +:+ name) with (String "/" name).
    cbn [os_path_basename]. now rewrite Hn.
  - change (String c d +:+ "/" +:+ name) with (String c (d +:+ "/" +:+ name)).
    cbn [os_path_basename].
    rewrite has_sep_append. change (has_sep ("/" +:+ name)) with true.
    now rewrite orb_true_r.
Qed.

(** The names the trainer gives to files have no separator. *)
Lemma has_sep_digits (d : Decimal.uint) : has_sep (NilEmpty.string_of_uint d) = false.
Proof.
  induction d as [|d IH|d IH|d IH|d IH|d IH|d IH|d IH|d IH|d IH|d IH];
    [reflexivity|..]; cbn [NilEmpty.string_of_uint has_sep]; rewrite IH; reflexivity.
Qed.

Lemma has_sep_string_of_uint (d : Decimal.uint) : has_sep (NilZero.string_of_uint d) = false.
Proof. destruct d; [reflexivity|..]; apply has_sep_digits. Qed.

Lemma has_sep_str_of_int (n : Z) : has_sep (str_of_int n) = false.
Proof.
  unfold str_of_int. destruct (Z.to_int n) as [d|d]; cbn;
    apply has_sep_string_of_uint.
Qed.

Lemma has_sep_zeros (k : nat) : has_sep (String.concat "" (repeat "0" k)) = false.
Proof.
  induction k as [|k IH]; [reflexivity|].
  destruct k as [|k]; [reflexivity|].
  change (String.concat "" (repeat "0" (S (S k))))
    with ("0" +:+ "" +:+ String.concat "" (repeat "0" (S k))).
  rewrite !has_sep_append, IH. reflexivity.
Qed.

Lemma has_sep_format_07d (n : Z) : has_sep (format_07d n) = false.
Proof.
  unfold format_07d, zero_pad. destruct (n <? 0);
    rewrite !has_sep_append, has_sep_zeros, has_sep_string_of_uint; reflexivity.
Qed.

Lemma has_sep_checkpoint_name (e : Z) : has_sep (("model_" +:+ format_07d e) +:+ ".pth") = false.
Proof. rewrite !has_sep_append, has_sep_format_07d. reflexivity. Qed.

Lemma has_sep_errors_name (seed : Z) :
  has_sep ("errors_" +:+ str_of_int seed +:+ ".json") = false.
Proof. rewrite !has_sep_append, has_sep_str_of_int. reflexivity. Qed.

Lemma isdir_nonempty (p : string) (ds : gset string) : isdir p ds = true -> p <> "".
Proof. unfold isdir. intros H ->. discriminate. Qed.

Section ErrorsPath.
Context {F : Type}.

(** The statistics file is a file of the save directory. *)
Lemma errors_path_in (cfg : Config.t F) :
  Config.save cfg <> "" -> ends_with_sep (Config.save cfg) = false ->
  errors_path cfg
  = Config.save cfg +:+ "/" +:+ ("errors_" +:+ str_of_int (Config.seed cfg) +:+ ".json").
Proof. intros Hs He. unfold errors_path. now apply os_path_join_in. Qed.

Lemma errors_path_length (cfg : Config.t F) :
  (String.length (Config.save cfg) < String.length (errors_path cfg))%nat.
Proof.
  unfold errors_path, os_path_join. cbn [fold_left].
  change (starts_with_sep _) with false. cbv iota.
  destruct (String.eqb (Config.save cfg) "" || ends_with_sep (Config.save cfg));
    rewrite !append_length; cbn; lia.
Qed.
End ErrorsPath.

(** ** Stripped names *)

Lemma rstrip_append (a b : string) : rstrip b <> "" -> rstrip (a +:+ b) = a +:+ rstrip b.
Proof.
  intros Hb. induction a as [|c a IH]; [reflexivity|].
  rewrite !append_cons. cbn [rstrip]. rewrite IH.
  destruct (a +:+ rstrip b) eqn:Hab; [|reflexivity].
  destruct a; [|discriminate]. contradiction.
Qed.

(** A name that starts with a letter and ends in [.pth] is what [strip]
    makes of it. *)
Lemma strip_pth (c : ascii) (a : string) :
  is_space c = false -> strip (String c a +:+ ".pth") = String c a +:+ ".pth".
Proof.
  intros Hc. unfold strip. rewrite append_cons. cbn [lstrip]. rewrite Hc.
  rewrite <- append_cons. rewrite rstrip_append; [reflexivity | discriminate].
Qed.

Lemma strip_checkpoint_name (e : Z) :
  strip (("model_" +:+ format_07d e) +:+ ".pth") = ("model_" +:+ format_07d e) +:+ ".pth".
Proof.
  change ("model_" +:+ format_07d e) with (String "m" ("odel_" +:+ format_07d e)).
  now apply strip_pth.
Qed.

(** ** The directories a run needs *)

Section ReadyFacts.
Context {F : Type} {TS : Tensors F} {O : Type}.

Lemma checkpoint_dir_ready_inv (d : string) (ds : gset string) :
  checkpoint_dir_ready d ds ->
  ends_with_sep d = false /\ isdir d ds = true /\
  forall name, name <> "" -> has_sep name = false ->
               isdir (os_path_join d [name]) ds = false.
Proof.
  unfold checkpoint_dir_ready.
  intros [[He%negb_true_iff Hd]%andb_true_iff Hsub%bool_decide_eq_true]%andb_true_iff.
  split; [exact He|]. split; [exact Hd|].
  intros name Hne Hn.
  pose proof (isdir_nonempty _ _ Hd) as Hdne.
  rewrite os_path_join_in by (try apply has_sep_starts; assumption).
  unfold isdir. apply andb_false_iff. right. apply orb_false_iff.
  assert (Hend : ends_with_sep (d +:+ "/" +:+ name) = false).
  { destruct name as [|c name]; [congruence|].
    change (d +:+ "/" +:+ String c name) with (d +:+ String "/" (String c name)).
    rewrite ends_with_sep_append.
    change (ends_with_sep (String "/" (String c name))) with (ends_with_sep (String c name)).
    now apply has_sep_ends. }
  split.
  - rewrite (rstrip_sep_id _ Hend). apply append_nonempty.
  - apply bool_decide_eq_false. intros Hin. apply (Hsub _ Hin).
    now apply dirname_join.
Qed.

Lemma log_ready_inv (cfg : Config.t F) (ds : gset string) :
  log_ready cfg ds <->
  ends_with_sep (Config.save cfg) = false /\ isdir (Config.save cfg) ds = true /\
  isdir (errors_path cfg) ds = false.
Proof.
  unfold log_ready. rewrite !andb_true_iff, !negb_true_iff. tauto.
Qed.

Lemma can_log_inv (cfg : Config.t F) (x : FileSystem F O) :
  can_log cfg x <->
  ends_with_sep (Config.save cfg) = false /\
  isdir (errors_path cfg) (dirs x) = false /\
  (isdir (Config.save cfg) (dirs x) = true \/
   (Config.save cfg <> "" /\ fs_exists (Config.save cfg) x = false /\
    existsb (fun a => is_file a x) (ancestors (Config.save cfg)) = false)).
Proof.
  unfold can_log.
  rewrite !andb_true_iff, orb_true_iff, !andb_true_iff, !negb_true_iff, String.eqb_neq.
  tauto.
Qed.
End ReadyFacts.

(** ** Running the primitive actions *)

Ltac run :=
  cbv beta iota delta
    [bind ret raise self world set_self set_world emit call call_with time_time
     record get_scheduler get_periodic_checkpointer os_path_exists read_file].


Section RunLemmas.
Context {F : Type} {FO : FloatOps F} {TS : Tensors F}.
Context {O : Type} {OPT : Optimizer F O} {TORCH : Torch F O}.

Lemma ret_run {A} (a : A) (st : State F O) : ret a st = Return a st.
Proof. reflexivity. Qed.
Lemma self_run {A} (f : Trainer F O -> A) t (w : World F O) : self f (t, w) = Return (f t) (t, w).
Proof. reflexivity. Qed.
Lemma world_run {A} (f : World F O -> A) (t : Trainer F O) w : world f (t, w) = Return (f w) (t, w).
Proof. reflexivity. Qed.
Lemma set_self_run (f : Trainer F O -> Trainer F O) t (w : World F O) :
  set_self f (t, w) = Return tt (f t, w).
Proof. reflexivity. Qed.
Lemma set_world_run (f : World F O -> World F O) (t : Trainer F O) w :
  set_world f (t, w) = Return tt (t, f w).
Proof. reflexivity. Qed.
Lemma emit_run ev (t : Trainer F O) (w : World F O) :
  emit ev (t, w) = Return tt (t, add_events [ev] w).
Proof. reflexivity. Qed.
Lemma call_run ev f (t : Trainer F O) (w : World F O) :
  call ev f (t, w) = Return tt (set_optimizer (f (optimizer t)) t, add_events [ev] w).
Proof. reflexivity. Qed.
Lemma call_with_run {A} (ev : A -> Event) (f : O -> O * A) (t : Trainer F O) (w : World F O) :
  call_with ev f (t, w)
  = Return (snd (f (optimizer t)))
           (set_optimizer (fst (f (optimizer t))) t, add_events [ev (snd (f (optimizer t)))] w).
Proof. reflexivity. Qed.
Lemma time_time_run (t : Trainer F O) (w : World F O) :
  time_time (t, w)
  = Return (clock w (ticks w))
           (t, mk_world (fs w) (clock w) (S (ticks w)) (training w) (grad_enabled w) (trace w)).
Proof. reflexivity. Qed.
Lemma record_run app x (t : Trainer F O) (w : World F O) :
  record app x (t, w) = Return tt (set_errors_dict (app x (errors_dict t)) t, w).
Proof. reflexivity. Qed.
Lemma get_scheduler_run s (t : Trainer F O) (w : World F O) :
  scheduler t = Some s -> get_scheduler (t, w) = Return s (t, w).
Proof. intros H. unfold get_scheduler, bind, self. simpl. now rewrite H. Qed.
Lemma get_periodic_checkpointer_run p (t : Trainer F O) (w : World F O) :
  periodic_checkpointer t = Some p -> get_periodic_checkpointer (t, w) = Return p (t, w).
Proof. intros H. unfold get_periodic_checkpointer, bind, self. simpl. now rewrite H. Qed.

Lemma bind_assoc_run {A B C} (c : M F O A) (k1 : A -> M F O B) (k2 : B -> M F O C) st :
  bind (bind c k1) k2 st = bind c (fun a => bind (k1 a) k2) st.
Proof. unfold bind. destruct (c st); reflexivity. Qed.

Lemma raise_run {A} (e : Exception) (st : State F O) : raise (A := A) e st = Raise e st.
Proof. reflexivity. Qed.

(** *** Files *)

Lemma write_file_run (p : string) (data : FileData F O) (t : Trainer F O) (w : World F O) :
  open_error p (fs w) = None ->
  write_file p data (t, w)
  = Return tt (t, set_fs (mk_fs (dirs (fs w)) (<[p := data]> (files (fs w)))) w).
Proof. intros H. unfold write_file, bind, world. cbn [snd]. now rewrite H. Qed.

Lemma write_file_raise (p : string) (data : FileData F O) (t : Trainer F O) (w : World F O) e :
  open_error p (fs w) = Some e -> write_file p data (t, w) = Raise e (t, w).
Proof. intros H. unfold write_file, bind, world. cbn [snd]. now rewrite H. Qed.

Lemma append_not_empty (a : string) (c : ascii) (b : string) : a +:+ String c b <> "".
Proof. apply String.eqb_neq, append_nonempty. Qed.

(** A file of a directory that exists can be opened for writing, unless
    its path is that of a directory. *)
Lemma open_in_dir (d name : string) (x : FileSystem F O) :
  ends_with_sep d = false -> isdir d (dirs x) = true ->
  name <> "" -> has_sep name = false ->
  isdir (os_path_join d [name]) (dirs x) = false ->
  open_error (os_path_join d [name]) x = None.
Proof.
  intros He Hd Hn Hs Hp.
  pose proof (isdir_nonempty _ _ Hd) as Hne.
  rewrite os_path_join_in in * by (try apply has_sep_starts; assumption).
  destruct name as [|c name]; [congruence|].
  assert (Hend : ends_with_sep (d +:+ "/" +:+ String c name) = false).
  { change (d +:+ "/" +:+ String c name) with (d +:+ String "/" (String c name)).
    rewrite ends_with_sep_append.
    change (ends_with_sep (String "/" (String c name))) with (ends_with_sep (String c name)).
    now apply has_sep_ends. }
  unfold open_error.
  change (d +:+ "/" +:+ String c name) with (d +:+ String "/" (String c name)) at 1.
  rewrite append_nonempty, (rstrip_sep_id _ Hend).
  change (d +:+ "/" +:+ String c name) with (d +:+ String "/" (String c name)) at 1.
  rewrite append_nonempty, (dirname_join d _ Hne He Hs), Hd, orb_true_r, Hend, Hp.
  reflexivity.
Qed.

Lemma open_error_dirs (p : string) (x y : FileSystem F O) :
  dirs y = dirs x -> open_error p x = None -> open_error p y = None.
Proof.
  intros Hd. unfold open_error. rewrite Hd.
  destruct (String.eqb p ""); [discriminate|].
  destruct (String.eqb (rstrip_sep p) ""); [discriminate|].
  destruct (negb _); [discriminate|]. auto.
Qed.

(** *** The checkpointer *)

Lemma save_run (c : Checkpointer) (name : string) (it : Z) (t : Trainer F O) (w : World F O) :
  checkpoint_dir_ready (save_dir c) (dirs (fs w)) -> has_sep name = false ->
  save c name it (t, w)
  = Return tt (t, mk_world (mk_fs (dirs (fs w)) (save_files c name it (optimizer t) (files (fs w))))
                           (clock w) (ticks w) (training w) (grad_enabled w)
                           (trace w ++ save_events c name it)).
Proof.
  intros Hready Hn.
  destruct (checkpoint_dir_ready_inv _ _ Hready) as (He & Hd & Hfree).
  pose proof (isdir_nonempty _ _ Hd) as Hne.
  assert (Hb : has_sep (name +:+ ".pth") = false) by (rewrite has_sep_append, Hn; reflexivity).
  unfold save, save_files, save_events.
  apply String.eqb_neq in Hne as Hne'. rewrite Hne'.
  erewrite bind_return; [|apply self_run].
  rewrite (os_path_join_in _ _ Hne He (has_sep_starts _ Hb)), (os_path_basename_join _ _ Hb).
  rewrite String.eqb_refl. cbn [negb].
  rewrite <- (os_path_join_in _ _ Hne He (has_sep_starts _ Hb)).
  erewrite bind_return.
  2:{ apply write_file_run. apply open_in_dir; try assumption.
      - apply append_not_empty.
      - apply Hfree; [apply append_not_empty | exact Hb]. }
  erewrite bind_return; [|apply emit_run].
  rewrite write_file_run.
  2:{ apply open_in_dir; try assumption; try reflexivity; try discriminate.
      apply Hfree; [discriminate | reflexivity]. }
  destruct w as [[dr fl] ? ? ? ? ?]. reflexivity.
Qed.

Lemma periodic_step_run (p : PeriodicCheckpointer) (e : Z) (t : Trainer F O) (w : World F O) :
  checkpoint_dir_ready (save_dir (pc_checkpointer p)) (dirs (fs w)) ->
  periodic_step p e (t, w)
  = Return tt (t, mk_world (mk_fs (dirs (fs w)) (periodic_files p e (optimizer t) (files (fs w))))
                           (clock w) (ticks w) (training w) (grad_enabled w)
                           (trace w ++ periodic_events p e)).
Proof.
  intros Hready.
  assert (Hn : has_sep ("model_" +:+ format_07d e) = false)
    by (rewrite has_sep_append, has_sep_format_07d; reflexivity).
  unfold periodic_step, periodic_files, periodic_events.
  destruct ((e + 1) mod period p =? 0), (e >=? max_iter p - 1).
  - erewrite bind_return; [|apply save_run; [exact Hready | exact Hn]].
    rewrite save_run by (try exact Hready; reflexivity).
    cbn [fs dirs files trace clock ticks training grad_enabled fst snd optimizer].
    now rewrite <- app_assoc.
  - erewrite bind_return; [|apply save_run; [exact Hready | exact Hn]].
    unfold ret. now rewrite app_nil_r.
  - erewrite bind_return; [|apply ret_run].
    rewrite save_run by (try exact Hready; reflexivity). reflexivity.
  - erewrite bind_return; [|apply ret_run].
    unfold ret. destruct w as [[dr fl] ? ? ? ? ?]. cbn. now rewrite app_nil_r.
Qed.

(** *** [log_to_json] *)

Lemma log_ready_can_log (cfg : Config.t F) (x : FileSystem F O) :
  log_ready cfg (dirs x) -> can_log cfg x.
Proof.
  intros (He & Hd & Hp)%log_ready_inv. apply can_log_inv.
  split; [exact He|]. split; [exact Hp|]. now left.
Qed.

Lemma isdir_fs_exists (p : string) (x : FileSystem F O) :
  isdir p (dirs x) = true -> fs_exists p x = true.
Proof. intros H. unfold fs_exists. now rewrite H. Qed.

(** Making the save directory does not make a directory of the statistics
    file. *)
Lemma errors_path_not_made (cfg : Config.t F) (ds : gset string) :
  isdir (errors_path cfg) ds = false ->
  isdir (errors_path cfg)
        ({[Config.save cfg]} ∪ list_to_set (ancestors (Config.save cfg)) ∪ ds) = false.
Proof.
  unfold isdir. intros Hp.
  destruct (String.eqb (errors_path cfg) ""); [reflexivity|]. cbn [negb andb] in *.
  apply orb_false_iff in Hp as [Hroot Hin]. rewrite Hroot. cbn [orb].
  apply bool_decide_eq_false in Hin. apply bool_decide_eq_false.
  pose proof (errors_path_length cfg) as Hlen.
  intros [[Heq%elem_of_singleton|Hanc']%elem_of_union|Hdr]%elem_of_union.
  - rewrite Heq in Hlen. lia.
  - apply elem_of_list_to_set, list_elem_of_In, ancestors_length in Hanc'. lia.
  - contradiction.
Qed.

Lemma isdir_made (p : string) (ds : gset string) :
  p <> "" -> isdir p ({[p]} ∪ list_to_set (ancestors p) ∪ ds) = true.
Proof.
  intros Hne. unfold isdir. apply String.eqb_neq in Hne as ->. cbn [negb andb].
  apply orb_true_iff. right. apply bool_decide_eq_true. set_solver.
Qed.

(** [log_to_json] where it finds its directory or can make it. *)
Lemma log_to_json_run (t : Trainer F O) (w : World F O) :
  can_log (config t) (fs w) ->
  let cfg := config t in
  let ex := fs_exists (Config.save cfg) (fs w) in
  log_to_json (t, w)
  = Return tt
      (t, mk_world (mk_fs (if ex then dirs (fs w)
                           else {[Config.save cfg]} ∪ list_to_set (ancestors (Config.save cfg))
                                ∪ dirs (fs w))
                          (<[errors_path cfg := JsonFile (errors_dict t)]> (files (fs w))))
                   (clock w) (ticks w) (training w) (grad_enabled w)
                   (trace w ++ (if ex then [] else [EvMakedirs (Config.save cfg)])
                            ++ [EvJsonDump (errors_path cfg)])).
Proof.
  intros (He & Hp & Hcase)%can_log_inv cfg ex. fold cfg in He, Hp, Hcase.
  unfold log_to_json.
  erewrite bind_return; [|apply self_run]. fold cfg.
  erewrite bind_return; [|apply world_run]. fold ex.
  destruct w as [[dr fl] clk tk tr gr evs]. cbn [fs dirs files] in *.
  assert (Hname : has_sep ("errors_" +:+ str_of_int (Config.seed cfg) +:+ ".json") = false)
    by apply has_sep_errors_name.
  destruct Hcase as [Hd|(Hne & Hex & Hfiles)].
  - assert (Hex : ex = true) by (apply isdir_fs_exists; exact Hd).
    rewrite Hex. cbn [negb].
    erewrite bind_return; [|apply ret_run].
    erewrite bind_return; [|apply self_run].
    erewrite bind_return.
    2:{ apply write_file_run. unfold errors_path. apply open_in_dir; try assumption.
        discriminate. }
    rewrite emit_run. reflexivity.
  - subst ex. rewrite Hex. cbn [negb].
    erewrite bind_return.
    2:{ unfold os_makedirs. erewrite bind_return; [|apply world_run].
        apply String.eqb_neq in Hne as Hne'. rewrite Hne'. cbn [fs]. rewrite Hex, Hfiles.
        erewrite bind_return; [|apply set_world_run]. apply emit_run. }
    erewrite bind_return; [|apply self_run].
    erewrite bind_return.
    2:{ apply write_file_run. unfold errors_path. apply open_in_dir; try assumption.
        - cbn [fs dirs set_fs add_events]. apply isdir_made. exact Hne.
        - discriminate.
        - cbn [fs dirs set_fs add_events]. fold (errors_path cfg).
          apply errors_path_not_made. exact Hp. }
    rewrite emit_run. unfold add_events, set_fs.
    cbn [fs dirs files trace clock ticks training grad_enabled].
    rewrite <- ?app_assoc. reflexivity.
Qed.

(** [log_to_json] where it finds its directory. *)
Lemma log_to_json_ready_run (t : Trainer F O) (w : World F O) :
  log_ready (config t) (dirs (fs w)) ->
  log_to_json (t, w)
  = Return tt
      (t, mk_world (mk_fs (dirs (fs w))
                          (<[errors_path (config t) := JsonFile (errors_dict t)]> (files (fs w))))
                   (clock w) (ticks w) (training w) (grad_enabled w)
                   (trace w ++ [EvJsonDump (errors_path (config t))])).
Proof.
  intros Hready. rewrite log_to_json_run by (apply log_ready_can_log; exact Hready).
  apply log_ready_inv in Hready as (_ & Hd & _). now rewrite (isdir_fs_exists _ _ Hd).
Qed.

Lemma has_checkpoint_run (c : Checkpointer) (t : Trainer F O) (w : World F O) :
  has_checkpoint c (t, w)
  = Return (fs_exists (os_path_join (save_dir c) ["last_checkpoint"]) (fs w)) (t, w).
Proof. reflexivity. Qed.

Lemma get_checkpoint_file_text (c : Checkpointer) (t : Trainer F O) (w : World F O) text :
  files (fs w) !! os_path_join (save_dir c) ["last_checkpoint"] = Some (TextFile text) ->
  get_checkpoint_file c (t, w) = Return (os_path_join (save_dir c) [strip text]) (t, w).
Proof. intros H. unfold get_checkpoint_file, bind, read_file, world. cbn [snd]. now rewrite H. Qed.

Lemma get_checkpoint_file_none (c : Checkpointer) (t : Trainer F O) (w : World F O) :
  files (fs w) !! os_path_join (save_dir c) ["last_checkpoint"] = None ->
  get_checkpoint_file c (t, w) = Return "" (t, w).
Proof. intros H. unfold get_checkpoint_file, bind, read_file, world. cbn [snd]. now rewrite H. Qed.

(** What a [get_checkpoint_file] that returns has read. *)
Lemma get_checkpoint_file_inv (c : Checkpointer) (st st' : State F O) p :
  get_checkpoint_file c st = Return p st' ->
  st' = st /\
  forall text,
    files (fs (snd st)) !! os_path_join (save_dir c) ["last_checkpoint"] = Some (TextFile text) ->
    p = os_path_join (save_dir c) [strip text].
Proof.
  unfold get_checkpoint_file, bind, read_file, world.
  destruct (files (fs (snd st)) !! _) as [[d|ck|text]|]; unfold ret, raise;
    intros H; try discriminate; injection H as <- <-; (split; [reflexivity|]);
    intros text' H'; try discriminate.
  injection H' as <-. reflexivity.
Qed.

End RunLemmas.

(** Symbolic execution, one action at a time. *)
Ltac prim :=
  first [ apply ret_run | apply self_run | apply world_run | apply set_self_run
        | apply set_world_run | apply emit_run | apply call_run | apply call_with_run
        | apply time_time_run | apply record_run
        | apply get_scheduler_run; (reflexivity || eassumption)
        | apply get_periodic_checkpointer_run; (reflexivity || eassumption)
        | apply periodic_step_run; eassumption
        | apply log_to_json_ready_run; eassumption
        | apply has_checkpoint_run ].

Ltac norm :=
  cbv beta iota delta
      [fst snd optimizer config epochs train_queue valid_queue test_queue
       train_top1 train_top5 train_loss val_top1 val_top5 val_loss errors_dict
       scheduler checkpointer periodic_checkpointer
       set_optimizer set_train_queue set_valid_queue set_test_queue
       set_train_top1 set_train_top5 set_train_loss set_val_top1 set_val_top5
       set_val_loss set_errors_dict set_scheduler set_checkpointer
       set_periodic_checkpointer
       fs clock ticks training grad_enabled trace add_events set_fs
       set_training set_grad_enabled dirs files].

Ltac norm_in H :=
  cbv beta iota delta
      [fst snd optimizer config epochs train_queue valid_queue test_queue
       train_top1 train_top5 train_loss val_top1 val_top5 val_loss errors_dict
       scheduler checkpointer periodic_checkpointer
       set_optimizer set_train_queue set_valid_queue set_test_queue
       set_train_top1 set_train_top5 set_train_loss set_val_top1 set_val_top5
       set_val_loss set_errors_dict set_scheduler set_checkpointer
       set_periodic_checkpointer
       fs clock ticks training grad_enabled trace add_events set_fs
       set_training set_grad_enabled dirs files] in H.

Ltac step := rewrite ?bind_assoc_run; (erewrite bind_return; [|prim]); norm.

Ltac step_in H :=
  rewrite ?bind_assoc_run in H; (erewrite bind_return in H; [|prim]).


(** ** The search loop *)

Section SearchFacts.
Context {F : Type} {FO : FloatOps F} {TS : Tensors F}.
Context {O : Type} {OPT : Optimizer F O} {TORCH : Torch F O}.

Lemma search_batch_spec (b : Batch * Batch) (t : Trainer F O) (w : World F O) :
  (exists s, scheduler t = Some s) ->
  exists t',
    search_batch b (t, w) = Return tt (t', add_events [EvStep] w) /\
    same_setup t t' /\ errors_dict t' = errors_dict t /\
    optimizer t' = fst (step (fst b) (snd b) (optimizer t)) /\
    let r := (snd (fst b), snd (snd b), snd (step (fst b) (snd b) (optimizer t))) in
    train_top1 t' = AverageMeter.update (fst (train_top1_feed r)) (snd (train_top1_feed r)) (train_top1 t) /\
    train_loss t' = AverageMeter.update (fst (train_loss_feed r)) (snd (train_loss_feed r)) (train_loss t) /\
    val_top1 t' = AverageMeter.update (fst (val_top1_feed r)) (snd (val_top1_feed r)) (val_top1 t) /\
    val_loss t' = AverageMeter.update (fst (val_loss_feed r)) (snd (val_loss_feed r)) (val_loss t).
Proof.
  intros [s Hs].
  destruct t as [o cfg eps tq vq teq m1 m2 m3 m4 m5 m6 d0 sch ck pc].
  simpl in Hs; subst.
  unfold search_batch, _store_accuracies, train_top1_feed, val_top1_feed,
    train_loss_feed, val_loss_feed.
  destruct b as [[x1 y1] [x2 y2]]. simpl.
  run. simpl.
  destruct (step (x1, y1) (x2, y2) o) as [o' [[[lt lv] tl] vl]]. simpl.
  destruct (accuracy lt y1) as [p1 p5], (accuracy lv y2) as [q1 q5]. simpl.
  eexists. split; [reflexivity|].
  unfold same_setup; simpl. repeat split; reflexivity.
Qed.


Lemma add_events_add_events (a b : list (@Event F TS)) (w : World F O) :
  add_events b (add_events a w) = add_events (a ++ b)%list w.
Proof. unfold add_events; simpl. now rewrite <- app_assoc. Qed.

Lemma same_setup_refl (t : Trainer F O) : same_setup t t.
Proof. unfold same_setup; repeat split; reflexivity. Qed.

Lemma same_setup_trans (t1 t2 t3 : Trainer F O) :
  same_setup t1 t2 -> same_setup t2 t3 -> same_setup t1 t3.
Proof.
  unfold same_setup. intros (?&?&?&?&?&?&?&?) (?&?&?&?&?&?&?&?).
  repeat split; congruence.
Qed.

Lemma search_batches_spec (l : list (Batch * Batch)) (t : Trainer F O) (w : World F O) :
  (exists s, scheduler t = Some s) ->
  exists t',
    for_each l search_batch (t, w)
    = Return tt (t', add_events (repeat EvStep (List.length l)) w) /\
    same_setup t t' /\ errors_dict t' = errors_dict t /\
    optimizer t' = after_steps (optimizer t) l /\
    train_top1 t' = meter_fold (map train_top1_feed (epoch_steps (optimizer t) l)) (train_top1 t) /\
    train_loss t' = meter_fold (map train_loss_feed (epoch_steps (optimizer t) l)) (train_loss t) /\
    val_top1 t' = meter_fold (map val_top1_feed (epoch_steps (optimizer t) l)) (val_top1 t) /\
    val_loss t' = meter_fold (map val_loss_feed (epoch_steps (optimizer t) l)) (val_loss t).
Proof.
  revert t w. induction l as [|b l IH]; intros t w Hs.
  - exists t. simpl. unfold ret, add_events. destruct w; simpl. rewrite app_nil_r.
    split; [reflexivity|]. split; [apply same_setup_refl|]. repeat split; reflexivity.
  - destruct (search_batch_spec b t w Hs) as (t1 & Hrun & Hsame & Herr & Hopt & H1 & H2 & H3 & H4).
    assert (Hs1 : exists s, scheduler t1 = Some s).
    { destruct Hs as [s Hs]. exists s. destruct Hsame as (_&_&_&_&_&Hsc&_). congruence. }
    destruct (IH t1 (add_events [EvStep] w) Hs1)
      as (t2 & Hrun2 & Hsame2 & Herr2 & Hopt2 & G1 & G2 & G3 & G4).
    exists t2. simpl for_each. rewrite (bind_return _ _ _ _ _ Hrun), Hrun2.
    rewrite add_events_add_events. simpl.
    split; [reflexivity|]. split; [eapply same_setup_trans; eassumption|].
    split; [congruence|].
    rewrite Hopt2, G1, G2, G3, G4, Hopt, H1, H2, H3, H4. simpl.
    repeat split; reflexivity.
Qed.

Lemma new_epoch_calls_app (a b : list (@Event F TS)) :
  new_epoch_calls (a ++ b) = (new_epoch_calls a ++ new_epoch_calls b)%list.
Proof. apply flat_map_app. Qed.

Lemma json_dumps_app (a b : list (@Event F TS)) :
  json_dumps (a ++ b) = (json_dumps a ++ json_dumps b)%list.
Proof. apply flat_map_app. Qed.

Lemma checkpoint_saves_app (a b : list (@Event F TS)) :
  checkpoint_saves (a ++ b) = (checkpoint_saves a ++ checkpoint_saves b)%list.
Proof. apply flat_map_app. Qed.

Lemma truthy_tests_app (a b : list (@Event F TS)) :
  truthy_tests (a ++ b) = (truthy_tests a + truthy_tests b)%nat.
Proof. unfold truthy_tests. now rewrite List.filter_app, length_app. Qed.

Lemma steps_silent (n : nat) :
  new_epoch_calls (repeat (@EvStep F TS) n) = [] /\
  json_dumps (repeat (@EvStep F TS) n) = [] /\
  checkpoint_saves (repeat (@EvStep F TS) n) = [] /\
  truthy_tests (repeat (@EvStep F TS) n) = 0%nat.
Proof. induction n as [|n IH]; simpl; [repeat split; reflexivity | exact IH]. Qed.

Lemma save_events_silent c name it :
  new_epoch_calls (save_events c name it) = [] /\
  json_dumps (save_events c name it) = [] /\
  truthy_tests (save_events c name it) = 0%nat.
Proof. unfold save_events. destruct (String.eqb (save_dir c) ""); repeat split; reflexivity. Qed.

Lemma periodic_events_silent p e :
  new_epoch_calls (periodic_events p e) = [] /\
  json_dumps (periodic_events p e) = [] /\
  truthy_tests (periodic_events p e) = 0%nat.
Proof.
  unfold periodic_events, save_events.
  destruct ((e + 1) mod period p =? 0), (e >=? max_iter p - 1),
    (String.eqb (save_dir (pc_checkpointer p)) ""); simpl; repeat split; reflexivity.
Qed.




Ltac finish_epoch tests o2 Husf S1 S2 S3 S4 P1 P2 P3 :=
  unfold epoch_done, same_setup, meters_reset, grown;
  cbn [fst snd optimizer config epochs train_queue valid_queue test_queue
       train_top1 train_top5 train_loss val_top1 val_top5 val_loss errors_dict
       scheduler checkpointer periodic_checkpointer
       fs clock ticks training grad_enabled trace dirs files
       ErrorsDict.train_acc ErrorsDict.train_loss ErrorsDict.valid_acc
       ErrorsDict.valid_loss ErrorsDict.test_acc ErrorsDict.test_loss
       ErrorsDict.runtime ErrorsDict.append_train_acc ErrorsDict.append_train_loss
       ErrorsDict.append_valid_acc ErrorsDict.append_valid_loss
       ErrorsDict.append_test_acc ErrorsDict.append_test_loss
       ErrorsDict.append_runtime AverageMeter.reset];
  rewrite ?Husf;
  rewrite <- ?app_assoc;
  (split; [repeat split; reflexivity|]);
  (split; [repeat split; reflexivity|]);
  (split; [rewrite ?length_app; repeat split; reflexivity|]);
  (split; [eexists; exists tests; (split; [reflexivity|]);
           rewrite ?new_epoch_calls_app, ?json_dumps_app, ?checkpoint_saves_app,
             ?truthy_tests_app, ?S1, ?S2, ?S3, ?S4, ?P1, ?P2, ?P3;
           simpl; rewrite ?app_nil_r; repeat split; (reflexivity || lia)|]);
  (split; [exists o2; reflexivity|]);
  (split; [reflexivity|]);
  (split; intros; first [discriminate | repeat split; reflexivity
                        | match goal with
                          | H : train_statistics _ = _ |- _ => rewrite H
                          end; repeat split; reflexivity]).

#[local] Arguments log_to_json : simpl never.
#[local] Arguments errors_path : simpl never.
#[local] Arguments fs_exists : simpl never.
#[local] Arguments _log_and_reset_accuracies : simpl never.

Lemma search_epoch_run (e : Z) (t : Trainer F O) (w : World F O) s p :
  scheduler t = Some s -> periodic_checkpointer t = Some p ->
  log_ready (config t) (dirs (fs w)) ->
  (using_step_function (new_epoch e (optimizer t)) = true ->
   checkpoint_dir_ready (save_dir (pc_checkpointer p)) (dirs (fs w))) ->
  exists st', search_epoch e (t, w) = Return tt st' /\ epoch_done e p (t, w) st'.
Proof.
  intros Hs Hp Hlog Hck.
  destruct t as [o cfg eps tq vq teq m1 m2 m3 m4 m5 m6 d0 sch ck pc],
           w as [[dr fl] clk tk tr gr evs].
  cbn [scheduler periodic_checkpointer config optimizer dirs fs] in Hs, Hp, Hlog, Hck.
  subst sch pc.
  pose proof (steps_silent (List.length (combine tq vq))) as (S1 & S2 & S3 & S4).
  pose proof (periodic_events_silent p e) as (P1 & P2 & P3).
  unfold search_epoch.
  do 3 step.
  destruct (using_step_function (new_epoch e o)) eqn:Husf; cbv iota.
  - specialize (Hck eq_refl).
    do 2 step. rewrite ?bind_assoc_run.
    match goal with
    | |- context [bind (for_each ?l search_batch) _ (?t0, ?w0)] =>
        destruct (search_batches_spec l t0 w0)
          as (t1 & Hrun & Hsame & Herr & Hopt & H1 & H2 & H3 & H4);
        [exists s; reflexivity|]
    end.
    rewrite (bind_return _ _ _ _ _ Hrun). clear Hrun.
    destruct Hsame as (Hcfg & Hep & Htq & Hvq & Hteq & Hsch & Hck' & Hpc).
    destruct t1 as [o' cfg' eps' tq' vq' teq' n1 n2 n3 n4 n5 n6 d' sch' ck' pc'].
    norm. cbn [fst snd optimizer config epochs train_queue valid_queue test_queue
       train_top1 train_top5 train_loss val_top1 val_top5 val_loss errors_dict
       scheduler checkpointer periodic_checkpointer set_optimizer]
      in Hcfg, Hep, Htq, Hvq, Hteq, Hsch, Hck', Hpc, Herr, Hopt, H1, H2, H3, H4.
    subst.
    do 14 step.
    step.
    destruct (test_statistics (scheduler_step s (after_steps (new_epoch e o) (combine tq vq))))
      as [o3 [[acc loss]|]] eqn:Hts; norm.
    + do 3 step. unfold _log_and_reset_accuracies. do 5 step. rewrite set_self_run. norm.
      (eexists; split; [reflexivity|]).
      finish_epoch [(acc, loss)] (scheduler_step s (after_steps (new_epoch e o) (combine tq vq)))
                   Husf S1 S2 S3 S4 P1 P2 P3.
    + do 2 step. unfold _log_and_reset_accuracies. do 5 step. rewrite set_self_run. norm.
      (eexists; split; [reflexivity|]).
      finish_epoch (@nil (PyNum F * PyNum F)) (scheduler_step s (after_steps (new_epoch e o) (combine tq vq)))
                   Husf S1 S2 S3 S4 P1 P2 P3.
  - clear Hck. do 2 step.
    destruct (train_statistics (new_epoch e o)) as [o2 [[[a b] c] dd]] eqn:Htr. norm.
    do 7 step. step.
    destruct (test_statistics o2) as [o3 [[acc loss]|]] eqn:Hts; norm.
    + do 3 step. unfold _log_and_reset_accuracies. do 5 step. rewrite set_self_run. norm.
      (eexists; split; [reflexivity|]).
      finish_epoch [(acc, loss)] o Husf S1 S2 S3 S4 P1 P2 P3.
    + do 2 step. unfold _log_and_reset_accuracies. do 5 step. rewrite set_self_run. norm.
      (eexists; split; [reflexivity|]).
      finish_epoch (@nil (PyNum F * PyNum F)) o Husf S1 S2 S3 S4 P1 P2 P3.
Qed.


(** ** Checkpointer set-up *)

(** What a [load] that returns has done. *)
Lemma load_inv (c : Checkpointer) (path : PyPath) wanted (t : Trainer F O) (w : World F O)
      extra st' :
  load c path wanted (t, w) = Return extra st' ->
  (truthy path = false /\ extra = ∅ /\ st' = (t, w)) \/
  (exists p ck keys,
      path = PyStr p /\ truthy path = true /\
      files (fs w) !! p = Some (CheckpointFile ck) /\ extra = ck_extra ck /\
      st' = (set_optimizer (load_state_dict keys (ck_state ck) (optimizer t)) t,
             add_events [EvCheckpointLoad p] w)).
Proof.
  unfold load. destruct (truthy path) eqn:Htruthy; cbn [negb].
  - destruct path as [p|l]; [|discriminate].
    unfold bind, read_file, world. cbn [snd].
    destruct (files (fs w) !! p) as [[d|ck|x]|] eqn:Hfile; try discriminate.
    rewrite call_run. unfold ret. intros H. injection H as <- <-. right.
    eexists p, ck, _. split; [reflexivity|]. split; [reflexivity|].
    split; [exact Hfile|]. split; reflexivity.
  - unfold ret. intros H. injection H as <- <-. left. repeat split; reflexivity.
Qed.

(** A [load] of an existing checkpoint file returns its extra entries. *)
Lemma load_checkpoint_run (c : Checkpointer) (p : string) wanted ck
      (t : Trainer F O) (w : World F O) :
  p <> "" -> files (fs w) !! p = Some (CheckpointFile ck) ->
  exists keys,
    load c (PyStr p) wanted (t, w)
    = Return (ck_extra ck)
             (set_optimizer (load_state_dict keys (ck_state ck) (optimizer t)) t,
              add_events [EvCheckpointLoad p] w).
Proof.
  intros Hp Hfile. unfold load. cbn [truthy].
  apply String.eqb_neq in Hp. rewrite Hp. cbn [negb].
  unfold bind, read_file, world. cbn [snd]. rewrite Hfile.
  rewrite call_run. unfold ret. eexists. reflexivity.
Qed.

Lemma os_path_join_nonempty (d x : string) : d <> "" -> os_path_join d [x] <> "".
Proof.
  intros Hd. unfold os_path_join. cbn [fold_left].
  destruct x as [|c x].
  - cbn [starts_with_sep]. destruct (String.eqb d "" || ends_with_sep d);
      destruct d; try congruence; discriminate.
  - destruct (starts_with_sep (String c x)); [discriminate|].
    destruct (String.eqb d "" || ends_with_sep d); destruct d; try congruence; discriminate.
Qed.

(** What a [_setup_checkpointers] that returns has done, and its result. *)
Lemma setup_checkpointers_inv (resume_from : PyPath) (search : bool) (kw : gmap string Obj)
      (t : Trainer F O) (w : World F O) v st' :
  _setup_checkpointers resume_from search kw (t, w) = Return v st' ->
  exists m o' evs,
    (kw ∪ get_checkpointables (optimizer t)) !! "model" = Some m /\
    st' = (set_optimizer o' (with_checkpointers search kw t m), add_events evs w) /\
    ((evs = [] /\ o' = optimizer t) \/ exists p, evs = [EvCheckpointLoad p]) /\
    let dir := checkpoint_dir search (config t) in
    let has := fs_exists (last_checkpoint_file dir) (fs w) in
    (truthy resume_from = false -> v = 0 /\ evs = []) /\
    (truthy resume_from = true -> has = false -> v = 0) /\
    (truthy resume_from = true -> has = true ->
     forall name ck,
       files (fs w) !! last_checkpoint_file dir = Some (TextFile name) ->
       files (fs w) !! os_path_join dir [strip name] = Some (CheckpointFile ck) ->
       v = default (-1) (ck_extra ck !! "iteration") + 1).
Proof.
  intros H. unfold _setup_checkpointers in H.
  step_in H. cbn [fst] in H.
  destruct ((kw ∪ get_checkpointables (optimizer t)) !! "model") as [m|] eqn:Hm;
    [|discriminate].
  exists m.
  do 3 step_in H. cbn [fst] in H.
  change (set_periodic_checkpointer _ _) with (with_checkpointers search kw t m) in H.
  change (mk_checkpointer m _ _) with (made_checkpointer search kw t m) in H.
  cbn [snd] in H.
  set (c := made_checkpointer search kw t m) in *.
  set (t1 := with_checkpointers search kw t m) in *.
  assert (Hdir : save_dir c = checkpoint_dir search (config t)) by reflexivity.
  cbv zeta. unfold last_checkpoint_file. rewrite <- Hdir.
  destruct (truthy resume_from) eqn:Htruthy.
  - unfold resume_or_load in H. step_in H. cbn [snd andb] in H.
    destruct (fs_exists (os_path_join (save_dir c) ["last_checkpoint"]) (fs w)) eqn:Hhas.
    + rewrite ?bind_assoc_run in H.
      apply bind_inv in H as (p0 & st0 & Hget & H).
      apply get_checkpoint_file_inv in Hget as [-> Hname]. cbn [snd] in Hname.
      apply bind_inv in H as (extra & st1 & Hload & H).
      apply load_inv in Hload
        as [(Hp & -> & ->)|(p & ck & keys & Hpath & Hp & Hfile & -> & ->)].
      * step_in H. cbn [snd] in H. rewrite Hhas in H. unfold ret in H.
        injection H as <- <-.
        exists (optimizer t1), []. split; [reflexivity|]. split.
        { destruct t1, w; unfold add_events; cbn. now rewrite app_nil_r. }
        split; [left; split; reflexivity|].
        split; [discriminate|]. split; [discriminate|].
        intros _ _ name ck Hlast Hfile.
        rewrite (Hname _ Hlast) in Hp. cbn [truthy] in Hp.
        apply negb_false_iff, String.eqb_eq in Hp.
        apply os_path_join_nonempty in Hp; [contradiction|].
        rewrite Hdir. unfold checkpoint_dir.
        destruct search; apply append_not_empty.
      * step_in H. cbn [snd add_events fs] in H. rewrite Hhas in H. unfold ret in H.
        injection H as <- <-.
        eexists _, [EvCheckpointLoad p]. split; [reflexivity|]. split; [reflexivity|].
        split; [right; eexists; reflexivity|].
        split; [discriminate|]. split; [discriminate|].
        intros _ _ name ck' Hlast Hfile'.
        assert (Hp' : p = os_path_join (save_dir c) [strip name])
          by (rewrite (Hname _ Hlast) in Hpath; congruence).
        rewrite Hp' in Hfile.
        assert (ck = ck') by congruence. subst ck'. reflexivity.
    + apply bind_inv in H as (extra & st1 & Hload & H).
      apply load_inv in Hload
        as [(Hp & -> & ->)|(p & ck & keys & Hpath & Hp & Hfile & -> & ->)].
      * congruence.
      * step_in H. cbn [snd add_events fs] in H. rewrite Hhas in H. unfold ret in H.
        injection H as <- <-.
        eexists _, [EvCheckpointLoad p]. split; [reflexivity|]. split; [reflexivity|].
        split; [right; eexists; reflexivity|].
        split; [discriminate|]. split; [reflexivity|]. discriminate.
  - unfold ret in H. injection H as <- <-.
    exists (optimizer t1), []. split; [reflexivity|]. split.
    { destruct t1, w; unfold add_events; cbn. now rewrite app_nil_r. }
    split; [left; split; reflexivity|].
    split; [split; reflexivity|]. split; discriminate.
Qed.

(** ** The epoch loop *)

Lemma ready_same_setup (t t' : Trainer F O) : same_setup t t' -> ready t -> ready t'.
Proof.
  intros (_ & _ & _ & _ & _ & Hs & _ & Hp) [[s Hs'] [p Hp']].
  split; [exists s | exists p]; congruence.
Qed.

Lemma grown_add (n m : nat) (d1 d2 d3 : ErrorsDict.t F) :
  grown n d1 d2 -> grown m d2 d3 -> grown (n + m) d1 d3.
Proof. unfold grown. intros (?&?&?&?&?) (?&?&?&?&?). repeat split; lia. Qed.

Lemma grown_zero (d : ErrorsDict.t F) : grown 0 d d.
Proof. unfold grown. repeat split; lia. Qed.

Lemma search_epochs_run (es : list Z) (st : State F O) :
  ready (fst st) -> loop_ready st ->
  exists st', for_each es search_epoch st = Return tt st' /\ epochs_done es st st'.
Proof.
  revert st. induction es as [|e es IH]; intros [t w] Hready Hdirs.
  - exists (t, w). split; [reflexivity|].
    unfold epochs_done; cbn [fst snd List.length].
    split; [apply same_setup_refl|]. split; [apply grown_zero|].
    split; [auto|]. split; [congruence|].
    split; [|split; [reflexivity | congruence]].
    exists []. rewrite app_nil_r. repeat split; cbn; lia.
  - destruct Hready as [[s Hs] [p Hp]]. cbn [fst] in Hs, Hp.
    destruct Hdirs as [Hlog Hck]. cbn [fst snd] in Hlog, Hck.
    destruct (search_epoch_run e t w s p Hs Hp Hlog (fun _ => Hck p Hp))
      as ([t1 w1] & Hrun & Hdone).
    destruct Hdone as (Hsame & Hreset & Hgrown & (evs & tests & Htr & Hne & Hjd & Hcs & Hta & Htl & Hlen & Hle)
                       & (o2 & Hfiles) & Hdr & _ & _).
    cbn [fst snd] in *.
    assert (Hready1 : ready (fst (t1, w1))).
    { eapply ready_same_setup; [exact Hsame|]. split; eauto. }
    assert (Hcfg : config t1 = config t) by apply Hsame.
    assert (Hdirs1 : loop_ready (t1, w1)).
    { split; cbn [fst snd]; rewrite Hdr; [rewrite Hcfg; exact Hlog|].
      intros p' Hp'. apply Hck. destruct Hsame as (_&_&_&_&_&_&_& Hpc). congruence. }
    destruct (IH (t1, w1) Hready1 Hdirs1) as ([t2 w2] & Hrun2 & Hdone2).
    destruct Hdone2 as (Hsame2 & Hgrown2 & Hkeep2 & Hreset2
                        & (evs2 & Htr2 & Hne2 & Hjd2 & Hta2 & Htl2 & Hle2 & Hcs2)
                        & Hdr2 & Hfile2).
    cbn [fst snd] in *.
    exists (t2, w2). cbn [for_each]. rewrite (bind_return _ _ _ _ _ Hrun).
    split; [exact Hrun2|].
    unfold epochs_done; cbn [fst snd List.length].
    split; [eapply same_setup_trans; eassumption|].
    split; [change (S (List.length es)) with (1 + List.length es)%nat;
            eapply grown_add; eassumption|].
    split; [intros _; destruct es; [|apply Hreset2; discriminate]; apply Hkeep2, Hreset|].
    split; [intros _; destruct es; [|apply Hreset2; discriminate]; apply Hkeep2, Hreset|].
    split; [|split; [congruence|]].
    + exists (evs ++ evs2)%list.
      rewrite Htr2, Htr, <- app_assoc.
      rewrite new_epoch_calls_app, json_dumps_app, truthy_tests_app, Hne, Hne2, Hjd, Hjd2, Hcfg.
      rewrite Hta2, Htl2, Hta, Htl, !length_app, !length_map.
      do 5 (split; [reflexivity || lia|]). split; [lia|].
      intros Hall p' Hp'. rewrite checkpoint_saves_app, Hcs.
      assert (p' = p) as -> by congruence.
      rewrite (Hall (new_epoch e (optimizer t))).
      cbn [flat_map]. f_equal. apply Hcs2; [exact Hall|].
      destruct Hsame as (_&_&_&_&_&_&_& Hpc). congruence.
    + intros _. destruct es as [|e' es'].
      * cbn [for_each] in Hrun2. unfold ret in Hrun2. injection Hrun2 as <- <-.
        rewrite Hfiles. apply lookup_insert_eq.
      * rewrite <- Hcfg. apply Hfile2. discriminate.
Qed.

(** ** Before the loop *)

Lemma silent_nil : silent (@nil (@Event F TS)).
Proof. repeat split. Qed.

Lemma search_setup_inv (resume_from : PyPath) (t : Trainer F O) (w : World F O) s st1 :
  search_setup resume_from (t, w) = Return s st1 ->
  search_set_up t w st1 /\
  let dir := checkpoint_dir true (config t) in
  let has := fs_exists (last_checkpoint_file dir) (fs w) in
  (truthy resume_from = false -> s = 0) /\
  (truthy resume_from = true -> has = false -> s = 0) /\
  (truthy resume_from = true -> has = true ->
   forall name ck,
     files (fs w) !! last_checkpoint_file dir = Some (TextFile name) ->
     files (fs w) !! os_path_join dir [strip name] = Some (CheckpointFile ck) ->
     s = default (-1) (ck_extra ck !! "iteration") + 1).
Proof.
  intros H. unfold search_setup in H.
  destruct t as [o cfg eps tq vq teq m1 m2 m3 m4 m5 m6 d0 sch ck pc],
           w as [fl clk tk tr gr evs].
  do 2 step_in H. norm_in H.
  destruct (using_step_function (before_training o)) eqn:Husf.
  - do 5 step_in H. norm_in H.
    apply setup_checkpointers_inv in H
      as (m & o' & evs' & Hm & -> & Hevs & H0 & H1 & H2).
    split.
    + unfold search_set_up, with_checkpointers, made_checkpointer. norm.
      do 12 (split; [reflexivity|]).
      split; [eexists; reflexivity|].
      split; [eexists; split; reflexivity|].
      split; [reflexivity|].
      split; [|first [intros _; exact Husf | discriminate]].
      rewrite <- ?app_assoc. eexists; split; [reflexivity|].
      destruct Hevs as [[-> _]|[p ->]]; repeat split.
    + cbn [config fs] in *. split; [intros Ht; apply (H0 Ht)|]. split; assumption.
  - step_in H. norm_in H.
    destruct sch as [sch|].
    2:{ unfold get_scheduler in H. step_in H. norm_in H. discriminate. }
    step_in H. norm_in H.
    apply setup_checkpointers_inv in H
      as (m & o' & evs' & Hm & -> & Hevs & H0 & H1 & H2).
    split.
    + unfold search_set_up, with_checkpointers, made_checkpointer. norm.
      do 12 (split; [reflexivity|]).
      split; [eexists; reflexivity|].
      split; [eexists; split; reflexivity|].
      split; [reflexivity|].
      split; [|first [intros _; exact Husf | discriminate]].
      rewrite <- ?app_assoc. eexists; split; [reflexivity|].
      destruct Hevs as [[-> _]|[p ->]]; repeat split.
    + cbn [config fs] in *. split; [intros Ht; apply (H0 Ht)|]. split; assumption.
Qed.

Lemma search_set_up_ready (t : Trainer F O) (w : World F O) st1 :
  search_set_up t w st1 -> ready (fst st1).
Proof.
  intros (_&_&_&_&_&_&_&_&_&_&_&_& Hs & (c & Hp & _) & _).
  split; [exact Hs | eexists; exact Hp].
Qed.

(** After the set-up of [search] the loop finds the directories the
    search needs. *)
Lemma search_set_up_dirs (t : Trainer F O) (w : World F O) st1 :
  search_set_up t w st1 -> search_ready (config t) (dirs (fs w)) -> loop_ready st1.
Proof.
  intros (Hcfg &_&_&_&_&_&_&_&_&_&_&_& _ & (c & Hp & Hdir) & Hfs & _) [Hlog Hck].
  split; rewrite Hfs; [rewrite Hcfg; exact Hlog|].
  intros p Hp'. rewrite Hp in Hp'. injection Hp' as <-.
  cbn [pc_checkpointer]. rewrite Hdir. exact Hck.
Qed.

Lemma range_length (a b : Z) : List.length (range a b) = Z.to_nat (b - a).
Proof. unfold range. now rewrite length_map, length_seq. Qed.

(** The trainer [__init__] builds. *)
Lemma init_fresh (o : O) (cfg : Config.t F) :
  let t := __init__ o cfg in
  config t = cfg /\ epochs t = Config.epochs (Config.search cfg) /\
  optimizer t = o /\ scheduler t = None /\ meters_reset t /\
  errors_dict t = ErrorsDict.empty (get_model_size o).
Proof.
  unfold __init__. destruct (get_train_val_loaders (Config.search cfg)) as [[tq vq] teq].
  cbn. repeat split; reflexivity.
Qed.

(** The loop over the first [k] epochs, started where the set-up left
    off. *)
Lemma search_prefix_run resume_from (st : State F O) s st1 (k : nat) :
  search_ready (config (fst st)) (dirs (fs (snd st))) ->
  search_setup resume_from st = Return s st1 ->
  exists stk,
    for_each (firstn k (range s (epochs (fst st)))) search_epoch st1 = Return tt stk /\
    epochs_done (firstn k (range s (epochs (fst st)))) st1 stk.
Proof.
  destruct st as [t w]. intros Hdirs H.
  apply search_setup_inv in H as [Hup _].
  apply search_epochs_run.
  - eapply search_set_up_ready; exact Hup.
  - eapply search_set_up_dirs; [exact Hup | exact Hdirs].
Qed.

(** From the set-up to the end of [search]. *)
Lemma search_after_setup :
  forall resume_from (st : State F O) s st1,
    search_ready (config (fst st)) (dirs (fs (snd st))) ->
    search_setup resume_from st = Return s st1 ->
    exists st2 evs,
      search resume_from st = Return tt st2 /\
      trace (snd st2) = (trace (snd st1) ++ evs)%list /\
      new_epoch_calls evs = range s (epochs (fst st)) /\
      grown (Z.to_nat (epochs (fst st) - s))
            (errors_dict (fst st)) (errors_dict (fst st2)).
Proof.
  intros resume_from [t w] s [t1 w1] Hdirs Hsetup.
  pose proof (search_setup_inv _ _ _ _ _ Hsetup) as [Hup _].
  pose proof Hup as (Hcfg & Hep & _ & _ & _ & _ & _ & _ & _ & _ & _ & Herr & _).
  cbn [fst snd] in *.
  destruct (search_epochs_run (range s (epochs t)) (t1, w1)
              (search_set_up_ready _ _ _ Hup) (search_set_up_dirs _ _ _ Hup Hdirs))
    as ([t2 w2] & Hloop & Hdone).
  destruct Hdone as (_ & Hgrown & _ & _ & (evs & Htr & Hne & _) & _).
  cbn [fst snd] in *.
  exists (set_optimizer (after_training (optimizer t2)) t2, add_events [EvAfterTraining] w2),
         (evs ++ [EvAfterTraining])%list.
  split.
  - unfold search. rewrite (bind_return _ _ _ _ _ Hsetup).
    erewrite bind_return; [|apply self_run]. rewrite Hep.
    rewrite (bind_return _ _ _ _ _ Hloop). apply call_run.
  - cbn [fst snd trace add_events errors_dict set_optimizer].
    rewrite Htr, <- app_assoc. split; [reflexivity|].
    rewrite new_epoch_calls_app, Hne. cbn. rewrite app_nil_r.
    split; [reflexivity|].
    rewrite <- range_length, <- Herr. exact Hgrown.
Qed.

(** C1: in a world that has the save directory and its directory
    [search], when the checkpoint set-up of [search] returns the start
    epoch [s], [search] returns, having called [optimizer.new_epoch]
    exactly on the epochs [s, s+1, ..., N-1] in this order, where [N] is
    [self.epochs]; each of [train_acc], [train_loss], [valid_acc],
    [valid_loss] and [runtime] got one entry per epoch run, that is
    [N - s] entries. *)
Theorem search_runs_each_epoch_once :
  forall resume_from (st : State F O) s st1,
    search_ready (config (fst st)) (dirs (fs (snd st))) ->
    search_setup resume_from st = Return s st1 ->
    exists st2 evs,
      search resume_from st = Return tt st2 /\
      trace (snd st2) = (trace (snd st1) ++ evs)%list /\
      new_epoch_calls evs = range s (epochs (fst st)) /\
      grown (Z.to_nat (epochs (fst st) - s))
            (errors_dict (fst st)) (errors_dict (fst st2)).
Proof.
  intros resume_from [t w] s [t1 w1] Hdirs Hsetup.
  pose proof (search_setup_inv _ _ _ _ _ Hsetup) as [Hup _].
  pose proof Hup as (Hcfg & Hep & _ & _ & _ & _ & _ & _ & _ & _ & _ & Herr & _).
  cbn [fst snd] in *.
  destruct (search_epochs_run (range s (epochs t)) (t1, w1)
              (search_set_up_ready _ _ _ Hup) (search_set_up_dirs _ _ _ Hup Hdirs))
    as ([t2 w2] & Hloop & Hdone).
  destruct Hdone as (_ & Hgrown & _ & _ & (evs & Htr & Hne & _) & _).
  cbn [fst snd] in *.
  exists (set_optimizer (after_training (optimizer t2)) t2, add_events [EvAfterTraining] w2),
         (evs ++ [EvAfterTraining])%list.
  split.
  - unfold search. rewrite (bind_return _ _ _ _ _ Hsetup).
    erewrite bind_return; [|apply self_run]. rewrite Hep.
    rewrite (bind_return _ _ _ _ _ Hloop). apply call_run.
  - cbn [fst snd trace add_events errors_dict set_optimizer].
    rewrite Htr, <- app_assoc. split; [reflexivity|].
    rewrite new_epoch_calls_app, Hne. cbn. rewrite app_nil_r.
    split; [reflexivity|].
    rewrite <- range_length, <- Herr. exact Hgrown.
Qed.

Lemma firstn_range_length (k : nat) (a b : Z) :
  (k <= List.length (range a b))%nat -> List.length (firstn k (range a b)) = k.
Proof. intros H. rewrite length_firstn. lia. Qed.

(** C9: in a world that has the save directory and its directory
    [search], for a trainer fresh from [__init__], after every completed
    search epoch the lists [train_acc], [train_loss], [valid_acc],
    [valid_loss] and [runtime] all have as many entries as epochs were
    completed, and [test_acc] and [test_loss] have one entry for every
    epoch in which [optimizer.test_statistics()] returned a truthy result:
    they have the same length, at most the number of completed epochs. *)
Theorem errors_dict_lengths_invariant :
  forall (o : O) (cfg : Config.t F) (w : World F O) resume_from s st1 (k : nat),
    search_ready cfg (dirs (fs w)) ->
    search_setup resume_from (__init__ o cfg, w) = Return s st1 ->
    (k <= List.length (range s (Config.epochs (Config.search cfg))))%nat ->
    exists stk evs,
      for_each (firstn k (range s (Config.epochs (Config.search cfg)))) search_epoch st1
      = Return tt stk /\
      trace (snd stk) = (trace (snd st1) ++ evs)%list /\
      let d := errors_dict (fst stk) in
      List.length (ErrorsDict.train_acc d) = k /\
      List.length (ErrorsDict.train_loss d) = k /\
      List.length (ErrorsDict.valid_acc d) = k /\
      List.length (ErrorsDict.valid_loss d) = k /\
      List.length (ErrorsDict.runtime d) = k /\
      List.length (ErrorsDict.test_acc d) = truthy_tests evs /\
      List.length (ErrorsDict.test_loss d) = truthy_tests evs /\
      (truthy_tests evs <= k)%nat.
Proof.
  intros o cfg w resume_from s st1 k Hdirs Hsetup Hk.
  destruct (init_fresh o cfg) as (Hcfg & Hep & _ & _ & _ & Herr).
  destruct (search_prefix_run resume_from (__init__ o cfg, w) s st1 k) as (stk & Hrun & Hdone);
    [cbn [fst snd]; rewrite Hcfg; exact Hdirs | exact Hsetup |].
  cbn [fst] in Hrun, Hdone. rewrite Hep in Hrun, Hdone.
  apply search_setup_inv in Hsetup as [Hup _].
  destruct Hup as (_&_&_&_&_&_&_&_&_&_&_& Herr1 &_).
  destruct Hdone as (_ & Hgrown & _ & _ & (evs & Htr & _ & _ & Hta & Htl & Hle & _) & _).
  rewrite firstn_range_length in Hgrown, Hle by exact Hk.
  rewrite Herr1, Herr in Hgrown, Hta, Htl.
  destruct Hgrown as (G1 & G2 & G3 & G4 & G5).
  exists stk, evs. split; [exact Hrun|]. split; [exact Htr|].
  cbn in *. repeat split; assumption.
Qed.

(** C10: in a world that has the save directory and its directory
    [search], when the meters are in their reset state as [search] is
    called (as [__init__] leaves them), they are in their reset state
    after every completed search epoch, hence at the start of every epoch;
    and the averages an epoch of a step-function optimizer records are
    those of meters fed, from the reset state, the batches of that epoch
    alone. *)
Theorem meters_reset_at_every_epoch :
  forall resume_from (st : State F O) s st1 (k : nat),
    search_ready (config (fst st)) (dirs (fs (snd st))) ->
    meters_reset (fst st) ->
    search_setup resume_from st = Return s st1 ->
    exists stk,
      for_each (firstn k (range s (epochs (fst st)))) search_epoch st1 = Return tt stk /\
      meters_reset (fst stk) /\
      forall e,
        using_step_function (new_epoch e (optimizer (fst stk))) = true ->
        exists st',
          search_epoch e stk = Return tt st' /\
          meters_reset (fst st') /\
          let steps := epoch_steps (new_epoch e (optimizer (fst stk)))
                                   (combine (train_queue (fst stk)) (valid_queue (fst stk))) in
          let d := errors_dict (fst stk) in
          let d' := errors_dict (fst st') in
          ErrorsDict.train_acc d'
          = (ErrorsDict.train_acc d
             ++ [AverageMeter.avg (meter_fold (map train_top1_feed steps) AverageMeter.new)])%list /\
          ErrorsDict.train_loss d'
          = (ErrorsDict.train_loss d
             ++ [AverageMeter.avg (meter_fold (map train_loss_feed steps) AverageMeter.new)])%list /\
          ErrorsDict.valid_acc d'
          = (ErrorsDict.valid_acc d
             ++ [AverageMeter.avg (meter_fold (map val_top1_feed steps) AverageMeter.new)])%list /\
          ErrorsDict.valid_loss d'
          = (ErrorsDict.valid_loss d
             ++ [AverageMeter.avg (meter_fold (map val_loss_feed steps) AverageMeter.new)])%list.
Proof.
  intros resume_from [t w] s st1 k Hdirs Hreset Hsetup.
  destruct (search_prefix_run _ _ _ _ k Hdirs Hsetup) as ([tk wk] & Hrun & Hdone).
  apply search_setup_inv in Hsetup as [Hup _].
  pose proof (search_set_up_ready _ _ _ Hup) as Hready.
  pose proof (search_set_up_dirs _ _ _ Hup Hdirs) as [Hlog Hck].
  destruct Hup as (_&_&_&_&_& M1 & M2 & M3 & M4 & M5 & M6 &_).
  assert (Hreset1 : meters_reset (fst st1)).
  { destruct Hreset as (R1 & R2 & R3 & R4 & R5 & R6). cbn [fst] in *.
    repeat split; congruence. }
  destruct Hdone as (Hsame & _ & Hkeep & _ & _ & Hdr & _).
  specialize (Hkeep Hreset1). cbn [fst snd] in *.
  exists (tk, wk). split; [exact Hrun|]. split; [exact Hkeep|].
  intros e Husf.
  destruct (ready_same_setup _ _ Hsame Hready) as [[sch Hs] [p Hp]].
  destruct (search_epoch_run e tk wk sch p Hs Hp) as (st' & Hrun' & Hdone').
  { rewrite Hdr. destruct Hsame as (Hcfg & _). rewrite Hcfg. exact Hlog. }
  { intros _. rewrite Hdr. apply Hck. destruct Hsame as (_&_&_&_&_&_&_& Hpc). congruence. }
  destruct Hdone' as (_ & Hreset' & _ & _ & _ & _ & Hstep & _).
  cbn [fst snd] in Hstep. specialize (Hstep Husf). cbv zeta in Hstep.
  destruct Hkeep as (K1 & _ & K3 & K4 & _ & K6).
  rewrite K1, K3, K4, K6 in Hstep.
  exists st'. split; [exact Hrun'|]. split; [exact Hreset'|]. exact Hstep.
Qed.

(** The file system after [log_to_json]. *)
Lemma log_to_json_fs (t : Trainer F O) (w : World F O) :
  can_log (config t) (fs w) ->
  exists w',
    log_to_json (t, w) = Return tt (t, w') /\
    log_ready (config t) (dirs (fs w')) /\
    dirs (fs w') = (if fs_exists (Config.save (config t)) (fs w) then dirs (fs w)
                    else {[Config.save (config t)]}
                         ∪ list_to_set (ancestors (Config.save (config t)))
                         ∪ dirs (fs w)) /\
    files (fs w')
    = <[errors_path (config t) := JsonFile (errors_dict t)]> (files (fs w)) /\
    trace w' = (trace w ++ log_events (config t) w)%list.
Proof.
  intros Hcan.
  eexists. split; [apply log_to_json_run; exact Hcan|]. cbn [fs dirs files trace].
  split; [|split; [reflexivity | split; reflexivity]].
  apply can_log_inv in Hcan as (He & Hp & [Hd|(Hne & Hex & _)]); apply log_ready_inv.
  - rewrite (isdir_fs_exists _ _ Hd). repeat split; assumption.
  - rewrite Hex. split; [exact He|]. split; [apply isdir_made; exact Hne|].
    apply errors_path_not_made. exact Hp.
Qed.



(** ** A search without step function *)

(** A fresh trainer whose optimizer does not use the step function never
    reaches the loop: reading [self.scheduler] raises. *)
Lemma search_without_step_function (o : O) (cfg : Config.t F) (w : World F O) resume_from :
  using_step_function (before_training o) = false ->
  search resume_from (__init__ o cfg, w)
  = Raise (AttributeError "scheduler")
          (set_optimizer (before_training o) (__init__ o cfg),
           add_events [EvBeforeTraining] w).
Proof.
  intros Husf. destruct (init_fresh o cfg) as (_ & _ & Ho & Hs & _).
  unfold search, search_setup.
  rewrite ?bind_assoc_run. erewrite bind_return; [|apply call_run].
  rewrite Ho.
  rewrite ?bind_assoc_run. erewrite bind_return; [|apply self_run].
  cbn [optimizer set_optimizer].
  rewrite Husf.
  rewrite ?bind_assoc_run. erewrite bind_return; [|apply ret_run].
  rewrite ?bind_assoc_run. apply bind_raise. unfold get_scheduler.
  erewrite bind_return; [|apply self_run].
  cbn [scheduler set_optimizer]. rewrite Hs. reflexivity.
Qed.
End SearchFacts.

(** ** Checkpoint paths *)

Section CheckpointPaths.
Context {F : Type}.

Lemma checkpoint_dir_shape (search : bool) (cfg : Config.t F) :
  checkpoint_dir search cfg <> "" /\ ends_with_sep (checkpoint_dir search cfg) = false.
Proof.
  unfold checkpoint_dir. destruct search; split;
    try (rewrite ends_with_sep_append; reflexivity);
    apply String.eqb_neq, append_nonempty.
Qed.

(** A file in a checkpoint directory. *)
Lemma checkpoint_path (search : bool) (cfg : Config.t F) (name : string) :
  starts_with_sep name = false ->
  os_path_join (checkpoint_dir search cfg) [name]
  = checkpoint_dir search cfg +:+ "/" +:+ name.
Proof. intros H. destruct (checkpoint_dir_shape search cfg). now apply os_path_join_in. Qed.

Lemma checkpoint_path_inj (search : bool) (cfg : Config.t F) (a b : string) :
  starts_with_sep a = false -> starts_with_sep b = false ->
  os_path_join (checkpoint_dir search cfg) [a] = os_path_join (checkpoint_dir search cfg) [b] ->
  a = b.
Proof.
  intros Ha Hb. rewrite !checkpoint_path by assumption.
  intros H. apply append_cancel in H. now apply (append_cancel "/") in H.
Qed.

Lemma checkpoint_path_nonempty (search : bool) (cfg : Config.t F) (name : string) :
  starts_with_sep name = false ->
  os_path_join (checkpoint_dir search cfg) [name] <> "".
Proof.
  intros H. rewrite checkpoint_path by exact H.
  destruct (checkpoint_dir_shape search cfg) as [Hd _].
  destruct (checkpoint_dir search cfg); [congruence | discriminate].
Qed.

(** The statistics file is no file of the search checkpoint directory. *)
Lemma errors_path_not_checkpoint (cfg : Config.t F) (name : string) :
  starts_with_sep name = false ->
  errors_path cfg <> os_path_join (checkpoint_dir true cfg) [name].
Proof.
  intros Hn. rewrite checkpoint_path by exact Hn.
  unfold errors_path, os_path_join, checkpoint_dir. cbn [fold_left].
  change (starts_with_sep ("errors_" +:+ str_of_int (Config.seed cfg) +:+ ".json"))
    with false. cbv iota.
  rewrite !append_assoc.
  destruct (String.eqb (Config.save cfg) "" || ends_with_sep (Config.save cfg));
    intros H; apply append_cancel in H; discriminate.
Qed.
End CheckpointPaths.

(** ** Checkpoints written and read back *)

Section ResumeFacts.
Context {F : Type} {FO : FloatOps F} {TS : Tensors F}.
Context {O : Type} {OPT : Optimizer F O} {TORCH : Torch F O}.

Lemma save_files_last (c : Checkpointer) (search : bool) (cfg : Config.t F)
      (name : string) (it : Z) (o : O) (fl : gmap string (FileData F O)) :
  save_dir c = checkpoint_dir search cfg ->
  starts_with_sep (name +:+ ".pth") = false ->
  name +:+ ".pth" <> "last_checkpoint" ->
  exists ck,
    save_files c name it o fl !! last_checkpoint_file (checkpoint_dir search cfg)
    = Some (TextFile (name +:+ ".pth")) /\
    save_files c name it o fl !! os_path_join (checkpoint_dir search cfg) [name +:+ ".pth"]
    = Some (CheckpointFile ck) /\
    ck_extra ck !! "iteration" = Some it.
Proof.
  intros Hdir Hn Hne. unfold save_files, last_checkpoint_file. rewrite Hdir.
  destruct (checkpoint_dir_shape search cfg) as [Hd _].
  apply String.eqb_neq in Hd. rewrite Hd.
  eexists. split; [apply lookup_insert_eq|]. split.
  - rewrite lookup_insert_ne; [apply lookup_insert_eq|].
    intros H. apply checkpoint_path_inj in H; [congruence | reflexivity | exact Hn].
  - apply lookup_insert_eq.
Qed.

(** With period 1 every step leaves a last checkpoint that holds the
    iteration of the step. *)
Lemma periodic_files_last (c : Checkpointer) (search : bool) (cfg : Config.t F)
      (N e : Z) (o : O) (fl : gmap string (FileData F O)) :
  save_dir c = checkpoint_dir search cfg ->
  exists name ck,
    starts_with_sep name = false /\ strip name = name /\
    periodic_files (mk_periodic c 1 N) e o fl !! last_checkpoint_file (checkpoint_dir search cfg)
    = Some (TextFile name) /\
    periodic_files (mk_periodic c 1 N) e o fl !! os_path_join (checkpoint_dir search cfg) [name]
    = Some (CheckpointFile ck) /\
    ck_extra ck !! "iteration" = Some e.
Proof.
  intros Hdir. unfold periodic_files. cbn [period max_iter pc_checkpointer].
  rewrite Z.mod_1_r. cbn [Z.eqb].
  destruct (e >=? N - 1).
  - destruct (save_files_last c search cfg "model_final" e o
                (save_files c ("model_" +:+ format_07d e) e o fl) Hdir)
      as (ck & H1 & H2 & H3); [reflexivity | discriminate |].
    exists ("model_final" +:+ ".pth"), ck. repeat split; assumption.
  - destruct (save_files_last c search cfg ("model_" +:+ format_07d e) e o fl Hdir)
      as (ck & H1 & H2 & H3); [reflexivity | discriminate |].
    exists (("model_" +:+ format_07d e) +:+ ".pth"), ck.
    split; [reflexivity|]. split; [apply strip_checkpoint_name|].
    repeat split; assumption.
Qed.

(** With period 1 every step saves the checkpoint named after its
    iteration. *)
Lemma periodic_events_saves (c : Checkpointer) (search : bool) (cfg : Config.t F) (N e : Z) :
  save_dir c = checkpoint_dir search cfg ->
  In (os_path_join (checkpoint_dir search cfg) [("model_" +:+ format_07d e) +:+ ".pth"], e)
     (checkpoint_saves (@periodic_events F TS (mk_periodic c 1 N) e)).
Proof.
  intros Hdir. unfold periodic_events, save_events. cbn [period max_iter pc_checkpointer].
  rewrite Z.mod_1_r. cbn [Z.eqb]. rewrite Hdir.
  destruct (checkpoint_dir_shape search cfg) as [Hd _].
  apply String.eqb_neq in Hd. rewrite Hd.
  rewrite checkpoint_saves_app. apply in_or_app. left. left. reflexivity.
Qed.

Lemma fs_exists_file (p : string) (x : FileSystem F O) (d : FileData F O) :
  p <> "" -> files x !! p = Some d -> fs_exists p x = true.
Proof.
  intros Hp H. unfold fs_exists, is_file. rewrite H.
  apply String.eqb_neq in Hp as ->. apply orb_true_r.
Qed.

Lemma last_checkpoint_file_nonempty (search : bool) (cfg : Config.t F) :
  last_checkpoint_file (checkpoint_dir search cfg) <> "".
Proof. apply checkpoint_path_nonempty. reflexivity. Qed.

(** The start of [_setup_checkpointers], up to the test of
    [resume_from]. *)
Lemma setup_checkpointers_start (resume_from : PyPath) (search : bool)
      (kw : gmap string Obj) (t : Trainer F O) (w : World F O) m :
  (kw ∪ get_checkpointables (optimizer t)) !! "model" = Some m ->
  _setup_checkpointers resume_from search kw (t, w)
  = (if truthy resume_from then
       checkpoint <- resume_or_load (made_checkpointer search kw t m) resume_from true ;;
       has <- has_checkpoint (made_checkpointer search kw t m) ;;
       if has then ret (default (-1) (checkpoint !! "iteration") + 1)
       else ret 0
     else ret 0) (with_checkpointers search kw t m, w).
Proof.
  intros Hm. unfold _setup_checkpointers.
  erewrite bind_return; [|apply self_run]. rewrite Hm.
  do 3 (erewrite bind_return; [|prim]). reflexivity.
Qed.

(** [_setup_checkpointers] on a directory whose last checkpoint is there. *)
Lemma setup_checkpointers_resume (resume_from : PyPath) (search : bool)
      (kw : gmap string Obj) (t : Trainer F O) (w : World F O) m name ck :
  truthy resume_from = true ->
  (kw ∪ get_checkpointables (optimizer t)) !! "model" = Some m ->
  let dir := checkpoint_dir search (config t) in
  files (fs w) !! last_checkpoint_file dir = Some (TextFile name) ->
  files (fs w) !! os_path_join dir [strip name] = Some (CheckpointFile ck) ->
  exists keys,
    _setup_checkpointers resume_from search kw (t, w)
    = Return (default (-1) (ck_extra ck !! "iteration") + 1)
             (set_optimizer (load_state_dict keys (ck_state ck) (optimizer t))
                            (with_checkpointers search kw t m),
              add_events [EvCheckpointLoad (os_path_join dir [strip name])] w).
Proof.
  intros Htruthy Hm dir Hlast Hfile.
  pose proof (fs_exists_file _ _ _ (last_checkpoint_file_nonempty search (config t)) Hlast)
    as Hhas.
  rewrite (setup_checkpointers_start _ _ _ _ _ _ Hm), Htruthy.
  set (c := made_checkpointer search kw t m).
  assert (Hdir : save_dir c = checkpoint_dir search (config t)) by reflexivity.
  subst dir.
  unfold resume_or_load.
  rewrite ?bind_assoc_run. erewrite bind_return; [|prim].
  cbn [snd]. unfold last_checkpoint_file in Hhas, Hlast. rewrite Hdir, Hhas. cbn [andb].
  rewrite ?bind_assoc_run.
  erewrite bind_return; [|apply get_checkpoint_file_text; rewrite Hdir; exact Hlast].
  rewrite Hdir.
  assert (Hne : os_path_join (checkpoint_dir search (config t)) [strip name] <> "").
  { apply os_path_join_nonempty. apply (checkpoint_dir_shape search (config t)). }
  destruct (load_checkpoint_run c (os_path_join (checkpoint_dir search (config t)) [strip name])
              None ck
              (with_checkpointers search kw t m) w Hne Hfile) as (keys & Hload).
  erewrite bind_return; [|exact Hload].
  erewrite bind_return; [|prim].
  cbn [snd add_events fs]. rewrite Hdir, Hhas.
  exists keys. reflexivity.
Qed.

(** [_setup_checkpointers] on a directory without last checkpoint: the
    file [resume_from] is loaded, and must be there. *)
Lemma setup_checkpointers_load (p : string) (search : bool)
      (kw : gmap string Obj) (t : Trainer F O) (w : World F O) m :
  p <> "" ->
  (kw ∪ get_checkpointables (optimizer t)) !! "model" = Some m ->
  fs_exists (last_checkpoint_file (checkpoint_dir search (config t))) (fs w) = false ->
  (forall ck,
      files (fs w) !! p = Some (CheckpointFile ck) ->
      exists keys,
        _setup_checkpointers (PyStr p) search kw (t, w)
        = Return 0 (set_optimizer (load_state_dict keys (ck_state ck) (optimizer t))
                                  (with_checkpointers search kw t m),
                    add_events [EvCheckpointLoad p] w)) /\
  (files (fs w) !! p = None ->
   _setup_checkpointers (PyStr p) search kw (t, w)
   = Raise AssertionError (with_checkpointers search kw t m, w)).
Proof.
  intros Hp Hm Hhas.
  assert (Htruthy : truthy (PyStr p) = true).
  { cbn [truthy]. apply String.eqb_neq in Hp. now rewrite Hp. }
  rewrite (setup_checkpointers_start _ _ _ _ _ _ Hm), Htruthy.
  unfold resume_or_load.
  rewrite ?bind_assoc_run. erewrite bind_return; [|apply has_checkpoint_run].
  change (save_dir (made_checkpointer search kw t m)) with (checkpoint_dir search (config t)).
  cbn [snd]. unfold last_checkpoint_file in Hhas.
  rewrite Hhas. cbn [andb].
  split.
  - intros ck Hfile.
    destruct (load_checkpoint_run (made_checkpointer search kw t m) p (Some []) ck
                (with_checkpointers search kw t m) w Hp Hfile) as (keys & Hload).
    erewrite bind_return; [|exact Hload].
    erewrite bind_return; [|apply has_checkpoint_run].
    change (save_dir (made_checkpointer search kw t m)) with (checkpoint_dir search (config t)).
    cbn [snd add_events fs]. rewrite Hhas.
    exists keys. reflexivity.
  - intros Hfile. apply bind_raise. unfold load. rewrite Htruthy. cbn [negb].
    unfold bind, read_file, world. cbn [snd]. rewrite Hfile. reflexivity.
Qed.
End ResumeFacts.

Section RoundTrip.
Context {F : Type} {FO : FloatOps F} {TS : Tensors F}.
Context {O : Type} {OPT : Optimizer F O} {TORCH : Torch F O}.

(** The set-up of [search] for a fresh trainer with a step-function
    optimizer, on a search directory whose last checkpoint is there. *)
Lemma search_setup_resume (resume_from : PyPath) (o : O) (cfg : Config.t F)
      (w : World F O) name ck :
  truthy resume_from = true ->
  using_step_function (before_training o) = true ->
  (forall o', is_Some (get_checkpointables o' !! "model")) ->
  let dir := checkpoint_dir true cfg in
  files (fs w) !! last_checkpoint_file dir = Some (TextFile name) ->
  files (fs w) !! os_path_join dir [strip name] = Some (CheckpointFile ck) ->
  exists st',
    search_setup resume_from (__init__ o cfg, w)
    = Return (default (-1) (ck_extra ck !! "iteration") + 1) st'.
Proof.
  intros Htruthy Husf Hmodel dir Hlast Hfile.
  unfold search_setup, __init__.
  destruct (get_train_val_loaders (Config.search cfg)) as [[tq vq] teq].
  do 2 step. rewrite Husf. do 5 step.
  match goal with
  | |- context [_setup_checkpointers _ _ ?kw (?t, ?w0)] =>
      destruct (Hmodel (optimizer t)) as [m Hm];
      destruct (setup_checkpointers_resume resume_from true kw t w0 m name ck)
        as (keys & Hrun)
  end; try assumption.
  { rewrite lookup_union_r; [exact Hm|]. apply lookup_singleton_ne. discriminate. }
  eexists. exact Hrun.
Qed.

Lemma firstn_seq_min (k a n : nat) : firstn k (seq a n) = seq a (Nat.min k n).
Proof.
  revert a n. induction k as [|k IH]; intros a [|n]; cbn; try reflexivity.
  f_equal. apply IH.
Qed.

Lemma firstn_range_last (k : nat) (s N : Z) :
  (0 < k <= List.length (range s N))%nat ->
  firstn k (range s N) = (firstn (k - 1) (range s N) ++ [s + Z.of_nat k - 1])%list.
Proof.
  intros Hk. unfold range in *. rewrite length_map, length_seq in Hk.
  rewrite !firstn_map, !firstn_seq_min.
  replace (Nat.min k (Z.to_nat (N - s))) with (S (k - 1)) by lia.
  replace (Nat.min (k - 1) (Z.to_nat (N - s))) with (k - 1)%nat by lia.
  rewrite seq_S, map_app. cbn [map Nat.add]. repeat f_equal. lia.
Qed.
End RoundTrip.

Section RoundTripTheorem.
Context {F : Type} {FO : FloatOps F} {TS : Tensors F}.
Context {O : Type} {OPT : Optimizer F O} {TORCH : Torch F O}.

(** After [k] epochs of a step-function search the search directory holds
    a last checkpoint with the iteration of the last epoch run. *)
Lemma search_prefix_checkpoint (o : O) (cfg : Config.t F) (w : World F O)
      resume_from s st1 (k : nat) :
  (forall o', using_step_function o' = true) ->
  search_ready cfg (dirs (fs w)) ->
  search_setup resume_from (__init__ o cfg, w) = Return s st1 ->
  (0 < k <= List.length (range s (Config.epochs (Config.search cfg))))%nat ->
  exists stk name ck,
    for_each (firstn k (range s (Config.epochs (Config.search cfg)))) search_epoch st1
    = Return tt stk /\
    dirs (fs (snd stk)) = dirs (fs w) /\
    files (fs (snd stk)) !! last_checkpoint_file (checkpoint_dir true cfg)
    = Some (TextFile name) /\
    files (fs (snd stk)) !! os_path_join (checkpoint_dir true cfg) [strip name]
    = Some (CheckpointFile ck) /\
    ck_extra ck !! "iteration" = Some (s + Z.of_nat k - 1).
Proof.
  intros Hall Hdirs Hsetup Hk.
  destruct (init_fresh o cfg) as (Hcfg & Hep & _).
  set (N := Config.epochs (Config.search cfg)) in *.
  destruct (search_prefix_run resume_from (__init__ o cfg, w) s st1 (k - 1))
    as ([t1 w1] & Hrun1 & Hdone1);
    [cbn [fst snd]; rewrite Hcfg; exact Hdirs | exact Hsetup |].
  cbn [fst] in Hrun1, Hdone1. rewrite Hep in Hrun1, Hdone1.
  apply search_setup_inv in Hsetup as [Hup _].
  pose proof (search_set_up_ready _ _ _ Hup) as Hready.
  assert (Hloop : loop_ready st1).
  { eapply search_set_up_dirs; [exact Hup | rewrite Hcfg; exact Hdirs]. }
  destruct Hup as (Hcfg1 &_&_&_&_&_&_&_&_&_&_&_& _ & (c & Hpc & Hdir) & Hfs & _).
  rewrite Hcfg in Hcfg1, Hpc, Hdir. fold N in Hpc.
  destruct Hdone1 as (Hsame & _ & _ & _ & _ & Hdr1 & _). cbn [fst snd] in Hsame, Hdr1.
  pose proof (ready_same_setup _ _ Hsame Hready) as [[sch Hs] _].
  assert (Hp : periodic_checkpointer t1 = Some (mk_periodic c 1 N)).
  { destruct Hsame as (_&_&_&_&_&_&_& H). congruence. }
  assert (Hcfgk : config t1 = cfg).
  { destruct Hsame as (H &_). congruence. }
  destruct Hloop as [Hlog Hck].
  destruct (search_epoch_run (s + Z.of_nat k - 1) t1 w1 sch _ Hs Hp)
    as ([t2 w2] & Hrun2 & Hdone2).
  { rewrite Hdr1, Hcfgk, <- Hcfg1. exact Hlog. }
  { intros _. rewrite Hdr1. apply Hck. exact Hpc. }
  destruct Hdone2 as (_ & _ & _ & _ & (o2 & Hfiles) & Hdr2 & _).
  cbn [fst snd] in Hfiles, Hdr2. rewrite Hall, Hcfgk in Hfiles.
  destruct (periodic_files_last c true cfg N (s + Z.of_nat k - 1) o2 (files (fs w1)) Hdir)
    as (name & ck & Hname & Hstrip & Hlast & Hfile & Hit).
  exists (t2, w2), name, ck.
  split.
  { rewrite (firstn_range_last k s N Hk), for_each_app.
    rewrite (bind_return _ _ _ _ _ Hrun1). cbn [for_each].
    rewrite (bind_return _ _ _ _ _ Hrun2). reflexivity. }
  cbn [snd]. split; [rewrite Hdr2, Hdr1, Hfs; reflexivity|].
  rewrite Hfiles, Hstrip.
  split; [|split; [|exact Hit]].
  - rewrite lookup_insert_ne; [exact Hlast|].
    apply errors_path_not_checkpoint. reflexivity.
  - rewrite lookup_insert_ne; [exact Hfile|].
    apply errors_path_not_checkpoint. exact Hname.
Qed.

(** C3, amended: [_setup_checkpointers] returns 0 for an empty
    [resume_from]; for a non-empty one it returns the saved iteration plus
    one when the directory names a last checkpoint (the name is stripped);
    when the directory has no last checkpoint, [resume_from] itself is
    loaded, and the result is 0 if that file holds a checkpoint, whereas
    the set-up raises [AssertionError] if there is no such file.  In a
    search by a step-function optimizer, in a world that has the save
    directory and its directory [search], a checkpoint named after the
    epoch is saved in every epoch, the periodic checkpointer having
    period 1; and a search resumed on the files left after [k] epochs
    starts at epoch [s + k]: it runs the epochs not yet completed and no
    other. *)
Theorem checkpoint_resume_round_trip :
  (forall resume_from search kw (t : Trainer F O) (w : World F O) m,
      truthy resume_from = false ->
      (kw ∪ get_checkpointables (optimizer t)) !! "model" = Some m ->
      _setup_checkpointers resume_from search kw (t, w)
      = Return 0 (with_checkpointers search kw t m, w)) /\
  (forall resume_from search kw (t : Trainer F O) (w : World F O) m name ck,
      truthy resume_from = true ->
      (kw ∪ get_checkpointables (optimizer t)) !! "model" = Some m ->
      let dir := checkpoint_dir search (config t) in
      files (fs w) !! last_checkpoint_file dir = Some (TextFile name) ->
      files (fs w) !! os_path_join dir [strip name] = Some (CheckpointFile ck) ->
      exists keys,
        _setup_checkpointers resume_from search kw (t, w)
        = Return (default (-1) (ck_extra ck !! "iteration") + 1)
                 (set_optimizer (load_state_dict keys (ck_state ck) (optimizer t))
                                (with_checkpointers search kw t m),
                  add_events [EvCheckpointLoad (os_path_join dir [strip name])] w)) /\
  (forall (p : string) search kw (t : Trainer F O) (w : World F O) m,
      p <> "" ->
      (kw ∪ get_checkpointables (optimizer t)) !! "model" = Some m ->
      fs_exists (last_checkpoint_file (checkpoint_dir search (config t))) (fs w) = false ->
      (forall ck,
          files (fs w) !! p = Some (CheckpointFile ck) ->
          exists keys,
            _setup_checkpointers (PyStr p) search kw (t, w)
            = Return 0 (set_optimizer (load_state_dict keys (ck_state ck) (optimizer t))
                                      (with_checkpointers search kw t m),
                        add_events [EvCheckpointLoad p] w)) /\
      (files (fs w) !! p = None ->
       _setup_checkpointers (PyStr p) search kw (t, w)
       = Raise AssertionError (with_checkpointers search kw t m, w))) /\
  (forall (o : O) (cfg : Config.t F) (w : World F O) resume_from s st1 (k : nat),
      (forall o1 o2, using_step_function o1 = using_step_function o2) ->
      (forall o', is_Some (get_checkpointables o' !! "model")) ->
      search_ready cfg (dirs (fs w)) ->
      search_setup resume_from (__init__ o cfg, w) = Return s st1 ->
      (0 < k <= List.length (range s (Config.epochs (Config.search cfg))))%nat ->
      exists stk evs,
        for_each (firstn k (range s (Config.epochs (Config.search cfg)))) search_epoch st1
        = Return tt stk /\
        trace (snd stk) = (trace (snd st1) ++ evs)%list /\
        (forall e,
            In e (firstn k (range s (Config.epochs (Config.search cfg)))) ->
            In (os_path_join (checkpoint_dir true cfg)
                             [("model_" +:+ format_07d e) +:+ ".pth"], e)
               (checkpoint_saves evs)) /\
        forall (o' : O) (w' : World F O) resume_from',
          truthy resume_from' = true ->
          fs w' = fs (snd stk) ->
          exists st1' st2 evs',
            search_setup resume_from' (__init__ o' cfg, w')
            = Return (s + Z.of_nat k) st1' /\
            search resume_from' (__init__ o' cfg, w') = Return tt st2 /\
            trace (snd st2) = (trace (snd st1') ++ evs')%list /\
            new_epoch_calls evs'
            = range (s + Z.of_nat k) (Config.epochs (Config.search cfg))).
Proof.
  split.
  { intros resume_from search kw t w m Htruthy Hm.
    rewrite (setup_checkpointers_start _ _ _ _ _ _ Hm), Htruthy. reflexivity. }
  split; [exact setup_checkpointers_resume|].
  split; [exact setup_checkpointers_load|].
  intros o cfg w resume_from s st1 k Hconst Hmodel Hdirs Hsetup Hk.
  destruct (init_fresh o cfg) as (Hcfg & Hep & Ho & Hsch & _).
  assert (Hall : forall o', using_step_function o' = true).
  { intros o'. rewrite (Hconst o' (before_training o)).
    pose proof (search_setup_inv _ _ _ _ _ Hsetup) as [Hup _].
    destruct Hup as (_&_&_&_&_&_&_&_&_&_&_&_&_&_&_&_& H).
    rewrite Ho in H. exact (H Hsch). }
  destruct (search_prefix_checkpoint o cfg w resume_from s st1 k Hall Hdirs Hsetup Hk)
    as (stk & name & ck & Hrun & Hdr & Hlast & Hfile & Hit).
  destruct (search_prefix_run resume_from (__init__ o cfg, w) s st1 k)
    as (stk' & Hrun' & Hdone);
    [cbn [fst snd]; rewrite Hcfg; exact Hdirs | exact Hsetup |].
  cbn [fst] in Hrun', Hdone. rewrite Hep in Hrun', Hdone.
  rewrite Hrun in Hrun'. injection Hrun' as <-.
  pose proof (search_setup_inv _ _ _ _ _ Hsetup) as [Hup _].
  destruct Hup as (Hcfg1 &_&_&_&_&_&_&_&_&_&_&_& _ & (c & Hpc & Hdir) & _).
  rewrite Hcfg in Hcfg1, Hpc, Hdir.
  destruct Hdone as (_ & _ & _ & _ & (evs & Htr & _ & _ & _ & _ & _ & Hcs) & _).
  specialize (Hcs Hall _ Hpc).
  exists stk, evs. split; [exact Hrun|]. split; [exact Htr|]. split.
  - intros e He. rewrite Hcs. apply in_flat_map. exists e. split; [exact He|].
    apply periodic_events_saves. exact Hdir.
  - intros o' w' resume_from' Htruthy Hfs.
    rewrite <- Hfs in Hlast, Hfile, Hdr.
    destruct (search_setup_resume resume_from' o' cfg w' name ck Htruthy (Hall _) Hmodel
                Hlast Hfile)
      as (st1' & Hsetup').
    rewrite Hit in Hsetup'. cbn [default from_option] in Hsetup'. unfold id in Hsetup'.
    replace (s + Z.of_nat k - 1 + 1) with (s + Z.of_nat k) in Hsetup' by lia.
    destruct (init_fresh o' cfg) as (Hcfg' & Hep' & _).
    destruct (search_after_setup resume_from' (__init__ o' cfg, w') (s + Z.of_nat k) st1')
      as (st2 & evs' & Hsearch & Htr' & Hne & _);
      [cbn [fst snd]; rewrite Hcfg', Hdr; exact Hdirs | exact Hsetup' |].
    cbn [fst] in Hne. rewrite Hep' in Hne.
    exists st1', st2, evs'.
    split; [exact Hsetup'|]. split; [exact Hsearch|]. split; [exact Htr'|exact Hne].
Qed.
End RoundTripTheorem.

(** ** The evaluation *)

Section EvaluateFacts.
Context {F : Type} {FO : FloatOps F} {TS : Tensors F}.
Context {O : Type} {OPT : Optimizer F O} {TORCH : Torch F O}.

Lemma check_format_run (x : PyNum F) (st : State F O) :
  format_prec x = None -> check_format x st = Return tt st.
Proof. intros H. unfold check_format. now rewrite H. Qed.

Lemma check_format_int (z : Z) (st : State F O) :
  check_format (PyInt z) st = Raise ValueError st.
Proof. reflexivity. Qed.

Lemma best_arch_forward_run (x : Input) (t : Trainer F O) (w : World F O) :
  best_arch_forward x (t, w)
  = Return (snd (forward (training w) (grad_enabled w) x (optimizer t)))
           (set_optimizer (fst (forward (training w) (grad_enabled w) x (optimizer t))) t,
            add_events [EvForward (training w) (grad_enabled w) x] w).
Proof. reflexivity. Qed.

Lemma retrained_trainer_twice o1 m1 m5 o2 n1 n5 (t : Trainer F O) :
  retrained_trainer o2 n1 n5 (retrained_trainer o1 m1 m5 t) = retrained_trainer o2 n1 n5 t.
Proof. reflexivity. Qed.

Lemma retrained_trainer_id (t : Trainer F O) :
  retrained_trainer (optimizer t) (train_top1 t) (train_top5 t) t = t.
Proof. destruct t; reflexivity. Qed.

Lemma retrained_world_twice fl1 evs1 fl2 evs2 (w : World F O) :
  retrained_world fl2 evs2 (retrained_world fl1 evs1 w)
  = retrained_world fl2 (evs1 ++ evs2) w.
Proof. unfold retrained_world; cbn. now rewrite <- app_assoc. Qed.

Lemma retrained_world_id (w : World F O) : retrained_world (files (fs w)) [] w = w.
Proof. destruct w as [[d f] ? ? ? ? ?]; unfold retrained_world; cbn. now rewrite app_nil_r. Qed.

Lemma add_events_retrained (evs : list (@Event F TS)) (w : World F O) :
  add_events evs w = retrained_world (files (fs w)) evs w.
Proof. destruct w as [[d f] ? ? ? ? ?]; reflexivity. Qed.

Lemma add_events_nil (w : World F O) : add_events [] w = w.
Proof. destruct w; unfold add_events; cbn. now rewrite app_nil_r. Qed.

Lemma optim_steps_app (a b : list (@Event F TS)) :
  optim_steps (a ++ b) = (optim_steps a + optim_steps b)%nat.
Proof. unfold optim_steps. now rewrite List.filter_app, length_app. Qed.

(** One training step of the retraining. *)
Lemma retrain_batch_run (gc : PyNum F) (b : Batch) (t : Trainer F O) (w : World F O) :
  training w = true ->
  let g := grad_enabled w in
  let feed := retrain_step_feed g (optimizer t) b in
  retrain_batch gc b (t, w)
  = Return tt (retrained_trainer
                 (retrain_step gc g (optimizer t) b)
                 (AverageMeter.update (fst (top1_feed feed)) (snd (top1_feed feed)) (train_top1 t))
                 (AverageMeter.update (fst (top5_feed feed)) (snd (top5_feed feed)) (train_top5 t))
                 t,
               add_events (retrain_step_events gc g b) w).
Proof.
  intros Htr g feed. subst g feed.
  destruct t as [o cfg eps tq vq teq m1 m2 m3 m4 m5 m6 d0 sch ck pc],
           w as [fl clk tk tr gr evs].
  cbn [training] in Htr. subst tr.
  unfold retrain_batch, retrain_step, retrain_step_events, retrain_step_feed,
    top1_feed, top5_feed.
  step.
  rewrite ?bind_assoc_run. erewrite bind_return; [|apply best_arch_forward_run]. norm.
  step.
  destruct (pynum_bool gc); cbv iota.
  - do 2 step. unfold _store_accuracies.
    match goal with
    | |- context [accuracy ?l ?y] => destruct (accuracy l y) as [p1 p5]
    end.
    change (String.eqb "train" "train") with true. cbv iota.
    step. rewrite set_self_run. norm. unfold retrained_trainer. norm.
    rewrite <- ?app_assoc. reflexivity.
  - do 2 step. unfold _store_accuracies.
    match goal with
    | |- context [accuracy ?l ?y] => destruct (accuracy l y) as [p1 p5]
    end.
    change (String.eqb "train" "train") with true. cbv iota.
    step. rewrite set_self_run. norm. unfold retrained_trainer. norm.
    rewrite <- ?app_assoc. reflexivity.
Qed.

(** The pass over the training queue. *)
Lemma retrain_batches_run (gc : PyNum F) (l : list Batch) (t : Trainer F O) (w : World F O) :
  training w = true ->
  let g := grad_enabled w in
  let feed := retrain_pass_feed gc g l (optimizer t) in
  for_each l (retrain_batch gc) (t, w)
  = Return tt (retrained_trainer
                 (retrain_pass gc g l (optimizer t))
                 (meter_fold (map top1_feed feed) (train_top1 t))
                 (meter_fold (map top5_feed feed) (train_top5 t))
                 t,
               add_events (retrain_pass_events gc g l) w).
Proof.
  revert t w. induction l as [|b l IH]; intros t w Htr.
  - cbn. rewrite retrained_trainer_id, add_events_nil. reflexivity.
  - cbn [for_each]. erewrite bind_return; [|apply retrain_batch_run; exact Htr].
    rewrite IH by exact Htr.
    cbn [retrain_pass_feed retrain_pass retrain_pass_events fold_left flat_map map meter_fold].
    rewrite retrained_trainer_twice, add_events_add_events.
    destruct w; reflexivity.
Qed.
End EvaluateFacts.

Section RetrainFacts.
Context {F : Type} {FO : FloatOps F} {TS : Tensors F}.
Context {O : Type} {OPT : Optimizer F O} {TORCH : Torch F O}.

Lemma forallb_save_events c name it :
  forallb (@retraining_event F TS) (save_events c name it) = true.
Proof. unfold save_events. destruct (String.eqb (save_dir c) ""); reflexivity. Qed.

Lemma forallb_periodic_events p e :
  forallb (@retraining_event F TS) (periodic_events p e) = true.
Proof.
  unfold periodic_events. rewrite forallb_app.
  destruct ((e + 1) mod period p =? 0), (e >=? max_iter p - 1);
    rewrite ?forallb_save_events; reflexivity.
Qed.

Lemma optim_steps_save_events c name it :
  optim_steps (@save_events F TS c name it) = 0%nat.
Proof. unfold save_events. destruct (String.eqb (save_dir c) ""); reflexivity. Qed.

Lemma optim_steps_periodic_events p e :
  optim_steps (@periodic_events F TS p e) = 0%nat.
Proof.
  unfold periodic_events. rewrite optim_steps_app.
  destruct ((e + 1) mod period p =? 0), (e >=? max_iter p - 1);
    rewrite ?optim_steps_save_events; reflexivity.
Qed.

(** A meter fed from its reset state holds the weighted average. *)
Lemma meter_fold_cons (x : F * positive) (l : list (F * positive)) (m : AverageMeter.t F) :
  let s := fold_left (fun acc vn => fadd acc (fmul (fst vn) (float_of_int (Z.pos (snd vn)))))
                     (x :: l) (to_float (AverageMeter.sum m)) in
  let c := fold_left (fun acc vn => acc + Z.pos (snd vn)) (x :: l) (AverageMeter.cnt m) in
  meter_fold (x :: l) m
  = AverageMeter.mk (PyFloat (fdiv s (float_of_int c))) (PyFloat s) c.
Proof.
  revert x m. induction l as [|y l IH]; intros x m; [reflexivity|].
  change (meter_fold (x :: y :: l) m)
    with (meter_fold (y :: l) (AverageMeter.update (fst x) (snd x) m)).
  rewrite IH. reflexivity.
Qed.

Lemma meter_fold_avg (l : list (F * positive)) :
  l <> [] ->
  AverageMeter.avg (meter_fold l AverageMeter.new)
  = PyFloat (AverageMeter.weighted_average l).
Proof.
  destruct l as [|x l]; [congruence|]. intros _.
  rewrite meter_fold_cons. reflexivity.
Qed.

(** A meter that was fed has a float for its average. *)
Lemma meter_fold_format (l : list (F * positive)) (m : AverageMeter.t F) :
  l <> [] -> format_prec (AverageMeter.avg (meter_fold l m)) = None.
Proof. destruct l as [|x l]; [congruence|]. intros _. now rewrite meter_fold_cons. Qed.

Lemma retrain_pass_feed_nonempty (gc : PyNum F) (g : bool) (l : list Batch) (o : O) :
  l <> [] -> retrain_pass_feed gc g l o <> [].
Proof. destruct l; [congruence | discriminate]. Qed.

(** One epoch of the retraining, on a non-empty training queue. *)
Lemma retrain_epoch_run (sched : Scheduler F) (gc : PyNum F) (e : Z)
      (t : Trainer F O) (w : World F O) p :
  periodic_checkpointer t = Some p -> training w = true -> train_queue t <> [] ->
  checkpoint_dir_ready (save_dir (pc_checkpointer p)) (dirs (fs w)) ->
  let g := grad_enabled w in
  let o' := retrain_epoch_state sched gc g (train_queue t) (optimizer t) in
  retrain_epoch sched gc e (t, w)
  = Return tt (retrained_trainer o' AverageMeter.new AverageMeter.new t,
               retrained_world
                 (periodic_files p e o' (files (fs w)))
                 (retrain_pass_events gc g (train_queue t) ++ [EvSchedulerStep]
                  ++ periodic_events p e)
                 w).
Proof.
  intros Hp Htr Hq Hck g o'. subst g o'.
  unfold retrain_epoch. step.
  rewrite ?bind_assoc_run.
  erewrite bind_return; [|apply retrain_batches_run; exact Htr].
  assert (Hf1 : format_prec (AverageMeter.avg
                  (meter_fold (map top1_feed (retrain_pass_feed gc (grad_enabled w)
                                                (train_queue t) (optimizer t)))
                              (train_top1 t))) = None).
  { apply meter_fold_format. intros H%map_eq_nil. revert H.
    now apply retrain_pass_feed_nonempty. }
  assert (Hf5 : format_prec (AverageMeter.avg
                  (meter_fold (map top5_feed (retrain_pass_feed gc (grad_enabled w)
                                                (train_queue t) (optimizer t)))
                              (train_top5 t))) = None).
  { apply meter_fold_format. intros H%map_eq_nil. revert H.
    now apply retrain_pass_feed_nonempty. }
  destruct t as [o cfg eps tq vq teq n1 n2 n3 n4 n5 n6 d0 sch ck pc],
           w as [[dr fl] clk tk tr gr evs].
  cbn [periodic_checkpointer training train_queue optimizer train_top1 train_top5
       grad_enabled fs dirs files] in *. subst pc tr.
  unfold retrained_trainer, retrained_world, retrain_epoch_state. norm.
  do 5 step.
  rewrite ?bind_assoc_run. erewrite bind_return; [|apply check_format_run; exact Hf1].
  rewrite ?bind_assoc_run. erewrite bind_return; [|apply check_format_run; exact Hf5].
  step. rewrite set_self_run. norm.
  rewrite <- ?app_assoc. reflexivity.
Qed.

(** The epochs of the retraining. *)
Lemma retrain_epochs_run (sched : Scheduler F) (gc : PyNum F) (es : list Z)
      (t : Trainer F O) (w : World F O) p :
  periodic_checkpointer t = Some p -> training w = true -> train_queue t <> [] ->
  checkpoint_dir_ready (save_dir (pc_checkpointer p)) (dirs (fs w)) ->
  train_top1 t = AverageMeter.new -> train_top5 t = AverageMeter.new ->
  let g := grad_enabled w in
  for_each es (retrain_epoch sched gc) (t, w)
  = Return tt (retrained_trainer (retrained sched gc g (train_queue t) es (optimizer t))
                                 AverageMeter.new AverageMeter.new t,
               retrained_world
                 (retrain_files sched gc g (train_queue t) p es (optimizer t) (files (fs w)))
                 (retrain_events gc g (train_queue t) p es)
                 w).
Proof.
  revert t w. induction es as [|e es IH]; intros t w Hp Htr Hq Hck H1 H5 g; subst g.
  - cbn [for_each retrained retrain_files retrain_events fold_left flat_map].
    rewrite <- H1 at 1. rewrite <- H5. rewrite retrained_trainer_id, retrained_world_id.
    reflexivity.
  - cbn [for_each].
    erewrite bind_return; [|apply (retrain_epoch_run sched gc e t w p Hp Htr Hq Hck)].
    rewrite IH; [|exact Hp | exact Htr | exact Hq | exact Hck | reflexivity | reflexivity].
    rewrite retrained_trainer_twice, retrained_world_twice.
    reflexivity.
Qed.

(** [_setup_checkpointers] without anything to resume from. *)
Lemma setup_checkpointers_fresh (resume_from : PyPath) (search : bool)
      (kw : gmap string Obj) (t : Trainer F O) (w : World F O) m :
  truthy resume_from = false ->
  (kw ∪ get_checkpointables (optimizer t)) !! "model" = Some m ->
  _setup_checkpointers resume_from search kw (t, w)
  = Return 0 (with_checkpointers search kw t m, w).
Proof.
  intros Htruthy Hm. unfold _setup_checkpointers.
  erewrite bind_return; [|apply self_run]. rewrite Hm.
  do 3 (erewrite bind_return; [|prim]).
  rewrite Htruthy. reflexivity.
Qed.
End RetrainFacts.

Section MeasureFacts.
Context {F : Type} {FO : FloatOps F} {TS : Tensors F}.
Context {O : Type} {OPT : Optimizer F O} {TORCH : Torch F O}.

(** What a [_setup_checkpointers] that returns leaves of trainer and
    world. *)
Lemma setup_checkpointers_keeps (resume_from : PyPath) (search : bool)
      (kw : gmap string Obj) (t : Trainer F O) (w : World F O) v t' w' :
  _setup_checkpointers resume_from search kw (t, w) = Return v (t', w') ->
  exists m evs,
    (kw ∪ get_checkpointables (optimizer t)) !! "model" = Some m /\
    periodic_checkpointer t'
    = Some (mk_periodic (made_checkpointer search kw t m) 1
                        (if search then Config.epochs (Config.search (config t))
                         else Config.epochs (Config.evaluation (config t)))) /\
    config t' = config t /\ train_queue t' = train_queue t /\
    test_queue t' = test_queue t /\
    w' = add_events evs w /\ checkpoint_saves evs = [] /\
    (truthy resume_from = false ->
     v = 0 /\ t' = with_checkpointers search kw t m /\ evs = []).
Proof.
  intros H. apply setup_checkpointers_inv in H
    as (m & o' & evs & Hm & Hst & Hevs & H0 & _).
  injection Hst as -> ->.
  exists m, evs. split; [exact Hm|]. split; [reflexivity|].
  do 3 (split; [reflexivity|]). split; [reflexivity|].
  split; [destruct Hevs as [[-> _]|[p ->]]; reflexivity|].
  intros Ht. destruct (H0 Ht) as [-> ->]. split; [reflexivity|].
  split; [|reflexivity].
  destruct Hevs as [[_ ->]|[p Hp]]; [|discriminate].
  destruct t; reflexivity.
Qed.

(** The checkpointables of the second set-up of [evaluate]. *)
Lemma eval_checkpointables_model (o : O) :
  (({[ "model" := ObjArch; "optim" := ObjOptim; "scheduler" := ObjScheduler ]}
    : gmap string Obj) ∪ get_checkpointables o) !! "model" = Some ObjArch.
Proof. apply lookup_union_Some_l. apply lookup_insert_eq. Qed.

(** The retraining as a whole, from the state its checkpoint set-up
    returns. *)
Lemma retrain_from_scratch_run (resume_from : PyPath) (t : Trainer F O) (w : World F O)
      s t2 w2 p :
  let ev := Config.evaluation (config t) in
  let sched := mk_scheduler (float_of_int (Config.epochs ev)) (Config.learning_rate_min ev) in
  let o_new :=
    scheduler_new sched
      (get_op_optimizer (Config.learning_rate ev) (Config.momentum ev)
                        (Config.weight_decay ev) (reset_weights (optimizer t))) in
  _setup_checkpointers resume_from false
    {[ "model" := ObjArch; "optim" := ObjOptim; "scheduler" := ObjScheduler ]}
    (set_optimizer o_new t,
     add_events [EvResetWeights; EvGetOpOptimizer; EvSchedulerNew] w)
  = Return s (t2, w2) ->
  periodic_checkpointer t2 = Some p ->
  checkpoint_dir_ready (save_dir (pc_checkpointer p)) (dirs (fs w2)) ->
  train_queue t2 <> [] ->
  let g := grad_enabled w2 in
  let gc := Config.grad_clip ev in
  let es := range s (Config.epochs ev) in
  retrain_from_scratch resume_from (t, w)
  = Return tt
      (retrained_trainer
         (retrained sched gc g (train_queue t2) es (train_mode (optimizer t2)))
         AverageMeter.new AverageMeter.new t2,
       retrained_world
         (retrain_files sched gc g (train_queue t2) p es (train_mode (optimizer t2))
                        (files (fs w2)))
         ([EvTrainMode] ++ retrain_events gc g (train_queue t2) p es)
         (set_training true w2)).
Proof.
  intros ev sched o_new Hsetup Hp Hck Hq g gc es. subst ev sched o_new g gc es.
  destruct t as [o cfg eps tq vq teq n1 n2 n3 n4 n5 n6 d0 sch ck pc],
           w as [[dr fl] clk tk tr gr evs].
  unfold add_events in Hsetup. norm_in Hsetup.
  unfold retrain_from_scratch. do 4 step.
  rewrite <- ?app_assoc. cbn [app].
  rewrite ?bind_assoc_run. erewrite bind_return; [|exact Hsetup]. clear Hsetup.
  destruct t2 as [o2 cfg2 eps2 tq2 vq2 teq2 k1 k2 k3 k4 k5 k6 d2 sch2 ck2 pc2],
           w2 as [[dr2 fl2] clk2 tk2 tr2 gr2 evs2].
  cbn [periodic_checkpointer train_queue fs dirs optimizer files grad_enabled config] in *.
  subst pc2.
  do 4 step.
  rewrite retrain_epochs_run with (p := p);
    [|reflexivity | reflexivity | exact Hq | exact Hck | reflexivity | reflexivity].
  unfold retrained_trainer, retrained_world, set_training. norm.
  rewrite <- ?app_assoc. reflexivity.
Qed.

(** [with torch.no_grad()] around a block that returns. *)
Lemma no_grad_run {A} (c : M F O A) (t : Trainer F O) (w : World F O) a t' w' :
  c (t, set_grad_enabled false w) = Return a (t', w') ->
  no_grad c (t, w) = Return a (t', set_grad_enabled (grad_enabled w) w').
Proof.
  intros H. unfold no_grad.
  erewrite bind_return; [|apply world_run].
  erewrite bind_return; [|apply set_world_run].
  unfold finally. rewrite H. reflexivity.
Qed.

(** The body of the loop over the test queue. *)
Lemma measure_body_run (x : Input) (y : Target) (n : positive)
      (top : AverageMeter.t F * AverageMeter.t F) (t : Trainer F O) (w : World F O) :
  let r := forward (training w) (grad_enabled w) x (optimizer t) in
  (logits <- best_arch_forward x ;;
   let '(prec1, prec5) := accuracy logits y in
   ret (AverageMeter.update prec1 n (fst top), AverageMeter.update prec5 n (snd top))) (t, w)
  = Return (AverageMeter.update (fst (accuracy (snd r) y)) n (fst top),
            AverageMeter.update (snd (accuracy (snd r) y)) n (snd top))
           (set_optimizer (fst r) t,
            add_events [EvForward (training w) (grad_enabled w) x] w).
Proof.
  intros r. erewrite bind_return; [|apply best_arch_forward_run].
  fold r. destruct (accuracy (snd r) y) as [prec1 prec5]. reflexivity.
Qed.

(** The loop over the test queue, in evaluation mode. *)
Lemma measure_run (queue : list Batch) (top : AverageMeter.t F * AverageMeter.t F)
      (t : Trainer F O) (w : World F O) :
  training w = false ->
  measure queue top (t, w)
  = Return (meter_fold (map top1_feed (test_pass (optimizer t) queue)) (fst top),
            meter_fold (map top5_feed (test_pass (optimizer t) queue)) (snd top))
           (set_optimizer (after_test_pass (optimizer t) queue) t,
            add_events (map (fun b => EvForward false false (fst b)) queue) w).
Proof.
  revert top t w. induction queue as [|b queue IH]; intros [m1 m5] t w Htr.
  - cbn [measure test_pass after_test_pass map meter_fold fold_left fst snd].
    rewrite add_events_nil. destruct t; reflexivity.
  - cbn [measure].
    erewrite bind_return; [|apply no_grad_run; apply measure_body_run].
    rewrite IH by (destruct w; exact Htr).
    destruct t as [o cfg eps tq vq teq n1 n2 n3 n4 n5 n6 d0 sch ck pc],
             w as [fl clk tk tr gr evs].
    cbn [training] in Htr. subst tr.
    cbn [test_pass after_test_pass map]. norm.
    unfold meter_fold. cbn [fold_left]. unfold top1_feed, top5_feed. norm.
    rewrite <- ?app_assoc. reflexivity.
Qed.

Lemma test_pass_nonempty (o : O) (queue : list Batch) :
  queue <> [] -> test_pass o queue <> [].
Proof. destruct queue; [congruence | discriminate]. Qed.

(** The final measurement, on a non-empty test queue. *)
Lemma measure_test_accuracy_run (t : Trainer F O) (w : World F O) :
  test_queue t <> [] ->
  let pass := test_pass (eval_mode (optimizer t)) (test_queue t) in
  measure_test_accuracy (t, w)
  = Return tt
      (set_optimizer (after_test_pass (eval_mode (optimizer t)) (test_queue t)) t,
       add_events
         ([EvEvalMode] ++ map (fun b => EvForward false false (fst b)) (test_queue t)
          ++ [EvTestAccuracies
                (PyFloat (AverageMeter.weighted_average (map top1_feed pass)))
                (PyFloat (AverageMeter.weighted_average (map top5_feed pass)))])
         (set_training false w)).
Proof.
  intros Hq pass.
  assert (Hp1 : map top1_feed pass <> []).
  { intros H. apply map_eq_nil in H. revert H. now apply test_pass_nonempty. }
  assert (Hp5 : map top5_feed pass <> []).
  { intros H. apply map_eq_nil in H. revert H. now apply test_pass_nonempty. }
  destruct t as [o cfg eps tq vq teq n1 n2 n3 n4 n5 n6 d0 sch ck pc],
           w as [fl clk tk tr gr evs].
  cbn [optimizer test_queue] in *.
  unfold measure_test_accuracy. do 3 step.
  rewrite ?bind_assoc_run. erewrite bind_return; [|apply measure_run; reflexivity].
  norm. fold pass.
  rewrite !meter_fold_avg by assumption.
  do 2 (rewrite ?bind_assoc_run; erewrite bind_return; [|apply check_format_run; reflexivity]).
  rewrite emit_run. norm. rewrite <- ?app_assoc. reflexivity.
Qed.
End MeasureFacts.

Section EvaluateTheorems.
Context {F : Type} {FO : FloatOps F} {TS : Tensors F}.
Context {O : Type} {OPT : Optimizer F O} {TORCH : Torch F O}.

Lemma prepare_dataloaders_run (cfg : Config.section F) (t : Trainer F O) (w : World F O) :
  _prepare_dataloaders cfg (t, w) = Return tt (with_dataloaders cfg t, w).
Proof.
  unfold _prepare_dataloaders, with_dataloaders.
  destruct (get_train_val_loaders cfg) as [[tq vq] teq].
  reflexivity.
Qed.

Lemma with_dataloaders_keeps (cfg : Config.section F) (t : Trainer F O) :
  config (with_dataloaders cfg t) = config t /\
  optimizer (with_dataloaders cfg t) = optimizer t.
Proof.
  unfold with_dataloaders. destruct (get_train_val_loaders cfg) as [[tq vq] teq].
  split; reflexivity.
Qed.

Lemma resolve_search_model_given (search_model : PyPath) (st : State F O) :
  truthy search_model = true -> resolve_search_model search_model st = Return search_model st.
Proof. intros H. unfold resolve_search_model. rewrite H. reflexivity. Qed.

Lemma resolve_search_model_default (t : Trainer F O) (w : World F O) :
  resolve_search_model (PyStr "") (t, w)
  = Return (PyTuple [os_path_join (Config.save (config t)) ["search"; "model_final.pth"]])
           (t, w).
Proof. reflexivity. Qed.

(** The start of [evaluate], up to the checkpoint set-up. *)
Lemma evaluate_start (retrain : bool) (search_model resume_from : PyPath)
      (t : Trainer F O) (w : World F O) sm :
  resolve_search_model search_model (with_dataloaders (Config.evaluation (config t)) t, w)
  = Return sm (with_dataloaders (Config.evaluation (config t)) t, w) ->
  evaluate retrain search_model resume_from (t, w)
  = bind (_setup_checkpointers sm true ∅)
         (fun _ =>
            call EvGetFinalArchitecture get_final_architecture ;;
            best_arch <- self optimizer ;;
            if QUERYABLE best_arch then
              call EvQuery (query "eval_acc1es" (Config.dataset (config t))
                                  (Config.data (config t)))
            else
              call EvToDevice to_device ;;
              (if retrain then retrain_from_scratch resume_from else ret tt) ;;
              measure_test_accuracy)
         (with_dataloaders (Config.evaluation (config t)) t, w).
Proof.
  intros H. unfold evaluate.
  erewrite bind_return; [|apply self_run].
  erewrite bind_return; [|apply prepare_dataloaders_run].
  erewrite bind_return; [|exact H]. reflexivity.
Qed.

Lemma resolve_search_model_state (search_model sm : PyPath) (st st' : State F O) :
  resolve_search_model search_model st = Return sm st' -> st' = st.
Proof.
  unfold resolve_search_model. destruct (negb (truthy search_model)).
  - unfold bind, self, ret. now intros [= _ <-].
  - unfold ret. now intros [= _ <-].
Qed.

(** [evaluate] with retraining, on an architecture that cannot be
    queried: from the states the two checkpoint set-ups return to the
    state [evaluate] returns. *)
Lemma evaluate_retrain_run (t : Trainer F O) (w : World F O) search_model resume_from
      v t1 w1 s t2 w2 p :
  let ev := Config.evaluation (config t1) in
  let sched := mk_scheduler (float_of_int (Config.epochs ev)) (Config.learning_rate_min ev) in
  let best_arch := to_device (get_final_architecture (optimizer t1)) in
  let o_new :=
    scheduler_new sched
      (get_op_optimizer (Config.learning_rate ev) (Config.momentum ev)
                        (Config.weight_decay ev) (reset_weights best_arch)) in
  (sm <- resolve_search_model search_model ;; _setup_checkpointers sm true ∅)
    (with_dataloaders (Config.evaluation (config t)) t, w) = Return v (t1, w1) ->
  QUERYABLE (get_final_architecture (optimizer t1)) = false ->
  _setup_checkpointers resume_from false
    {[ "model" := ObjArch; "optim" := ObjOptim; "scheduler" := ObjScheduler ]}
    (set_optimizer o_new t1,
     add_events [EvGetFinalArchitecture; EvToDevice; EvResetWeights; EvGetOpOptimizer;
                 EvSchedulerNew] w1)
  = Return s (t2, w2) ->
  periodic_checkpointer t2 = Some p ->
  checkpoint_dir_ready (save_dir (pc_checkpointer p)) (dirs (fs w2)) ->
  train_queue t2 <> [] -> test_queue t2 <> [] ->
  let g := grad_enabled w2 in
  let gc := Config.grad_clip ev in
  let es := range s (Config.epochs ev) in
  let o_train := retrained sched gc g (train_queue t2) es (train_mode (optimizer t2)) in
  let pass := test_pass (eval_mode o_train) (test_queue t2) in
  evaluate true search_model resume_from (t, w)
  = Return tt
      (set_optimizer (after_test_pass (eval_mode o_train) (test_queue t2))
                     (retrained_trainer o_train AverageMeter.new AverageMeter.new t2),
       add_events
         ([EvEvalMode] ++ map (fun b => EvForward false false (fst b)) (test_queue t2)
          ++ [EvTestAccuracies
                (PyFloat (AverageMeter.weighted_average (map top1_feed pass)))
                (PyFloat (AverageMeter.weighted_average (map top5_feed pass)))])
         (set_training false
            (retrained_world
               (retrain_files sched gc g (train_queue t2) p es (train_mode (optimizer t2))
                              (files (fs w2)))
               ([EvTrainMode] ++ retrain_events gc g (train_queue t2) p es)
               (set_training true w2)))).
Proof.
  intros ev sched best_arch o_new Hsetup Hq Hsetup2 Hp Hck Htq Hteq g gc es o_train pass.
  apply bind_inv in Hsetup as (sm & st0 & Hres & Hsetup).
  pose proof (resolve_search_model_state _ _ _ _ Hres) as ->.
  rewrite (evaluate_start true search_model resume_from t w sm Hres).
  rewrite (bind_return _ _ _ _ _ Hsetup). clear Hsetup Hres.
  subst ev sched best_arch o_new g gc es o_train pass.
  destruct t1 as [o cfg eps tq vq teq n1 n2 n3 n4 n5 n6 d0 sch ck pc],
           w1 as [[dr fl] clk tk tr gr evs].
  cbn [optimizer config] in *.
  do 2 step. rewrite Hq. cbv iota. step.
  rewrite ?bind_assoc_run.
  erewrite bind_return.
  2:{ apply retrain_from_scratch_run with (s := s) (t2 := t2) (w2 := w2) (p := p);
      try assumption.
      cbn [config optimizer]. unfold add_events in *. norm. norm_in Hsetup2.
      rewrite <- ?app_assoc. exact Hsetup2. }
  cbn [config].
  rewrite measure_test_accuracy_run by exact Hteq.
  reflexivity.
Qed.

(** The retraining and the measurement of [evaluate], from the states the
    two checkpoint set-ups return: what C4 and X7 state comes from here. *)
Lemma evaluate_retrain_facts :
  forall (t : Trainer F O) (w : World F O) search_model resume_from v t1 w1 s t2 w2,
    let ev := Config.evaluation (config t) in
    let sched :=
      mk_scheduler (float_of_int (Config.epochs ev)) (Config.learning_rate_min ev) in
    let best_arch := to_device (get_final_architecture (optimizer t1)) in
    let o_new :=
      scheduler_new sched
        (get_op_optimizer (Config.learning_rate ev) (Config.momentum ev)
                          (Config.weight_decay ev) (reset_weights best_arch)) in
    let reset := [EvGetFinalArchitecture; EvToDevice; EvResetWeights; EvGetOpOptimizer;
                  EvSchedulerNew] in
    (sm <- resolve_search_model search_model ;; _setup_checkpointers sm true ∅)
      (with_dataloaders ev t, w) = Return v (t1, w1) ->
    QUERYABLE (get_final_architecture (optimizer t1)) = false ->
    _setup_checkpointers resume_from false
      {[ "model" := ObjArch; "optim" := ObjOptim; "scheduler" := ObjScheduler ]}
      (set_optimizer o_new t1, add_events reset w1)
    = Return s (t2, w2) ->
    eval_ready (config t) (dirs (fs w)) ->
    train_queue t1 <> [] -> test_queue t1 <> [] ->
    let g := grad_enabled w in
    let gc := Config.grad_clip ev in
    let es := range s (Config.epochs ev) in
    let o_train := retrained sched gc g (train_queue t1) es (train_mode (optimizer t2)) in
    let pass := test_pass (eval_mode o_train) (test_queue t1) in
    exists st' c evs0,
      let p := mk_periodic c 1 (Config.epochs ev) in
      evaluate true search_model resume_from (t, w) = Return tt st' /\
      periodic_checkpointer (fst st') = Some p /\
      model c = ObjArch /\
      save_dir c = checkpoint_dir false (config t) /\
      optimizer (fst st') = after_test_pass (eval_mode o_train) (test_queue t1) /\
      trace w2 = (trace w1 ++ reset ++ evs0)%list /\ checkpoint_saves evs0 = [] /\
      dirs (fs (snd st')) = dirs (fs w) /\
      files (fs (snd st'))
      = retrain_files sched gc g (train_queue t1) p es (train_mode (optimizer t2))
                      (files (fs w)) /\
      trace (snd st')
      = (trace w2
         ++ [EvTrainMode]
         ++ retrain_events gc g (train_queue t1) p es
         ++ [EvEvalMode]
         ++ map (fun b => EvForward false false (fst b)) (test_queue t1)
         ++ [EvTestAccuracies
               (PyFloat (AverageMeter.weighted_average (map top1_feed pass)))
               (PyFloat (AverageMeter.weighted_average (map top5_feed pass)))])%list /\
      (truthy resume_from = false -> s = 0 /\ optimizer t2 = o_new /\ evs0 = []).
Proof.
  intros t w search_model resume_from v t1 w1 s t2 w2 ev sched best_arch o_new reset
         Hsetup Hq Hsetup2 Hready Htq Hteq g gc es o_train pass.
  assert (Hkeep1 : config t1 = config t /\ fs w1 = fs w /\ grad_enabled w1 = grad_enabled w).
  { pose proof Hsetup as H. apply bind_inv in H as (sm & st0 & Hres & H).
    pose proof (resolve_search_model_state _ _ _ _ Hres) as ->.
    apply setup_checkpointers_keeps in H as (m & evs & _ & _ & Hc & _ & _ & -> & _).
    destruct (with_dataloaders_keeps (Config.evaluation (config t)) t) as [Hc' _].
    split; [exact (eq_trans Hc Hc')|]. split; reflexivity. }
  destruct Hkeep1 as (Hcfg & Hfs & Hgr).
  pose proof (setup_checkpointers_keeps _ _ _ _ _ _ _ _ Hsetup2)
    as (m & evs & Hm & Hp & Hcfg2 & Htq2 & Hteq2 & Hw2 & Hsaves & Hfresh).
  cbn [optimizer set_optimizer config train_queue test_queue] in Hm, Hp, Hcfg2, Htq2, Hteq2.
  rewrite eval_checkpointables_model in Hm. injection Hm as <-.
  subst g gc es o_train pass reset o_new best_arch sched ev.
  rewrite <- ?Hcfg in Hsetup2, Hready, Hp, Hfresh |- *.
  eexists _, _, evs. cbv zeta. split.
  { apply (evaluate_retrain_run t w search_model resume_from v t1 w1 s t2 w2 _
             Hsetup Hq Hsetup2 Hp).
    - cbn [pc_checkpointer save_dir made_checkpointer]. rewrite Hw2. cbn [fs add_events].
      rewrite Hfs. exact Hready.
    - rewrite Htq2. exact Htq.
    - rewrite Hteq2. exact Hteq. }
  cbn [fst snd].
  split; [exact Hp|]. split; [reflexivity|]. split; [reflexivity|].
  assert (Hg : grad_enabled w2 = grad_enabled w) by (rewrite Hw2; exact Hgr).
  rewrite Hg, Htq2, Hteq2.
  split; [reflexivity|].
  split; [rewrite Hw2; unfold add_events; cbn [trace]; now rewrite <- app_assoc|].
  split; [exact Hsaves|].
  split; [rewrite Hw2; unfold retrained_world, add_events, set_training;
          cbn [fs dirs]; rewrite Hfs; reflexivity|].
  split; [rewrite Hw2; unfold retrained_world, add_events, set_training;
          cbn [fs files]; rewrite Hfs; reflexivity|].
  split.
  { unfold retrained_world, add_events, set_training.
    cbn [trace]. rewrite <- ?app_assoc. reflexivity. }
  intros Ht. destruct (Hfresh Ht) as (-> & -> & ->).
  split; [reflexivity|]. split; reflexivity.
Qed.

(** C4: when the architecture [get_final_architecture] returns is not
    queryable, [evaluate(retrain=True)] first resets the weights: the
    second checkpoint set-up runs on the architecture with its weights
    reset, a new optimiser and a new scheduler.  From the state that
    set-up returns with the start epoch [s], in a world that has the
    directory [<save>/eval] and on non-empty training and test queues,
    [evaluate] returns after the training loop over the epochs
    [s, ..., N-1] (in training mode one step per batch: gradients zeroed,
    forward pass, backward pass, clipping, optimiser step; per epoch a
    scheduler step and a checkpoint) and then the measurement: the model is
    put in evaluation mode and every batch of the test queue goes through
    one forward pass in evaluation mode with gradients off; the accuracies
    reported are the averages of the per-batch top-1 and top-5 accuracies
    weighted by the batch sizes.  With nothing to resume from the loop
    starts at epoch 0 from the reset weights. *)
Theorem evaluate_retrains_then_measures :
  forall (t : Trainer F O) (w : World F O) search_model resume_from v t1 w1 s t2 w2,
    let ev := Config.evaluation (config t) in
    let sched :=
      mk_scheduler (float_of_int (Config.epochs ev)) (Config.learning_rate_min ev) in
    let best_arch := to_device (get_final_architecture (optimizer t1)) in
    let o_new :=
      scheduler_new sched
        (get_op_optimizer (Config.learning_rate ev) (Config.momentum ev)
                          (Config.weight_decay ev) (reset_weights best_arch)) in
    let reset := [EvGetFinalArchitecture; EvToDevice; EvResetWeights; EvGetOpOptimizer;
                  EvSchedulerNew] in
    (sm <- resolve_search_model search_model ;; _setup_checkpointers sm true ∅)
      (with_dataloaders ev t, w) = Return v (t1, w1) ->
    QUERYABLE (get_final_architecture (optimizer t1)) = false ->
    _setup_checkpointers resume_from false
      {[ "model" := ObjArch; "optim" := ObjOptim; "scheduler" := ObjScheduler ]}
      (set_optimizer o_new t1, add_events reset w1)
    = Return s (t2, w2) ->
    eval_ready (config t) (dirs (fs w)) ->
    train_queue t1 <> [] -> test_queue t1 <> [] ->
    let g := grad_enabled w in
    let gc := Config.grad_clip ev in
    let es := range s (Config.epochs ev) in
    let o_train := retrained sched gc g (train_queue t1) es (train_mode (optimizer t2)) in
    let pass := test_pass (eval_mode o_train) (test_queue t1) in
    exists st' p,
      evaluate true search_model resume_from (t, w) = Return tt st' /\
      periodic_checkpointer (fst st') = Some p /\
      save_dir (pc_checkpointer p) = checkpoint_dir false (config t) /\
      optimizer (fst st') = after_test_pass (eval_mode o_train) (test_queue t1) /\
      trace (snd st')
      = (trace w2
         ++ [EvTrainMode]
         ++ retrain_events gc g (train_queue t1) p es
         ++ [EvEvalMode]
         ++ map (fun b => EvForward false false (fst b)) (test_queue t1)
         ++ [EvTestAccuracies
               (PyFloat (AverageMeter.weighted_average (map top1_feed pass)))
               (PyFloat (AverageMeter.weighted_average (map top5_feed pass)))])%list /\
      (truthy resume_from = false ->
       s = 0 /\ optimizer t2 = o_new /\ trace w2 = (trace w1 ++ reset)%list).
Proof.
  intros t w search_model resume_from v t1 w1 s t2 w2 ev sched best_arch o_new reset
         Hsetup Hq Hsetup2 Hready Htq Hteq g gc es o_train pass.
  destruct (evaluate_retrain_facts t w search_model resume_from v t1 w1 s t2 w2
              Hsetup Hq Hsetup2 Hready Htq Hteq)
    as (st' & c & evs0 & Hrun & Hp & _ & Hdir & Hopt & Hw2 & _ & _ & _ & Htrace & Hfresh).
  exists st', (mk_periodic c 1 (Config.epochs ev)).
  split; [exact Hrun|]. split; [exact Hp|]. split; [exact Hdir|].
  split; [exact Hopt|]. split; [exact Htrace|].
  intros Ht. destruct (Hfresh Ht) as (Hs & Ho & He).
  split; [exact Hs|]. split; [exact Ho|].
  rewrite Hw2, He, app_nil_r. reflexivity.
Qed.

Lemma os_path_join_two (a b c : string) :
  os_path_join a [b; c] = os_path_join (os_path_join a [b]) [c].
Proof. reflexivity. Qed.

Lemma model_final_path_nonempty (save : string) :
  os_path_join save ["search"; "model_final.pth"] <> "".
Proof.
  rewrite os_path_join_two. unfold os_path_join at 1. cbn [fold_left].
  change (starts_with_sep "model_final.pth") with false. cbv iota.
  apply String.eqb_neq.
  destruct (String.eqb _ "" || ends_with_sep _); rewrite ?append_assoc; apply append_nonempty.
Qed.

(** C5: with an empty [search_model], what [evaluate] hands to the
    checkpoint set-up is a one-element tuple holding the path
    [<config.save>/search/model_final.pth], not that string.  When the
    search directory has no [last_checkpoint] file the tuple reaches
    [Checkpointer.load] and [evaluate] raises [TypeError], whatever files
    there are, with nothing loaded; whereas the set-up called with the
    path as a string loads the checkpoint from that file. *)
Theorem evaluate_default_search_model_is_tuple :
  (forall (t : Trainer F O) (w : World F O),
      resolve_search_model (PyStr "") (t, w)
      = Return (PyTuple [os_path_join (Config.save (config t))
                                      ["search"; "model_final.pth"]]) (t, w)) /\
  (forall retrain resume_from (t : Trainer F O) (w : World F O),
      is_Some (get_checkpointables (optimizer t) !! "model") ->
      fs_exists (last_checkpoint_file (checkpoint_dir true (config t))) (fs w) = false ->
      exists t', evaluate retrain (PyStr "") resume_from (t, w) = Raise TypeError (t', w) /\
                 optimizer t' = optimizer t) /\
  (forall (t : Trainer F O) (w : World F O) ck,
      let p := os_path_join (Config.save (config t)) ["search"; "model_final.pth"] in
      is_Some (get_checkpointables (optimizer t) !! "model") ->
      fs_exists (last_checkpoint_file (checkpoint_dir true (config t))) (fs w) = false ->
      files (fs w) !! p = Some (CheckpointFile ck) ->
      exists t',
        _setup_checkpointers (PyStr p) true ∅ (t, w)
        = Return 0 (t', add_events [EvCheckpointLoad p] w)).
Proof.
  split; [exact resolve_search_model_default|]. split.
  - intros retrain resume_from t w [m Hm] Hhas.
    destruct (with_dataloaders_keeps (Config.evaluation (config t)) t) as [Hc Ho].
    erewrite evaluate_start by apply resolve_search_model_default.
    set (t0 := with_dataloaders (Config.evaluation (config t)) t) in *.
    eexists. split.
    + apply bind_raise. unfold _setup_checkpointers.
      erewrite bind_return; [|apply self_run].
      rewrite (left_id_L ∅ (∪)), Ho, Hm.
      do 3 (erewrite bind_return; [|prim]).
      cbn [truthy List.length Nat.eqb negb].
      apply bind_raise. unfold resume_or_load.
      erewrite bind_return; [|apply has_checkpoint_run].
      cbn [save_dir snd fst]. rewrite Hc.
      unfold last_checkpoint_file, checkpoint_dir in Hhas. rewrite Hhas.
      reflexivity.
    + cbn [optimizer set_periodic_checkpointer set_checkpointer]. exact Ho.
  - intros t w ck p [m Hm] Hhas Hfile.
    unfold _setup_checkpointers.
    erewrite bind_return; [|apply self_run].
    rewrite (left_id_L ∅ (∪)), Hm.
    do 3 (erewrite bind_return; [|prim]).
    assert (Hp : p <> "") by apply model_final_path_nonempty.
    cbn [truthy]. apply String.eqb_neq in Hp as Hp'. rewrite Hp'. cbn [negb].
    unfold resume_or_load.
    rewrite ?bind_assoc_run. erewrite bind_return; [|apply has_checkpoint_run].
    cbn [save_dir snd fst].
    unfold last_checkpoint_file, checkpoint_dir in Hhas. rewrite Hhas. cbn [andb].
    match goal with
    | |- context [bind (load ?c (PyStr p) ?wanted) _ (?t0, w)] =>
        destruct (load_checkpoint_run c p wanted ck t0 w Hp Hfile) as (ks & Hload)
    end.
    erewrite bind_return; [|exact Hload].
    erewrite bind_return; [|apply has_checkpoint_run].
    cbn [save_dir snd add_events fs]. rewrite Hhas.
    eexists. reflexivity.
Qed.

(** C6: for an optimizer whose [using_step_function] is false, [search] on
    a trainer fresh from [__init__] raises [AttributeError] on
    [self.scheduler] right after [optimizer.before_training()]: no epoch
    runs, no statistics are recorded, no checkpointer is set up. *)
Theorem search_without_step_function_raises :
  forall (o : O) (cfg : Config.t F) (w : World F O) resume_from,
    using_step_function (before_training o) = false ->
    exists st,
      search resume_from (__init__ o cfg, w) = Raise (AttributeError "scheduler") st /\
      trace (snd st) = (trace w ++ [EvBeforeTraining])%list /\
      fs (snd st) = fs w /\
      errors_dict (fst st) = ErrorsDict.empty (get_model_size o) /\
      checkpointer (fst st) = None /\ periodic_checkpointer (fst st) = None.
Proof.
  intros o cfg w resume_from Husf.
  eexists. split; [apply search_without_step_function; exact Husf|].
  unfold __init__. destruct (get_train_val_loaders (Config.search cfg)) as [[tq vq] teq].
  repeat split; reflexivity.
Qed.
End EvaluateTheorems.

(** ** The analysis script *)

Section AnalysisFacts.
Import Analysis.
Context {F : Type} {FO : FloatOps F} {NP : Numpy F}.

Lemma res_map_ok {A B} (f : A -> Res B) (l : list A) (r : list B) :
  res_map f l = Ok r <-> Forall2 (fun x y => f x = Ok y) l r.
Proof.
  revert r. induction l as [|x l IH]; intros r; cbn [res_map].
  - split; intros H; [injection H as <-; constructor | inversion H; reflexivity].
  - destruct (f x) as [y|e|] eqn:Hx; cbn [res_bind].
    + destruct (res_map f l) as [ys|e|] eqn:Hl; cbn [res_bind].
      * split; intros H.
        -- injection H as <-. constructor; [exact Hx | now apply IH].
        -- inversion H as [|? y' ? ys' Hy Hys]; subst.
           apply IH in Hys. congruence.
      * split; intros H; [discriminate|].
        inversion H as [|? y' ? ys' Hy Hys]; subst.
        apply IH in Hys. discriminate.
      * split; intros H; [discriminate|].
        inversion H as [|? y' ? ys' Hy Hys]; subst.
        apply IH in Hys. discriminate.
    + split; intros H; [discriminate|].
      inversion H as [|? y' ? ys' Hy Hys]; subst. congruence.
    + split; intros H; [discriminate|].
      inversion H as [|? y' ? ys' Hy Hys]; subst. congruence.
Qed.

Lemma res_bind_ok {A B} (r : Res A) (k : A -> Res B) (b : B) :
  res_bind r k = Ok b <-> exists a, r = Ok a /\ k a = Ok b.
Proof.
  destruct r as [a|e|]; cbn [res_bind]; split.
  - eauto.
  - intros (a' & Ha & Hk). congruence.
  - discriminate.
  - intros (a' & Ha & _). discriminate.
  - discriminate.
  - intros (a' & Ha & _). discriminate.
Qed.

(** The first exception stops a comprehension. *)
Lemma res_map_err {A B} (f : A -> Res B) (x : A) (l : list A) e :
  f x = Err e -> res_map f (x :: l) = Err e.
Proof. intros H. cbn [res_map]. now rewrite H. Qed.

Lemma Forall2_impl_iff {A B} (P Q : A -> B -> Prop) (l : list A) (r : list B) :
  (forall x y, P x y <-> Q x y) -> Forall2 P l r <-> Forall2 Q l r.
Proof.
  intros H. split; intros G; induction G; constructor; auto; now apply H.
Qed.

Lemma metric_rows_ok (dataset metric : string) (evals row : list (Json F)) :
  res_map (fun eval => res_bind (getitem eval dataset)
                                (fun by_metric => getitem by_metric metric)) evals
  = Ok row <->
  Forall2 (fun eval x =>
             exists by_metric,
               getitem eval dataset = Ok by_metric /\ getitem by_metric metric = Ok x)
          evals row.
Proof.
  rewrite res_map_ok. apply Forall2_impl_iff. intros eval x. apply res_bind_ok.
Qed.

(** What [get_nb_eval] returns, and when. *)
Lemma get_nb_eval_ok (optimizer_runs : list (Json F)) (dataset metric : string)
      (rows : list (list (Json F))) :
  get_nb_eval optimizer_runs dataset metric = Ok rows <->
  Forall2 (fun run row =>
             exists arch_eval evals,
               getitem run "arch_eval" = Ok arch_eval /\
               iterate arch_eval = Ok evals /\
               Forall2 (fun eval x =>
                          exists by_metric,
                            getitem eval dataset = Ok by_metric /\
                            getitem by_metric metric = Ok x)
                       evals row)
          optimizer_runs rows.
Proof.
  unfold get_nb_eval. rewrite res_map_ok. apply Forall2_impl_iff.
  intros run row. rewrite res_bind_ok. split.
  - intros (arch_eval & Ha & H). apply res_bind_ok in H as (evals & He & H).
    exists arch_eval, evals. split; [exact Ha|]. split; [exact He|].
    apply metric_rows_ok. exact H.
  - intros (arch_eval & evals & Ha & He & H).
    exists arch_eval. split; [exact Ha|]. apply res_bind_ok.
    exists evals. split; [exact He|]. apply metric_rows_ok. exact H.
Qed.

Lemma as_number_ok (v : Json F) (x : F) : as_number v = Ok x <-> v = JNum x.
Proof. destruct v; cbn; split; intros H; congruence. Qed.

Lemma rows_of_numbers_ok (rows : list (list (Json F))) (a : list (list F)) :
  res_map (res_map as_number) rows = Ok a <->
  Forall2 (Forall2 (fun v x => v = JNum x)) rows a.
Proof.
  rewrite res_map_ok. apply Forall2_impl_iff. intros row r.
  rewrite res_map_ok. apply Forall2_impl_iff. intros v x. apply as_number_ok.
Qed.

(** What [np.array] makes of rows of numbers of one length. *)
Lemma np_array_ok (rows : list (list (Json F))) (a : list (list F)) :
  np_array rows = Ok a <->
  Forall2 (Forall2 (fun v x => v = JNum x)) rows a /\ rectangular a = true.
Proof.
  unfold np_array. rewrite res_bind_ok. split.
  - intros (m & Hm & H). destruct (rectangular m) eqn:Hr; [|discriminate].
    injection H as <-. split; [|exact Hr]. apply rows_of_numbers_ok. exact Hm.
  - intros [H Hr]. exists a. rewrite Hr. split; [|reflexivity].
    apply rows_of_numbers_ok. exact H.
Qed.

Lemma filter_concat {A} (p : A -> bool) (l : list (list A)) :
  List.filter p (concat l) = concat (map (List.filter p) l).
Proof.
  induction l as [|x l IH]; [reflexivity|].
  cbn [concat map]. now rewrite List.filter_app, IH.
Qed.

(** With a row at least, the mean has a length. *)
Lemma len_mean_ok (a : list (list F)) :
  a <> [] -> len_mean a = Ok (Z.of_nat (List.length (np_mean_axis0 a))).
Proof. destruct a; [congruence | reflexivity]. Qed.

Lemma hundred_minus_nonempty (a : list (list F)) : a <> [] -> hundred_minus a <> [].
Proof. destruct a; [congruence | discriminate]. Qed.

Lemma Forall2_nonempty {A B} (P : A -> B -> Prop) (l : list A) (r : list B) :
  Forall2 P l r -> l <> [] -> r <> [].
Proof. intros H. destruct H; [congruence | discriminate]. Qed.

(** What [draw_test_error] draws for an optimizer with runs whose test
    accuracies form a matrix. *)
Lemma draw_test_error_ok (dataset : string) (entry : string * list (Json F)) accs a label :
  snd entry <> [] ->
  get_nb_eval (snd entry) dataset "test_accuracy" = Ok accs ->
  Forall2 (Forall2 (fun v x => v = JNum x)) accs a ->
  rectangular a = true ->
  optimizer_dir_name_to_name !! fst entry = Some label ->
  let nb_test_error := map (map (fun x => fsub (float_of_int 100) x)) a in
  let mean := np_mean_axis0 nb_test_error in
  let std := np_std_axis0 nb_test_error in
  draw_test_error dataset entry
  = Ok [ Plot AxLeft (range 0 (Z.of_nat (List.length mean))) mean
              (Some label) (markers !! fst entry);
         FillBetween AxLeft (range 0 (Z.of_nat (List.length mean)))
                     (zip_with fsub mean std) (zip_with fadd mean std) ].
Proof.
  intros Hruns Hacc Ha Hr Hlabel nb_test_error mean std.
  unfold draw_test_error. rewrite Hacc. cbn [res_bind].
  rewrite (proj2 (np_array_ok accs a) (conj Ha Hr)). cbn [res_bind].
  rewrite len_mean_ok.
  2:{ apply hundred_minus_nonempty. eapply Forall2_nonempty; [exact Ha|].
      apply get_nb_eval_ok in Hacc. eapply Forall2_nonempty; [exact Hacc | exact Hruns]. }
  cbn [res_bind]. rewrite Hlabel. reflexivity.
Qed.

(** Without runs [len(mean)] raises, whatever the optimizer is called. *)
Lemma draw_test_error_no_runs (dataset name : string) :
  draw_test_error dataset (name, []) = Err TypeError.
Proof. reflexivity. Qed.

Lemma draw_valid_error_right (entry : string * list (Json F)) (d : list (Draw F)) :
  draw_valid_error entry = Ok d ->
  List.filter on_left_axis d = [] /\ List.filter on_right_axis d = d.
Proof.
  unfold draw_valid_error. intros H.
  apply res_bind_ok in H as (accs & _ & H). apply res_bind_ok in H as (rows & _ & H).
  apply res_bind_ok in H as (a & _ & H). apply res_bind_ok in H as (n & _ & H).
  injection H as <-. split; reflexivity.
Qed.

Lemma draw_test_error_left (dataset : string) (entry : string * list (Json F))
      (d : list (Draw F)) :
  draw_test_error dataset entry = Ok d ->
  List.filter on_left_axis d = d /\ List.filter on_right_axis d = [].
Proof.
  unfold draw_test_error. intros H.
  apply res_bind_ok in H as (accs & _ & H). apply res_bind_ok in H as (a & _ & H).
  apply res_bind_ok in H as (n & _ & H).
  destruct (optimizer_dir_name_to_name !! fst entry); [|discriminate].
  injection H as <-. split; reflexivity.
Qed.

Lemma filter_each {A B} (p : B -> bool) (P : A -> list B -> Prop) (keep : bool)
      (l : list A) (r : list (list B)) :
  Forall2 P l r ->
  (forall x d, P x d -> List.filter p d = if keep then d else []) ->
  concat (map (List.filter p) r) = if keep then concat r else [].
Proof.
  intros H HP. induction H as [|x d l r Hd _ IH]; [destruct keep; reflexivity|].
  cbn [map concat]. rewrite IH, (HP _ _ Hd). destruct keep; reflexivity.
Qed.

(** C7: [get_nb_eval] returns rows exactly when every run has an
    ['arch_eval'] entry that can be walked and every item of it has the
    entry [dataset][metric]; there is then one row per run, in the order of
    the runs, and the j-th item of a row is [eval[dataset][metric]] for the
    j-th item [eval] of the run's ['arch_eval'].  When every optimizer has
    a run at least, the test accuracies so collected form a matrix of
    numbers and the optimizer has a display name, [analyze] returns, and
    what it draws on the left axis is, optimizer by optimizer, the curve of
    the mean along axis 0 of 100 minus that matrix, and the band from mean
    minus to mean plus the standard deviation along axis 0.  For an
    optimizer without runs the mean is a scalar and [analyze] raises
    [TypeError] on [len(mean)]. *)
Theorem get_nb_eval_and_test_error :
  (forall (optimizer_runs : list (Json F)) (dataset metric : string)
          (rows : list (list (Json F))),
      get_nb_eval optimizer_runs dataset metric = Ok rows <->
      Forall2 (fun run row =>
                 exists arch_eval evals,
                   getitem run "arch_eval" = Ok arch_eval /\
                   iterate arch_eval = Ok evals /\
                   Forall2 (fun eval x =>
                              exists by_metric,
                                getitem eval dataset = Ok by_metric /\
                                getitem by_metric metric = Ok x)
                           evals row)
              optimizer_runs rows) /\
  (forall (optimizer_dict : list (string * list (Json F))) (dataset : string)
          (left right : list (list (Draw F))),
      Forall2 (fun entry d =>
                 exists accs a label,
                   snd entry <> [] /\
                   get_nb_eval (snd entry) dataset "test_accuracy" = Ok accs /\
                   Forall2 (Forall2 (fun v x => v = JNum x)) accs a /\
                   rectangular a = true /\
                   optimizer_dir_name_to_name !! fst entry = Some label /\
                   let nb_test_error :=
                     map (map (fun x => fsub (float_of_int 100) x)) a in
                   let mean := np_mean_axis0 nb_test_error in
                   let std := np_std_axis0 nb_test_error in
                   d = [ Plot AxLeft (range 0 (Z.of_nat (List.length mean))) mean
                              (Some label) (markers !! fst entry);
                         FillBetween AxLeft (range 0 (Z.of_nat (List.length mean)))
                                     (zip_with fsub mean std) (zip_with fadd mean std) ])
              optimizer_dict left ->
      Forall2 (fun entry d => draw_valid_error entry = Ok d) optimizer_dict right ->
      exists draws,
        analyze optimizer_dict dataset = Ok draws /\
        List.filter on_left_axis draws = concat left) /\
  (forall (name : string) (rest : list (string * list (Json F))) (dataset : string),
      analyze ((name, []) :: rest) dataset = Err TypeError).
Proof.
  split; [exact get_nb_eval_ok|]. split.
  - intros optimizer_dict dataset left right Hleft Hright.
    assert (Hl : res_map (draw_test_error dataset) optimizer_dict = Ok left).
    { apply res_map_ok. eapply Forall2_impl; [exact Hleft|].
      intros entry d (accs & a & label & Hruns & Hacc & Ha & Hr & Hlabel & Hd).
      rewrite Hd. now apply draw_test_error_ok with (accs := accs). }
    assert (Hr : res_map draw_valid_error optimizer_dict = Ok right)
      by (apply res_map_ok; exact Hright).
    exists (concat left ++ concat right)%list.
    unfold analyze. rewrite Hl, Hr. split; [reflexivity|].
    rewrite List.filter_app, !filter_concat.
    rewrite (filter_each on_left_axis _ false _ _ Hright
               (fun x d H => proj1 (draw_valid_error_right x d H))).
    rewrite app_nil_r.
    apply (filter_each on_left_axis _ true _ _ Hleft).
    intros entry d (accs & a & label & _ & _ & _ & _ & _ & ->). reflexivity.
  - intros name rest dataset. unfold analyze.
    erewrite res_map_err; [reflexivity|]. apply draw_test_error_no_runs.
Qed.
End AnalysisFacts.

(** * Further properties *)

(** ** The two branches of a search epoch *)

Section EpochBranches.
Context {F : Type} {FO : FloatOps F} {TS : Tensors F}.
Context {O : Type} {OPT : Optimizer F O} {TORCH : Torch F O}.

#[local] Arguments log_to_json : simpl never.
#[local] Arguments errors_path : simpl never.
#[local] Arguments fs_exists : simpl never.
#[local] Arguments _log_and_reset_accuracies : simpl never.

(** X1: an epoch of an optimizer that does not use the step function
    reads neither [self.scheduler] nor [self.periodic_checkpointer]: where
    the save directory is there or can be made, it returns on any trainer,
    its calls are [new_epoch], [train_statistics], [test_statistics] and
    the dump of the statistics (after [os.makedirs] when nothing has the
    path of the save directory), in this order, so no checkpoint is saved;
    the four entries it records are the results of [train_statistics], and
    the only file written is the statistics file. *)
Theorem search_epoch_without_step_function :
  forall (e : Z) (t : Trainer F O) (w : World F O),
    using_step_function (new_epoch e (optimizer t)) = false ->
    can_log (config t) (fs w) ->
    let o1 := new_epoch e (optimizer t) in
    let r := snd (train_statistics o1) in
    let d := errors_dict t in
    exists st' evs,
      search_epoch e (t, w) = Return tt st' /\
      trace (snd st') = (trace w ++ evs)%list /\
      evs = ([EvNewEpoch e; EvTrainStatistics]
             ++ test_events (fst (train_statistics o1)) ++ log_events (config t) w)%list /\
      checkpoint_saves evs = [] /\
      files (fs (snd st'))
      = <[errors_path (config t) := JsonFile (errors_dict (fst st'))]> (files (fs w)) /\
      ErrorsDict.train_acc (errors_dict (fst st'))
      = (ErrorsDict.train_acc d ++ [fst (fst (fst r))])%list /\
      ErrorsDict.train_loss (errors_dict (fst st'))
      = (ErrorsDict.train_loss d ++ [snd (fst (fst r))])%list /\
      ErrorsDict.valid_acc (errors_dict (fst st'))
      = (ErrorsDict.valid_acc d ++ [snd (fst r)])%list /\
      ErrorsDict.valid_loss (errors_dict (fst st'))
      = (ErrorsDict.valid_loss d ++ [snd r])%list /\
      scheduler (fst st') = scheduler t /\
      periodic_checkpointer (fst st') = periodic_checkpointer t.
Proof.
  intros e t w Husf Hcan o1 r d. subst o1 r d.
  destruct t as [o cfg eps tq vq teq m1 m2 m3 m4 m5 m6 d0 sch ck pc],
           w as [[dr fl] clk tk tr gr evs].
  cbn [optimizer config fs] in Husf, Hcan.
  unfold search_epoch, test_events, log_events.
  do 3 step. rewrite Husf. cbv iota.
  do 2 step.
  cbn [optimizer config errors_dict scheduler periodic_checkpointer fs trace].
  destruct (train_statistics (new_epoch e o)) as [o2 [[[a b] c] dd]] eqn:Htr. norm.
  do 7 step. step.
  destruct (test_statistics o2) as [o3 [[acc loss]|]] eqn:Hts; norm.
  - do 2 step.
    rewrite ?bind_assoc_run. erewrite bind_return; [|apply log_to_json_run; exact Hcan]. norm.
    unfold _log_and_reset_accuracies. do 5 step. rewrite set_self_run. norm.
    do 2 eexists. split; [reflexivity|]. norm.
    cbn [ErrorsDict.train_acc ErrorsDict.train_loss ErrorsDict.valid_acc
         ErrorsDict.valid_loss ErrorsDict.append_train_acc ErrorsDict.append_train_loss
         ErrorsDict.append_valid_acc ErrorsDict.append_valid_loss
         ErrorsDict.append_test_acc ErrorsDict.append_test_loss
         ErrorsDict.append_runtime].
    rewrite <- ?app_assoc.
    split; [reflexivity|]. split; [reflexivity|].
    split; [destruct (fs_exists _ _); reflexivity|].
    repeat split; reflexivity.
  - step.
    rewrite ?bind_assoc_run. erewrite bind_return; [|apply log_to_json_run; exact Hcan]. norm.
    unfold _log_and_reset_accuracies. do 5 step. rewrite set_self_run. norm.
    do 2 eexists. split; [reflexivity|]. norm.
    cbn [ErrorsDict.train_acc ErrorsDict.train_loss ErrorsDict.valid_acc
         ErrorsDict.valid_loss ErrorsDict.append_train_acc ErrorsDict.append_train_loss
         ErrorsDict.append_valid_acc ErrorsDict.append_valid_loss
         ErrorsDict.append_test_acc ErrorsDict.append_test_loss
         ErrorsDict.append_runtime].
    rewrite <- ?app_assoc.
    split; [reflexivity|]. split; [reflexivity|].
    split; [destruct (fs_exists _ _); reflexivity|].
    repeat split; reflexivity.
Qed.
(** X2: in a world that has the save directory and the directory of the
    checkpointer, an epoch of an optimizer that uses the step function
    calls [optimizer.step] once per pair of batches, that is
    min(len(train_queue), len(valid_queue)) times since [zip] stops at the
    shorter queue; then [scheduler.step()] once; then the periodic
    checkpointer; then [test_statistics]; and last the dump of the
    statistics.  No directory is made. *)
Theorem search_epoch_with_step_function :
  forall (e : Z) (t : Trainer F O) (w : World F O) s p,
    scheduler t = Some s -> periodic_checkpointer t = Some p ->
    using_step_function (new_epoch e (optimizer t)) = true ->
    log_ready (config t) (dirs (fs w)) ->
    checkpoint_dir_ready (save_dir (pc_checkpointer p)) (dirs (fs w)) ->
    let o1 := new_epoch e (optimizer t) in
    let batches := combine (train_queue t) (valid_queue t) in
    let o2 := scheduler_step s (after_steps o1 batches) in
    exists st',
      search_epoch e (t, w) = Return tt st' /\
      trace (snd st')
      = (trace w ++ [EvNewEpoch e]
         ++ repeat EvStep (Nat.min (List.length (train_queue t)) (List.length (valid_queue t)))
         ++ [EvSchedulerStep] ++ periodic_events p e ++ test_events o2
         ++ [EvJsonDump (errors_path (config t))])%list /\
      dirs (fs (snd st')) = dirs (fs w).
Proof.
  intros e t w s p Hs Hp Husf Hlog Hck o1 batches o2. subst o1 batches o2.
  destruct t as [o cfg eps tq vq teq m1 m2 m3 m4 m5 m6 d0 sch ck pc],
           w as [[dr fl] clk tk tr gr evs].
  cbn [scheduler periodic_checkpointer optimizer train_queue valid_queue config trace
       fs dirs] in *. subst sch pc.
  unfold search_epoch, test_events.
  do 3 step. rewrite Husf. cbv iota.
  do 2 step. rewrite ?bind_assoc_run.
  match goal with
  | |- context [bind (for_each ?l search_batch) _ (?t0, ?w0)] =>
      destruct (search_batches_spec l t0 w0)
        as (t1 & Hrun & Hsame & Herr & Hopt & _);
      [exists s; reflexivity|]
  end.
  rewrite (bind_return _ _ _ _ _ Hrun). clear Hrun.
  destruct Hsame as (Hcfg & Hep & Htq & Hvq & Hteq & Hsch & Hck' & Hpc).
  destruct t1 as [o' cfg' eps' tq' vq' teq' n1 n2 n3 n4 n5 n6 d' sch' ck' pc'].
  norm. cbn [fst snd optimizer config epochs train_queue valid_queue test_queue
     errors_dict scheduler checkpointer periodic_checkpointer set_optimizer]
    in Hcfg, Hep, Htq, Hvq, Hteq, Hsch, Hck', Hpc, Herr, Hopt.
  subst. rewrite length_combine.
  do 14 step. step.
  destruct (test_statistics (scheduler_step s (after_steps (new_epoch e o) (combine tq vq))))
    as [o3 [[acc loss]|]] eqn:Hts; norm.
  - do 3 step. unfold _log_and_reset_accuracies. do 5 step. rewrite set_self_run. norm.
    eexists. split; [reflexivity|]. norm. rewrite <- ?app_assoc.
    split; reflexivity.
  - do 2 step. unfold _log_and_reset_accuracies. do 5 step. rewrite set_self_run. norm.
    eexists. split; [reflexivity|]. norm. rewrite <- ?app_assoc.
    split; reflexivity.
Qed.
End EpochBranches.

(** ** Checkpoint set-up: errors and what is not read *)

Section SetupFacts.
Context {F : Type} {FO : FloatOps F} {TS : Tensors F}.
Context {O : Type} {OPT : Optimizer F O} {TORCH : Torch F O}.

(** X3: when neither the optimizer's checkpointables nor the keyword
    arguments hold a ['model'], [_setup_checkpointers] raises
    [KeyError('model')] from [checkpointables.pop('model')], before any
    attribute is assigned and before anything is read from disk: trainer
    and world are as they were. *)
Theorem setup_checkpointers_without_model :
  forall resume_from search kw (t : Trainer F O) (w : World F O),
    (kw ∪ get_checkpointables (optimizer t)) !! "model" = None ->
    _setup_checkpointers resume_from search kw (t, w) = Raise (KeyError "model") (t, w).
Proof.
  intros resume_from search kw t w H. unfold _setup_checkpointers.
  erewrite bind_return; [|apply self_run]. rewrite H. reflexivity.
Qed.

Lemma bind_cong {A B} (c : M F O A) (k1 k2 : A -> M F O B) (st : State F O) :
  (forall a st', c st = Return a st' -> k1 a st' = k2 a st') ->
  bind c k1 st = bind c k2 st.
Proof. intros H. unfold bind. destruct (c st) as [a st'|]; [now apply H | reflexivity]. Qed.

Lemma bind_cong_l {A B} (c1 c2 : M F O A) (k : A -> M F O B) (st : State F O) :
  c1 st = c2 st -> bind c1 k st = bind c2 k st.
Proof. intros H. unfold bind. now rewrite H. Qed.

Lemma resume_or_load_ignores_path (c : Checkpointer) (p1 p2 : PyPath) (st : State F O) :
  fs_exists (os_path_join (save_dir c) ["last_checkpoint"]) (fs (snd st)) = true ->
  resume_or_load c p1 true st = resume_or_load c p2 true st.
Proof.
  intros H. destruct st as [t w]. unfold resume_or_load.
  erewrite !bind_return by apply has_checkpoint_run.
  cbn [snd] in H. rewrite H. reflexivity.
Qed.

(** X4: when the checkpoint directory has a [last_checkpoint] file,
    [_setup_checkpointers] does the same for every non-empty
    [resume_from], string or tuple: [resume_or_load(resume_from,
    resume=True)] loads the last checkpoint of the directory and never
    reads the path it was given. *)
Theorem setup_checkpointers_ignores_resume_path :
  forall (p1 p2 : PyPath) search kw (t : Trainer F O) (w : World F O),
    truthy p1 = true -> truthy p2 = true ->
    fs_exists (last_checkpoint_file (checkpoint_dir search (config t))) (fs w) = true ->
    _setup_checkpointers p1 search kw (t, w) = _setup_checkpointers p2 search kw (t, w).
Proof.
  intros p1 p2 search kw t w H1 H2 Hhas. unfold _setup_checkpointers.
  apply bind_cong. intros o st' Ho. rewrite self_run in Ho. injection Ho as <- <-.
  destruct (_ !! "model") as [m|]; [|reflexivity].
  apply bind_cong. intros cfg st' Hc. rewrite self_run in Hc. injection Hc as <- <-.
  apply bind_cong. intros [] st' Hc. rewrite set_self_run in Hc. injection Hc as <-.
  apply bind_cong. intros [] st' Hc. rewrite set_self_run in Hc. injection Hc as <-.
  rewrite H1, H2.
  apply bind_cong_l. apply resume_or_load_ignores_path.
  cbn [save_dir snd fst]. exact Hhas.
Qed.
End SetupFacts.

(** ** Evaluation without retraining *)

Section EvaluateBranches.
Context {F : Type} {FO : FloatOps F} {TS : Tensors F}.
Context {O : Type} {OPT : Optimizer F O} {TORCH : Torch F O}.

(** X5: for a queryable final architecture [evaluate] neither trains nor
    measures, whatever [retrain] and [resume_from] are: after the
    checkpoint set-up it calls [get_final_architecture] and
    [best_arch.query] and returns; no file is written and no mode is
    changed. *)
Theorem evaluate_queryable :
  forall retrain (t : Trainer F O) (w : World F O) search_model resume_from v t1 w1,
    truthy search_model = true ->
    _setup_checkpointers search_model true ∅
      (with_dataloaders (Config.evaluation (config t)) t, w) = Return v (t1, w1) ->
    QUERYABLE (get_final_architecture (optimizer t1)) = true ->
    evaluate retrain search_model resume_from (t, w)
    = Return tt
        (set_optimizer (query "eval_acc1es" (Config.dataset (config t)) (Config.data (config t))
                              (get_final_architecture (optimizer t1))) t1,
         add_events [EvGetFinalArchitecture; EvQuery] w1).
Proof.
  intros retrain t w search_model resume_from v t1 w1 Hsm Hsetup Hq.
  rewrite (evaluate_start retrain search_model resume_from t w search_model)
    by (apply resolve_search_model_given; exact Hsm).
  rewrite (bind_return _ _ _ _ _ Hsetup).
  destruct t1 as [o cfg eps tq vq teq n1 n2 n3 n4 n5 n6 d0 sch ck pc],
           w1 as [fl clk tk tr gr evs].
  cbn [optimizer] in Hq.
  do 2 step. rewrite Hq. cbv iota. rewrite call_run. norm.
  rewrite <- ?app_assoc. reflexivity.
Qed.

(** X6: with [retrain=False] and a final architecture that is not
    queryable, [evaluate] goes from the set-up straight to the
    measurement: the weights are not reset, [resume_from] is not used, no
    second checkpointer is set up and no file is written; the model is
    put in evaluation mode and the test queue is passed once. *)
Theorem evaluate_without_retraining :
  forall (t : Trainer F O) (w : World F O) search_model resume_from v t1 w1,
    truthy search_model = true ->
    _setup_checkpointers search_model true ∅
      (with_dataloaders (Config.evaluation (config t)) t, w) = Return v (t1, w1) ->
    QUERYABLE (get_final_architecture (optimizer t1)) = false ->
    test_queue t1 <> [] ->
    let o := eval_mode (to_device (get_final_architecture (optimizer t1))) in
    let pass := test_pass o (test_queue t1) in
    evaluate false search_model resume_from (t, w)
    = Return tt
        (set_optimizer (after_test_pass o (test_queue t1)) t1,
         add_events
           ([EvGetFinalArchitecture; EvToDevice; EvEvalMode]
            ++ map (fun b => EvForward false false (fst b)) (test_queue t1)
            ++ [EvTestAccuracies
                  (PyFloat (AverageMeter.weighted_average (map top1_feed pass)))
                  (PyFloat (AverageMeter.weighted_average (map top5_feed pass)))])
           (set_training false w1)).
Proof.
  intros t w search_model resume_from v t1 w1 Hsm Hsetup Hq Hteq o pass.
  subst o pass.
  rewrite (evaluate_start false search_model resume_from t w search_model)
    by (apply resolve_search_model_given; exact Hsm).
  rewrite (bind_return _ _ _ _ _ Hsetup).
  destruct t1 as [o cfg eps tq vq teq n1 n2 n3 n4 n5 n6 d0 sch ck pc],
           w1 as [fl clk tk tr gr evs].
  cbn [optimizer test_queue] in *.
  do 2 step. rewrite Hq. cbv iota. do 2 step.
  rewrite measure_test_accuracy_run by exact Hteq.
  norm. rewrite <- ?app_assoc. reflexivity.
Qed.
End EvaluateBranches.

(** ** The checkpoints of the retraining *)

Section RetrainCheckpoints.
Context {F : Type} {FO : FloatOps F} {TS : Tensors F}.
Context {O : Type} {OPT : Optimizer F O} {TORCH : Torch F O}.

Lemma checkpoint_saves_retrain_pass (gc : PyNum F) (g : bool) (queue : list Batch) :
  checkpoint_saves (@retrain_pass_events F FO TS gc g queue) = [].
Proof.
  induction queue as [|b queue IH]; [reflexivity|].
  unfold retrain_pass_events in *. cbn [flat_map].
  rewrite checkpoint_saves_app, IH, app_nil_r.
  unfold retrain_step_events. destruct (pynum_bool gc); reflexivity.
Qed.

Lemma checkpoint_saves_retrain_events (gc : PyNum F) (g : bool) (queue : list Batch)
      (p : PeriodicCheckpointer) (es : list Z) :
  checkpoint_saves (@retrain_events F FO TS gc g queue p es)
  = flat_map (fun e => checkpoint_saves (periodic_events p e)) es.
Proof.
  induction es as [|e es IH]; [reflexivity|].
  unfold retrain_events in *. cbn [flat_map].
  rewrite !checkpoint_saves_app, IH, checkpoint_saves_retrain_pass. reflexivity.
Qed.

Lemma checkpoint_saves_forwards (tr g : bool) (queue : list Batch) :
  checkpoint_saves (map (fun b : Batch => @EvForward F TS tr g (fst b)) queue) = [].
Proof. induction queue as [|b queue IH]; [reflexivity | exact IH]. Qed.

(** X7: the retraining of [evaluate] sets up a second checkpointer, on
    the directory [<save>/eval] with [best_arch] as its model; in a world
    that has this directory it saves through it once per epoch run, from
    the start epoch [s] the set-up returns to the last of
    [config.evaluation.epochs] (period 1, and the final checkpoint at the
    last epoch); these are the only checkpoints [evaluate] saves after its
    first set-up, so none goes to [<save>/search], and the files it leaves
    are those of these checkpoints. *)
Theorem evaluate_retraining_checkpoints :
  forall (t : Trainer F O) (w : World F O) search_model resume_from v t1 w1 s t2 w2,
    let ev := Config.evaluation (config t) in
    let sched :=
      mk_scheduler (float_of_int (Config.epochs ev)) (Config.learning_rate_min ev) in
    let best_arch := to_device (get_final_architecture (optimizer t1)) in
    let o_new :=
      scheduler_new sched
        (get_op_optimizer (Config.learning_rate ev) (Config.momentum ev)
                          (Config.weight_decay ev) (reset_weights best_arch)) in
    let reset := [EvGetFinalArchitecture; EvToDevice; EvResetWeights; EvGetOpOptimizer;
                  EvSchedulerNew] in
    (sm <- resolve_search_model search_model ;; _setup_checkpointers sm true ∅)
      (with_dataloaders ev t, w) = Return v (t1, w1) ->
    QUERYABLE (get_final_architecture (optimizer t1)) = false ->
    _setup_checkpointers resume_from false
      {[ "model" := ObjArch; "optim" := ObjOptim; "scheduler" := ObjScheduler ]}
      (set_optimizer o_new t1, add_events reset w1)
    = Return s (t2, w2) ->
    eval_ready (config t) (dirs (fs w)) ->
    train_queue t1 <> [] -> test_queue t1 <> [] ->
    exists st' evs c,
      let p := mk_periodic c 1 (Config.epochs ev) in
      evaluate true search_model resume_from (t, w) = Return tt st' /\
      trace (snd st') = (trace w1 ++ evs)%list /\
      model c = ObjArch /\
      save_dir c = checkpoint_dir false (config t) /\
      periodic_checkpointer (fst st') = Some p /\
      checkpoint_saves evs
      = flat_map (fun e => checkpoint_saves (periodic_events p e))
                 (range s (Config.epochs ev)) /\
      dirs (fs (snd st')) = dirs (fs w) /\
      files (fs (snd st'))
      = retrain_files sched (Config.grad_clip ev) (grad_enabled w) (train_queue t1) p
                      (range s (Config.epochs ev)) (train_mode (optimizer t2))
                      (files (fs w)).
Proof.
  intros t w search_model resume_from v t1 w1 s t2 w2 ev sched best_arch o_new reset
         Hsetup Hq Hsetup2 Hready Htq Hteq.
  destruct (evaluate_retrain_facts t w search_model resume_from v t1 w1 s t2 w2
              Hsetup Hq Hsetup2 Hready Htq Hteq)
    as (st' & c & evs0 & Hrun & Hp & Hmodel & Hdir & _ & Hw2 & Hsaves & Hdirs & Hfiles
        & Htrace & _).
  eexists st', _, c. cbv zeta.
  split; [exact Hrun|].
  split; [rewrite Htrace, Hw2, <- !app_assoc; reflexivity|].
  split; [exact Hmodel|]. split; [exact Hdir|]. split; [exact Hp|].
  split; [|split; [exact Hdirs | exact Hfiles]].
  rewrite !checkpoint_saves_app, Hsaves, checkpoint_saves_retrain_events,
    checkpoint_saves_forwards.
  cbn [checkpoint_saves flat_map app]. rewrite app_nil_r. reflexivity.
Qed.
End RetrainCheckpoints.

(** ** A finished search *)

Section FinishedSearch.
Context {F : Type} {FO : FloatOps F} {TS : Tensors F}.
Context {O : Type} {OPT : Optimizer F O} {TORCH : Torch F O}.

Lemma range_nil (a : Z) : range a a = [].
Proof. unfold range. now rewrite Z.sub_diag. Qed.

(** At the last epoch the periodic checkpointer saves [model_final.pth]
    last. *)
Lemma periodic_files_final (c : Checkpointer) (search : bool) (cfg : Config.t F)
      (N e : Z) (o : O) (fl : gmap string (FileData F O)) :
  save_dir c = checkpoint_dir search cfg -> N - 1 <= e ->
  exists ck,
    periodic_files (mk_periodic c 1 N) e o fl !! last_checkpoint_file (checkpoint_dir search cfg)
    = Some (TextFile "model_final.pth") /\
    periodic_files (mk_periodic c 1 N) e o fl
      !! os_path_join (checkpoint_dir search cfg) ["model_final.pth"]
    = Some (CheckpointFile ck) /\
    ck_extra ck !! "iteration" = Some e.
Proof.
  intros Hdir He. unfold periodic_files. cbn [period max_iter pc_checkpointer].
  rewrite Z.mod_1_r. cbn [Z.eqb].
  assert (Hge : (e >=? N - 1) = true) by lia. rewrite Hge.
  destruct (save_files_last c search cfg "model_final" e o
              (save_files c ("model_" +:+ format_07d e) e o fl) Hdir)
    as (ck & H1 & H2 & H3); [reflexivity | discriminate |].
  exists ck. repeat split; assumption.
Qed.

(** The files after a search that ran its last epoch. *)
Lemma search_final_checkpoint (o : O) (cfg : Config.t F) (w : World F O)
      resume_from s st1 :
  (forall o', using_step_function o' = true) ->
  search_ready cfg (dirs (fs w)) ->
  search_setup resume_from (__init__ o cfg, w) = Return s st1 ->
  s < Config.epochs (Config.search cfg) ->
  exists stk ck,
    for_each (range s (Config.epochs (Config.search cfg))) search_epoch st1 = Return tt stk /\
    dirs (fs (snd stk)) = dirs (fs w) /\
    files (fs (snd stk)) !! last_checkpoint_file (checkpoint_dir true cfg)
    = Some (TextFile "model_final.pth") /\
    files (fs (snd stk)) !! os_path_join (checkpoint_dir true cfg) ["model_final.pth"]
    = Some (CheckpointFile ck) /\
    ck_extra ck !! "iteration" = Some (Config.epochs (Config.search cfg) - 1).
Proof.
  intros Hall Hdirs Hsetup Hlt.
  destruct (init_fresh o cfg) as (Hcfg & Hep & _).
  set (N := Config.epochs (Config.search cfg)) in *.
  set (k := Z.to_nat (N - s)).
  assert (Hk : (0 < k <= List.length (range s N))%nat) by (rewrite range_length; lia).
  assert (Hfull : firstn k (range s N) = range s N)
    by (apply firstn_all2; rewrite range_length; lia).
  destruct (search_prefix_run resume_from (__init__ o cfg, w) s st1 (k - 1))
    as ([t1 w1] & Hrun1 & Hdone1);
    [cbn [fst snd]; rewrite Hcfg; exact Hdirs | exact Hsetup |].
  cbn [fst] in Hrun1, Hdone1. rewrite Hep in Hrun1, Hdone1.
  apply search_setup_inv in Hsetup as [Hup _].
  pose proof (search_set_up_ready _ _ _ Hup) as Hready.
  assert (Hloop : loop_ready st1).
  { eapply search_set_up_dirs; [exact Hup | rewrite Hcfg; exact Hdirs]. }
  destruct Hup as (Hcfg1 &_&_&_&_&_&_&_&_&_&_&_& _ & (c & Hpc & Hdir) & Hfs & _).
  rewrite Hcfg in Hcfg1, Hpc, Hdir. fold N in Hpc.
  destruct Hdone1 as (Hsame & _ & _ & _ & _ & Hdr1 & _). cbn [fst snd] in Hsame, Hdr1.
  pose proof (ready_same_setup _ _ Hsame Hready) as [[sch Hs] _].
  assert (Hp : periodic_checkpointer t1 = Some (mk_periodic c 1 N)).
  { destruct Hsame as (_&_&_&_&_&_&_& H). congruence. }
  assert (Hcfgk : config t1 = cfg).
  { destruct Hsame as (H &_). congruence. }
  destruct Hloop as [Hlog Hck].
  destruct (search_epoch_run (s + Z.of_nat k - 1) t1 w1 sch _ Hs Hp)
    as ([t2 w2] & Hrun2 & Hdone2).
  { rewrite Hdr1, Hcfgk, <- Hcfg1. exact Hlog. }
  { intros _. rewrite Hdr1. apply Hck. exact Hpc. }
  destruct Hdone2 as (_ & _ & _ & _ & (o2 & Hfiles) & Hdr2 & _).
  cbn [fst snd] in Hfiles, Hdr2. rewrite Hall, Hcfgk in Hfiles.
  destruct (periodic_files_final c true cfg N (s + Z.of_nat k - 1) o2 (files (fs w1)) Hdir)
    as (ck & Hlast & Hfile & Hit); [lia|].
  exists (t2, w2), ck.
  split.
  { rewrite <- Hfull, (firstn_range_last k s N Hk), for_each_app.
    rewrite (bind_return _ _ _ _ _ Hrun1). cbn [for_each].
    rewrite (bind_return _ _ _ _ _ Hrun2). reflexivity. }
  cbn [snd]. split; [rewrite Hdr2, Hdr1, Hfs; reflexivity|]. rewrite Hfiles.
  split; [|split].
  - rewrite lookup_insert_ne; [exact Hlast|].
    apply errors_path_not_checkpoint. reflexivity.
  - rewrite lookup_insert_ne; [exact Hfile|].
    apply errors_path_not_checkpoint. reflexivity.
  - rewrite Hit. f_equal. lia.
Qed.

(** X8: in a world that has the save directory and its directory
    [search], a search by a step-function optimizer that runs its last
    epoch leaves [model_final.pth] as the last checkpoint of the search
    directory, holding the iteration [N - 1].  On these files a search
    resumed with any non-empty [resume_from] starts at epoch [N] and runs
    no epoch; and lines 209-211 of [evaluate], with the default
    [search_model] (the one-element tuple), get through the checkpoint
    set-up by loading that last checkpoint. *)
Theorem finished_search_round_trip :
  forall (o : O) (cfg : Config.t F) (w : World F O) resume_from s st1,
    (forall o', using_step_function o' = true) ->
    (forall o', is_Some (get_checkpointables o' !! "model")) ->
    search_ready cfg (dirs (fs w)) ->
    search_setup resume_from (__init__ o cfg, w) = Return s st1 ->
    s < Config.epochs (Config.search cfg) ->
    exists stk ck,
      for_each (range s (Config.epochs (Config.search cfg))) search_epoch st1
      = Return tt stk /\
      files (fs (snd stk)) !! last_checkpoint_file (checkpoint_dir true cfg)
      = Some (TextFile "model_final.pth") /\
      files (fs (snd stk)) !! os_path_join (checkpoint_dir true cfg) ["model_final.pth"]
      = Some (CheckpointFile ck) /\
      ck_extra ck !! "iteration" = Some (Config.epochs (Config.search cfg) - 1) /\
      (forall (o' : O) (w' : World F O) resume_from',
          truthy resume_from' = true -> fs w' = fs (snd stk) ->
          exists st2 evs',
            search resume_from' (__init__ o' cfg, w') = Return tt st2 /\
            trace (snd st2) = (trace w' ++ evs')%list /\
            new_epoch_calls evs' = [] /\ json_dumps evs' = []) /\
      (forall (t' : Trainer F O) (w' : World F O),
          config t' = cfg -> fs w' = fs (snd stk) ->
          exists st3,
            bind (resolve_search_model (PyStr ""))
                 (fun search_model => _setup_checkpointers search_model true ∅) (t', w')
            = Return (Config.epochs (Config.search cfg)) st3).
Proof.
  intros o cfg w resume_from s st1 Hall Hmodel Hdirs Hsetup Hlt.
  destruct (search_final_checkpoint o cfg w resume_from s st1 Hall Hdirs Hsetup Hlt)
    as (stk & ck & Hrun & Hdr & Hlast & Hfile & Hit).
  exists stk, ck. do 4 (split; [assumption|]).
  split.
  - intros o' w' resume_from' Htruthy Hfs.
    rewrite <- Hfs in Hlast, Hfile, Hdr.
    destruct (search_setup_resume resume_from' o' cfg w' _ ck Htruthy (Hall _) Hmodel
                Hlast Hfile) as (st1' & Hsetup').
    rewrite Hit in Hsetup'. cbn [default from_option] in Hsetup'. unfold id in Hsetup'.
    replace (Config.epochs (Config.search cfg) - 1 + 1)
      with (Config.epochs (Config.search cfg)) in Hsetup' by lia.
    destruct (init_fresh o' cfg) as (Hcfg' & Hep' & _).
    destruct (search_after_setup resume_from' (__init__ o' cfg, w')
                                 (Config.epochs (Config.search cfg)) st1')
      as (st2 & evs' & Hsearch & Htr' & Hne' & _);
      [cbn [fst snd]; rewrite Hcfg', Hdr; exact Hdirs | exact Hsetup' |].
    cbn [fst] in Hne'. rewrite Hep', range_nil in Hne'.
    pose proof (search_setup_inv _ _ _ _ _ Hsetup') as [Hup _].
    destruct Hup as (_&_&_&_&_&_&_&_&_&_&_&_&_&_&_& (evs0 & Htr0 & Hsil) & _).
    destruct Hsil as (S1 & S2 & _).
    exists st2, (evs0 ++ evs')%list.
    split; [exact Hsearch|]. cbn [snd] in Htr0.
    split; [rewrite Htr', Htr0, app_assoc; reflexivity|].
    rewrite new_epoch_calls_app, S1, Hne'. split; [reflexivity|].
    rewrite json_dumps_app, S2. cbn [app].
    unfold search in Hsearch. rewrite (bind_return _ _ _ _ _ Hsetup') in Hsearch.
    destruct st1' as [t1' w1'].
    erewrite bind_return in Hsearch by apply self_run.
    apply search_setup_inv in Hsetup' as [(_ & Hep1 & _) _]. cbn [fst] in Hep1.
    rewrite Hep1, Hep', range_nil in Hsearch. cbn [for_each] in Hsearch.
    erewrite bind_return in Hsearch by apply ret_run.
    rewrite call_run in Hsearch. injection Hsearch as <-.
    cbn [snd] in Htr'. unfold add_events in Htr'. cbn [trace] in Htr'.
    apply app_inv_head in Htr'. subst evs'. reflexivity.
  - intros t' w' Hcfg' Hfs.
    rewrite <- Hfs in Hlast, Hfile.
    erewrite bind_return by apply resolve_search_model_default.
    destruct (Hmodel (optimizer t')) as [m Hm].
    rewrite <- Hcfg' in Hlast, Hfile.
    destruct (setup_checkpointers_resume
                (PyTuple [os_path_join (Config.save (config t')) ["search"; "model_final.pth"]])
                true ∅ t' w' m "model_final.pth" ck eq_refl) as (keys & Hst3);
      try assumption.
    { rewrite (left_id_L ∅ (∪)). exact Hm. }
    rewrite Hit in Hst3. cbn [default from_option] in Hst3. unfold id in Hst3.
    replace (Config.epochs (Config.search cfg) - 1 + 1)
      with (Config.epochs (Config.search cfg)) in Hst3 by lia.
    eexists. exact Hst3.
Qed.
End FinishedSearch.

(** ** The statistics file and the analysis script *)

Section DumpFacts.
Import Analysis.
Context {F : Type} {FO : FloatOps F} {NP : Numpy F}.

Lemma dump_getitem_arch_eval (d : ErrorsDict.t F) :
  getitem (json_of_errors_dict d) "arch_eval" = Err (KeyError "arch_eval").
Proof. unfold json_of_errors_dict, getitem. vm_compute. reflexivity. Qed.

(** X9: a statistics file written by the trainer has the keys of
    [errors_dict] and no ['arch_eval']: on a list of runs that starts with
    such a file [get_nb_eval] raises [KeyError('arch_eval')], and so does
    [analyze] for an optimizer dictionary whose first optimizer has such a
    run first. *)
Theorem get_nb_eval_on_trainer_statistics :
  forall (d : ErrorsDict.t F) (runs : list (Json F)) (dataset metric : string)
         (name : string) (rest : list (string * list (Json F))),
    get_nb_eval (json_of_errors_dict d :: runs) dataset metric
    = Err (KeyError "arch_eval") /\
    analyze ((name, json_of_errors_dict d :: runs) :: rest) dataset
    = Err (KeyError "arch_eval").
Proof.
  intros d runs dataset metric name rest.
  assert (H : forall m, get_nb_eval (json_of_errors_dict d :: runs) dataset m
                        = Err (KeyError "arch_eval")).
  { intros m. unfold get_nb_eval. apply res_map_err.
    rewrite dump_getitem_arch_eval. reflexivity. }
  split; [apply H|].
  unfold analyze. erewrite res_map_err; [reflexivity|].
  unfold draw_test_error. cbn [snd]. rewrite H. reflexivity.
Qed.

(** X10: an optimizer with a run at least whose name has no entry in
    [optimizer_dir_name_to_name] stops [analyze] with a [KeyError] on that
    name, once its test accuracies were collected and turned into a
    matrix; nothing is drawn for the optimizers after it.  Without runs
    [len(mean)], which comes before the look-up of the name, raises
    [TypeError] instead. *)
Theorem analyze_without_display_name :
  forall (name : string) (runs : list (Json F)) (rest : list (string * list (Json F)))
         (dataset : string) accs a,
    runs <> [] ->
    get_nb_eval runs dataset "test_accuracy" = Ok accs ->
    np_array accs = Ok a ->
    optimizer_dir_name_to_name !! name = None ->
    analyze ((name, runs) :: rest) dataset = Err (KeyError name) /\
    analyze ((name, []) :: rest) dataset = Err TypeError.
Proof.
  intros name runs rest dataset accs a Hruns Hacc Ha Hname.
  split.
  - unfold analyze. erewrite res_map_err; [reflexivity|].
    unfold draw_test_error. cbn [fst snd]. rewrite Hacc. cbn [res_bind].
    rewrite Ha. cbn [res_bind].
    rewrite len_mean_ok.
    2:{ apply hundred_minus_nonempty. apply np_array_ok in Ha as [Ha _].
        eapply Forall2_nonempty; [exact Ha|].
        apply get_nb_eval_ok in Hacc. eapply Forall2_nonempty; [exact Hacc | exact Hruns]. }
    cbn [res_bind]. rewrite Hname. reflexivity.
  - unfold analyze. erewrite res_map_err; [reflexivity|]. apply draw_test_error_no_runs.
Qed.

Lemma rows_of_floats (a : list (list F)) :
  Forall2 (Forall2 (fun v x => v = JNum x)) (map (map JNum) a) a.
Proof.
  induction a as [|r a IH]; constructor; [|exact IH].
  induction r as [|x r IHr]; constructor; [reflexivity | exact IHr].
Qed.

(** What [draw_valid_error] draws for an optimizer with runs whose
    validation accuracies form a matrix. *)
Lemma draw_valid_error_ok (entry : string * list (Json F)) (a : list (list F)) :
  snd entry <> [] ->
  Forall2 (fun run row => getitem run "valid_acc" = Ok (JList (map JNum row)))
          (snd entry) a ->
  rectangular a = true ->
  let err := map (map (fun x => fsub (float_of_int 100) x)) a in
  let mean := np_mean_axis0 err in
  let std := np_std_axis0 err in
  draw_valid_error entry
  = Ok [ Plot AxRight (range 0 (Z.of_nat (List.length mean))) mean None None;
         FillBetween AxRight (range 0 (Z.of_nat (List.length mean)))
                     (zip_with fsub mean std) (zip_with fadd mean std) ].
Proof.
  intros Hruns Hrows Hrect err mean std.
  unfold draw_valid_error.
  assert (H1 : res_map (fun run => getitem run "valid_acc") (snd entry)
               = Ok (map (fun row => JList (map JNum row)) a)).
  { apply res_map_ok. clear Hruns Hrect err mean std.
    induction Hrows as [|run row runs a' H _ IH]; constructor; assumption. }
  rewrite H1. cbn [res_bind].
  assert (H2 : res_map as_row (map (fun row => JList (map JNum row)) a)
               = Ok (map (map JNum) a)).
  { apply res_map_ok. clear. induction a as [|row a IH]; constructor; [reflexivity | exact IH]. }
  rewrite H2. cbn [res_bind].
  rewrite (proj2 (np_array_ok _ a) (conj (rows_of_floats a) Hrect)). cbn [res_bind].
  rewrite len_mean_ok.
  2:{ apply hundred_minus_nonempty. eapply Forall2_nonempty; [exact Hrows | exact Hruns]. }
  reflexivity.
Qed.

(** X11: when the test-error curves of every optimizer can be drawn, and
    every optimizer has a run at least and its runs have ['valid_acc']
    lists of numbers of one length, [analyze] returns, and what it draws
    on the right axis is, optimizer by optimizer, the curve of the mean
    along axis 0 of 100 minus the matrix of these lists, with the band of
    one standard deviation around it, without label. *)
Theorem analyze_valid_error_curves :
  forall (optimizer_dict : list (string * list (Json F))) (dataset : string)
         (left right : list (list (Draw F))),
    Forall2 (fun entry d => draw_test_error dataset entry = Ok d) optimizer_dict left ->
    Forall2 (fun entry d =>
               exists a,
                 snd entry <> [] /\
                 Forall2 (fun run row => getitem run "valid_acc" = Ok (JList (map JNum row)))
                         (snd entry) a /\
                 rectangular a = true /\
                 let err := map (map (fun x => fsub (float_of_int 100) x)) a in
                 let mean := np_mean_axis0 err in
                 let std := np_std_axis0 err in
                 d = [ Plot AxRight (range 0 (Z.of_nat (List.length mean))) mean None None;
                       FillBetween AxRight (range 0 (Z.of_nat (List.length mean)))
                                   (zip_with fsub mean std) (zip_with fadd mean std) ])
            optimizer_dict right ->
    exists draws,
      analyze optimizer_dict dataset = Ok draws /\
      List.filter on_right_axis draws = concat right.
Proof.
  intros optimizer_dict dataset left right Hleft Hright.
  assert (Hl : res_map (draw_test_error dataset) optimizer_dict = Ok left)
    by (apply res_map_ok; exact Hleft).
  assert (Hr : res_map draw_valid_error optimizer_dict = Ok right).
  { apply res_map_ok. eapply Forall2_impl; [exact Hright|].
    intros entry d (a & Hruns & Hrows & Hrect & Hd).
    rewrite Hd. now apply draw_valid_error_ok. }
  exists (concat left ++ concat right)%list.
  unfold analyze. rewrite Hl, Hr. split; [reflexivity|].
  rewrite List.filter_app, !filter_concat.
  rewrite (filter_each on_right_axis _ false _ _ Hleft
             (fun x d H => proj2 (draw_test_error_left dataset x d H))).
  cbn [app].
  apply (filter_each on_right_axis _ true _ _ Hright).
  intros entry d (a & _ & _ & _ & ->). reflexivity.
Qed.
End DumpFacts.

(** ** [log_to_json] and the checkpoint files *)

Section LogFacts.
Context {F : Type} {FO : FloatOps F} {TS : Tensors F}.
Context {O : Type} {OPT : Optimizer F O} {TORCH : Torch F O}.

Lemma errors_path_not_in_checkpoint_dir (search : bool) (cfg : Config.t F) (name : string) :
  starts_with_sep name = false ->
  errors_path cfg <> os_path_join (checkpoint_dir search cfg) [name].
Proof.
  intros Hn. rewrite checkpoint_path by exact Hn.
  unfold errors_path, os_path_join, checkpoint_dir. cbn [fold_left].
  change (starts_with_sep ("errors_" +:+ str_of_int (Config.seed cfg) +:+ ".json"))
    with false. cbv iota.
  destruct search; rewrite !append_assoc;
    destruct (String.eqb (Config.save cfg) "" || ends_with_sep (Config.save cfg));
    intros H; apply append_cancel in H; discriminate.
Qed.

(** X12: where the save directory is there or can be made, [log_to_json]
    writes one file and no other: every file of the two checkpoint
    directories, [<save>/search] and [<save>/eval], is after the call what
    it was before; and a second call right after the first changes nothing
    on disk, creating no directory and dumping the same content to the
    same file. *)
Theorem log_to_json_only_writes_statistics :
  forall (t : Trainer F O) (w : World F O),
    can_log (config t) (fs w) ->
    exists w1 w2,
      log_to_json (t, w) = Return tt (t, w1) /\
      (forall search name,
          has_sep name = false ->
          files (fs w1) !! os_path_join (checkpoint_dir search (config t)) [name]
          = files (fs w) !! os_path_join (checkpoint_dir search (config t)) [name]) /\
      log_to_json (t, w1) = Return tt (t, w2) /\
      fs w2 = fs w1 /\
      trace w2 = (trace w1 ++ [EvJsonDump (errors_path (config t))])%list.
Proof.
  intros t w Hcan.
  destruct (log_to_json_fs t w Hcan) as (w1 & Hrun1 & Hready1 & Hdirs1 & Hfiles1 & _).
  exists w1. eexists. split; [exact Hrun1|]. split.
  - intros search name Hn. rewrite Hfiles1. apply lookup_insert_ne.
    apply errors_path_not_in_checkpoint_dir. apply has_sep_starts. exact Hn.
  - split; [apply log_to_json_ready_run; exact Hready1|]. cbn [fs trace].
    split; [|reflexivity].
    rewrite Hfiles1, insert_insert_eq.
    destruct (fs w1) as [d1 f1]. cbn [dirs files] in *. rewrite Hfiles1. reflexivity.
Qed.
End LogFacts.

(** ** Resuming: what can fail, and what is not restored *)

Section ResumeEdges.
Context {F : Type} {FO : FloatOps F} {TS : Tensors F}.
Context {O : Type} {OPT : Optimizer F O} {TORCH : Torch F O}.

(** X13: when the checkpoint directory has no [last_checkpoint] file, a
    non-empty [resume_from] is the file [Checkpointer.load] reads.  If no
    file has that path the set-up raises [AssertionError] instead of
    returning 0, and if the file holds something that is not a checkpoint
    (the statistics file, say) it raises [UnpicklingError]; in both cases
    both checkpointers have been assigned, and nothing else changed. *)
Theorem setup_checkpointers_unreadable_path :
  forall (p : string) search kw (t : Trainer F O) (w : World F O) m,
    p <> "" ->
    (kw ∪ get_checkpointables (optimizer t)) !! "model" = Some m ->
    fs_exists (last_checkpoint_file (checkpoint_dir search (config t))) (fs w) = false ->
    (files (fs w) !! p = None ->
     _setup_checkpointers (PyStr p) search kw (t, w)
     = Raise AssertionError (with_checkpointers search kw t m, w)) /\
    (forall d,
        files (fs w) !! p = Some (JsonFile d) ->
        _setup_checkpointers (PyStr p) search kw (t, w)
        = Raise UnpicklingError (with_checkpointers search kw t m, w)).
Proof.
  intros p search kw t w m Hp Hm Hhas.
  assert (Hstart :
            forall e,
              load (made_checkpointer search kw t m) (PyStr p) (Some [])
                   (with_checkpointers search kw t m, w)
              = Raise e (with_checkpointers search kw t m, w) ->
              _setup_checkpointers (PyStr p) search kw (t, w)
              = Raise e (with_checkpointers search kw t m, w)).
  { intros e Hload. unfold _setup_checkpointers.
    erewrite bind_return; [|apply self_run]. rewrite Hm.
    do 3 (erewrite bind_return; [|prim]).
    cbn [truthy]. apply String.eqb_neq in Hp. rewrite Hp. cbn [negb fst snd].
    apply bind_raise. unfold resume_or_load.
    erewrite bind_return; [|apply has_checkpoint_run].
    cbn [save_dir snd]. unfold last_checkpoint_file, checkpoint_dir in Hhas.
    rewrite Hhas. cbn [andb]. exact Hload. }
  assert (Htruthy : negb (truthy (PyStr p)) = false).
  { cbn [truthy]. apply String.eqb_neq in Hp. now rewrite Hp. }
  split.
  - intros Hfile. apply Hstart. unfold load. rewrite Htruthy.
    unfold bind, read_file, world. cbn [snd]. rewrite Hfile. reflexivity.
  - intros d Hfile. apply Hstart. unfold load. rewrite Htruthy.
    unfold bind, read_file, world. cbn [snd]. rewrite Hfile. reflexivity.
Qed.


End ResumeEdges.

(** * The properties on the concrete instances *)

Section Witnesses.
Import Toy.

Lemma store_accuracies_unknown_split_witness :
  "test" <> "train" /\ "test" <> "val" /\
  _store_accuracies ((1%positive, 50) : Logits) (tt : Target) "test" (start stepper)
  = Raise ValueError (start stepper).
Proof.
  split; [discriminate|]. split; [discriminate|].
  apply store_accuracies_unknown_split; discriminate.
Defined.

Lemma search_runs_each_epoch_once_witness :
  search_ready cfg run_dirs /\
  exists st1,
    search_setup (PyStr "") (start_ready stepper) = Return 0 st1 /\
    exists st2 evs,
      search (PyStr "") (start_ready stepper) = Return tt st2 /\
      trace (snd st2) = (trace (snd st1) ++ evs)%list /\
      new_epoch_calls evs = [0; 1; 2] /\
      grown 3 (errors_dict (fst (start_ready stepper))) (errors_dict (fst st2)).
Proof.
  split; [split; vm_compute; reflexivity|].
  eexists. split; [vm_compute; reflexivity|].
  eapply (search_runs_each_epoch_once (PyStr "") (start_ready stepper) 0).
  - split; vm_compute; reflexivity.
  - vm_compute. reflexivity.
Defined.


Lemma errors_dict_lengths_invariant_witness :
  search_ready cfg run_dirs /\
  exists st1,
    search_setup (PyStr "") (start_ready stepper) = Return 0 st1 /\
    exists stk evs,
      for_each (firstn 2 (range 0 (Config.epochs (Config.search cfg)))) search_epoch st1
      = Return tt stk /\
      trace (snd stk) = (trace (snd st1) ++ evs)%list /\
      let d := errors_dict (fst stk) in
      List.length (ErrorsDict.train_acc d) = 2%nat /\
      List.length (ErrorsDict.train_loss d) = 2%nat /\
      List.length (ErrorsDict.valid_acc d) = 2%nat /\
      List.length (ErrorsDict.valid_loss d) = 2%nat /\
      List.length (ErrorsDict.runtime d) = 2%nat /\
      List.length (ErrorsDict.test_acc d) = truthy_tests evs /\
      List.length (ErrorsDict.test_loss d) = truthy_tests evs /\
      (truthy_tests evs <= 2)%nat.
Proof.
  split; [split; vm_compute; reflexivity|].
  eexists. split; [vm_compute; reflexivity|].
  eapply (errors_dict_lengths_invariant stepper cfg world_ready (PyStr "") 0 _ 2%nat).
  - split; vm_compute; reflexivity.
  - vm_compute. reflexivity.
  - vm_compute. lia.
Defined.

Lemma meters_reset_at_every_epoch_witness :
  search_ready cfg run_dirs /\
  meters_reset (fst (start_ready stepper)) /\
  exists st1,
    search_setup (PyStr "") (start_ready stepper) = Return 0 st1 /\
    exists stk,
      for_each (firstn 1 (range 0 (epochs (fst (start_ready stepper))))) search_epoch st1
      = Return tt stk /\
      meters_reset (fst stk).
Proof.
  split; [split; vm_compute; reflexivity|].
  split; [vm_compute; repeat split|].
  eexists. split; [vm_compute; reflexivity|].
  edestruct (meters_reset_at_every_epoch (PyStr "") (start_ready stepper) 0) with (k := 1%nat)
    as (stk & Hrun & Hreset & _).
  - split; vm_compute; reflexivity.
  - vm_compute. repeat split.
  - vm_compute. reflexivity.
  - exists stk. split; [exact Hrun | exact Hreset].
Defined.

Lemma search_without_step_function_raises_witness :
  using_step_function (before_training sampler) = false /\
  exists st,
    search (PyStr "") (start sampler) = Raise (AttributeError "scheduler") st /\
    trace (snd st) = (trace world0 ++ [EvBeforeTraining])%list /\
    fs (snd st) = fs world0 /\
    errors_dict (fst st) = ErrorsDict.empty (get_model_size sampler) /\
    checkpointer (fst st) = None /\ periodic_checkpointer (fst st) = None.
Proof.
  split; [reflexivity|].
  apply (search_without_step_function_raises sampler cfg world0 (PyStr "")).
  reflexivity.
Defined.

Lemma get_nb_eval_and_test_error_witness :
  exists draws,
    Analysis.analyze [("DARTS", runs)] "cifar10" = Analysis.Ok draws /\
    List.filter on_left_axis draws
    = concat [[ Analysis.Plot Analysis.AxLeft [0; 1] [8; 6] (Some "DARTS") (Some "h");
                Analysis.FillBetween Analysis.AxLeft [0; 1] [6; 4] [10; 8] ]].
Proof.
  eapply (proj1 (proj2 get_nb_eval_and_test_error) [("DARTS", runs)] "cifar10").
  - constructor; [|constructor].
    eexists _, _, _. split; [discriminate|]. split; [vm_compute; reflexivity|].
    split; [repeat constructor|]. split; [reflexivity|].
    split; [vm_compute; reflexivity|]. vm_compute. reflexivity.
  - constructor; [|constructor]. vm_compute. reflexivity.
Defined.

(** Against C3 as it was stated: a non-empty [resume_from] that names no
    file, in a search directory without checkpoint, does not give 0: the
    set-up raises. *)
Lemma resume_from_missing_file_raises :
  truthy (PyStr "missing.pth") = true /\
  fs_exists (last_checkpoint_file (checkpoint_dir true cfg)) (fs world_ready) = false /\
  _setup_checkpointers (PyStr "missing.pth") true {[ "scheduler" := ObjScheduler ]}
                       (start_ready stepper)
  = Raise AssertionError
          (with_checkpointers true {[ "scheduler" := ObjScheduler ]} (__init__ stepper cfg)
                              (ObjOwned "graph"),
           world_ready).
Proof. split; [reflexivity|]. split; vm_compute; reflexivity. Qed.
End Witnesses.

Section StepperWitnesses.
Import Toy Stepper.

Lemma checkpoint_resume_round_trip_witness :
  (exists keys,
      _setup_checkpointers (PyStr "resume") true ∅ (__init__ 0 cfg, world_searched)
      = Return 3
          (set_optimizer (load_state_dict keys 5 0)
                         (with_checkpointers true ∅ (__init__ 0 cfg) (ObjOwned "graph")),
           add_events [EvCheckpointLoad "out/search/model_final.pth"] world_searched)) /\
  search_ready cfg run_dirs /\
  exists st1,
    search_setup (PyStr "") Stepper.start_ready = Return 0 st1 /\
    exists stk evs,
      for_each (firstn 2 (range 0 (Config.epochs (Config.search cfg)))) search_epoch st1
      = Return tt stk /\
      trace (snd stk) = (trace (snd st1) ++ evs)%list /\
      (forall e,
          In e (firstn 2 (range 0 (Config.epochs (Config.search cfg)))) ->
          In (os_path_join (checkpoint_dir true cfg)
                           [("model_" +:+ format_07d e) +:+ ".pth"], e)
             (checkpoint_saves evs)) /\
      forall (o' : Z) (w' : World Z Z) resume_from',
        truthy resume_from' = true ->
        fs w' = fs (snd stk) ->
        exists st1' st2 evs',
          search_setup resume_from' (__init__ o' cfg, w') = Return (0 + Z.of_nat 2) st1' /\
          search resume_from' (__init__ o' cfg, w') = Return tt st2 /\
          trace (snd st2) = (trace (snd st1') ++ evs')%list /\
          new_epoch_calls evs' = range (0 + Z.of_nat 2) (Config.epochs (Config.search cfg)).
Proof.
  split; [|split; [split; vm_compute; reflexivity|]].
  - destruct (proj1 (proj2 checkpoint_resume_round_trip) (PyStr "resume") true ∅
                   (__init__ 0 cfg) world_searched (ObjOwned "graph") "model_final.pth"
                   (mk_checkpoint 5 [] {[ "iteration" := 2 ]})) as (keys & Hrun).
    + reflexivity.
    + vm_compute. reflexivity.
    + vm_compute. reflexivity.
    + vm_compute. reflexivity.
    + exists keys. rewrite Hrun. vm_compute. reflexivity.
  - eexists. split; [vm_compute; reflexivity|].
    eapply (proj2 (proj2 (proj2 checkpoint_resume_round_trip)) 0 cfg Stepper.world_ready
                  (PyStr "") 0 _ 2%nat).
    + intros o1 o2. reflexivity.
    + intros o'. eexists. vm_compute. reflexivity.
    + split; vm_compute; reflexivity.
    + vm_compute. reflexivity.
    + vm_compute. lia.
Defined.

Lemma evaluate_retrains_then_measures_witness :
  eval_ready cfg run_dirs /\
  exists st' p,
    evaluate true (PyStr "") (PyStr "") (__init__ 0 cfg, world_searched) = Return tt st' /\
    periodic_checkpointer (fst st') = Some p /\
    save_dir (pc_checkpointer p) = "out/eval" /\
    optimizer (fst st') = 102 /\
    trace (snd st')
    = ([EvCheckpointLoad "out/search/model_final.pth";
        EvGetFinalArchitecture; EvToDevice; EvResetWeights; EvGetOpOptimizer;
        EvSchedulerNew; EvTrainMode]
       ++ retrain_events (PyInt 5) true [(2%positive, tt)] p [0; 1]
       ++ [EvEvalMode; EvForward false false 4%positive;
           EvTestAccuracies (PyFloat 90) (PyFloat 100)])%list.
Proof.
  split; [vm_compute; reflexivity|].
  pose (st1 := match (sm <- resolve_search_model (PyStr "") ;;
                      _setup_checkpointers sm true ∅)
                       (with_dataloaders (Config.evaluation cfg) (__init__ 0 cfg),
                        world_searched) with
               | Return _ s => s
               | Raise _ s => s
               end).
  pose (st2 := match _setup_checkpointers (PyStr "") false
                       {[ "model" := ObjArch; "optim" := ObjOptim;
                          "scheduler" := ObjScheduler ]}
                       (set_optimizer 100 (fst st1),
                        add_events [EvGetFinalArchitecture; EvToDevice; EvResetWeights;
                                    EvGetOpOptimizer; EvSchedulerNew] (snd st1)) with
               | Return _ s => s
               | Raise _ s => s
               end).
  destruct (evaluate_retrains_then_measures (__init__ 0 cfg) world_searched
              (PyStr "") (PyStr "") 3 (fst st1) (snd st1) 0 (fst st2) (snd st2))
    as (st' & p & Hrun & Hp & Hdir & Hopt & Htrace & _).
  - vm_compute. reflexivity.
  - reflexivity.
  - vm_compute. reflexivity.
  - vm_compute. reflexivity.
  - discriminate.
  - discriminate.
  - exists st', p. split; [exact Hrun|]. split; [exact Hp|].
    split; [exact Hdir|]. split; [exact Hopt|]. exact Htrace.
Defined.

Lemma evaluate_default_search_model_is_tuple_witness :
  (exists t',
      evaluate true (PyStr "") (PyStr "") (__init__ 0 cfg, world_with_model)
      = Raise TypeError (t', world_with_model) /\
      optimizer t' = optimizer (__init__ 0 cfg)) /\
  (let p := os_path_join (Config.save (config (__init__ 0 cfg)))
                         ["search"; "model_final.pth"] in
   exists t',
     _setup_checkpointers (PyStr p) true ∅ (__init__ 0 cfg, world_with_model)
     = Return 0 (t', add_events [EvCheckpointLoad p] world_with_model)).
Proof.
  split.
  - apply (proj1 (proj2 evaluate_default_search_model_is_tuple) true (PyStr "")
                 (__init__ 0 cfg) world_with_model).
    + eexists. vm_compute. reflexivity.
    + vm_compute. reflexivity.
  - apply (proj2 (proj2 evaluate_default_search_model_is_tuple)
                 (__init__ 0 cfg) world_with_model (mk_checkpoint 5 [] ∅)).
    + eexists. vm_compute. reflexivity.
    + vm_compute. reflexivity.
    + vm_compute. reflexivity.
Defined.
End StepperWitnesses.

Section FurtherWitnesses.
Import Toy.

Lemma search_epoch_without_step_function_witness :
  using_step_function (new_epoch 0 (optimizer (__init__ sampler cfg))) = false /\
  can_log cfg (fs world0) /\
  exists st',
    search_epoch 0 (start sampler) = Return tt st' /\
    trace (snd st')
    = [EvNewEpoch 0; EvTrainStatistics; EvTestStatistics false;
       EvMakedirs "out"; EvJsonDump "out/errors_7.json"] /\
    ErrorsDict.train_acc (errors_dict (fst st')) = [PyFloat 1] /\
    periodic_checkpointer (fst st') = None.
Proof.
  assert (Husf : using_step_function (new_epoch 0 (optimizer (__init__ sampler cfg))) = false)
    by reflexivity.
  assert (Hcan : can_log (config (__init__ sampler cfg)) (fs world0))
    by (vm_compute; reflexivity).
  split; [exact Husf|]. split; [exact Hcan|].
  destruct (search_epoch_without_step_function 0 (__init__ sampler cfg) world0 Husf Hcan)
    as (st' & evs & Hrun & Htrace & Hevs & _ & _ & Hacc & _ & _ & _ & _ & Hpc).
  exists st'. split; [exact Hrun|].
  split; [rewrite Htrace, Hevs; vm_compute; reflexivity|].
  split; [exact Hacc | exact Hpc].
Defined.

Lemma search_epoch_with_step_function_witness :
  log_ready cfg run_dirs /\ checkpoint_dir_ready "out/search" run_dirs /\
  exists st',
    search_epoch 0 (in_loop stepper, world_ready) = Return tt st' /\
    trace (snd st')
    = [EvNewEpoch 0; EvStep; EvStep; EvSchedulerStep;
       EvCheckpointSave "out/search/model_0000000.pth" 0;
       EvTestStatistics true; EvJsonDump "out/errors_7.json"] /\
    dirs (fs (snd st')) = run_dirs.
Proof.
  split; [vm_compute; reflexivity|]. split; [vm_compute; reflexivity|].
  destruct (search_epoch_with_step_function 0 (in_loop stepper) world_ready
              (mk_scheduler 3 0)
              (mk_periodic (mk_checkpointer (ObjOwned "graph") "out/search" ∅) 1 3))
    as (st' & Hrun & Htrace & Hdirs);
    try reflexivity; try (vm_compute; reflexivity).
  exists st'. split; [exact Hrun|]. split; [|exact Hdirs].
  rewrite Htrace. vm_compute. reflexivity.
Defined.

Lemma setup_checkpointers_without_model_witness :
  _setup_checkpointers (PyStr "") true ∅ (start no_model)
  = Raise (KeyError "model") (start no_model).
Proof.
  apply (setup_checkpointers_without_model (PyStr "") true ∅ (__init__ no_model cfg) world0).
  vm_compute. reflexivity.
Defined.

Lemma setup_checkpointers_ignores_resume_path_witness :
  _setup_checkpointers (PyStr "elsewhere.pth") true ∅ (__init__ stepper cfg, world_resumable)
  = _setup_checkpointers (PyTuple ["out/search/model_final.pth"]) true ∅
                         (__init__ stepper cfg, world_resumable).
Proof.
  apply (setup_checkpointers_ignores_resume_path
           (PyStr "elsewhere.pth") (PyTuple ["out/search/model_final.pth"]) true ∅
           (__init__ stepper cfg) world_resumable).
  - reflexivity.
  - reflexivity.
  - vm_compute. reflexivity.
Defined.

Lemma evaluate_queryable_witness :
  exists st',
    evaluate true (PyStr "arch.pth") (PyStr "") (__init__ stepper cfg, world_with queryable)
    = Return tt st' /\
    trace (snd st') = [EvCheckpointLoad "arch.pth"; EvGetFinalArchitecture; EvQuery].
Proof.
  pose (st1 := match _setup_checkpointers (PyStr "arch.pth") true ∅
                       (with_dataloaders (Config.evaluation cfg) (__init__ stepper cfg),
                        world_with queryable) with
               | Return _ s => s
               | Raise _ s => s
               end).
  eexists. split.
  - apply (evaluate_queryable true (__init__ stepper cfg) (world_with queryable)
             (PyStr "arch.pth") (PyStr "") 0 (fst st1) (snd st1)).
    + reflexivity.
    + vm_compute. reflexivity.
    + reflexivity.
  - vm_compute. reflexivity.
Defined.

Lemma evaluate_without_retraining_witness :
  exists st',
    evaluate false (PyStr "arch.pth") (PyStr "") (__init__ stepper cfg, world_with stepper)
    = Return tt st' /\
    trace (snd st')
    = [EvCheckpointLoad "arch.pth"; EvGetFinalArchitecture; EvToDevice; EvEvalMode;
       EvForward false false 4%positive; EvForward false false 6%positive;
       EvTestAccuracies (PyFloat 90) (PyFloat 100)].
Proof.
  pose (st1 := match _setup_checkpointers (PyStr "arch.pth") true ∅
                       (with_dataloaders (Config.evaluation cfg) (__init__ stepper cfg),
                        world_with stepper) with
               | Return _ s => s
               | Raise _ s => s
               end).
  eexists. split.
  - apply (evaluate_without_retraining (__init__ stepper cfg) (world_with stepper)
             (PyStr "arch.pth") (PyStr "") 0 (fst st1) (snd st1)).
    + reflexivity.
    + vm_compute. reflexivity.
    + reflexivity.
    + vm_compute. discriminate.
  - vm_compute. reflexivity.
Defined.

Lemma analyze_without_display_name_witness :
  runs <> [] /\
  Analysis.analyze [("RS", runs)] "cifar10" = Analysis.Err (KeyError "RS") /\
  Analysis.analyze [("RS", [])] "cifar10" = Analysis.Err TypeError.
Proof.
  split; [discriminate|].
  eapply (analyze_without_display_name "RS" runs [] "cifar10").
  - discriminate.
  - vm_compute. reflexivity.
  - vm_compute. reflexivity.
  - vm_compute. reflexivity.
Defined.

Lemma analyze_valid_error_curves_witness :
  exists draws,
    Analysis.analyze [("DARTS", runs)] "cifar10" = Analysis.Ok draws /\
    List.filter on_right_axis draws
    = concat [[ Analysis.Plot Analysis.AxRight [0; 1] [19; 17] None None;
                Analysis.FillBetween Analysis.AxRight [0; 1] [18; 15] [20; 19] ]].
Proof.
  eapply (analyze_valid_error_curves [("DARTS", runs)] "cifar10").
  - constructor; [|constructor]. vm_compute. reflexivity.
  - constructor; [|constructor].
    exists [[80; 81]; [82; 85]]. split; [discriminate|].
    split; [repeat constructor|]. split; [reflexivity|]. vm_compute. reflexivity.
Defined.

Lemma log_to_json_only_writes_statistics_witness :
  can_log cfg (fs world0) /\
  exists w1 w2,
    log_to_json (start stepper) = Return tt (__init__ stepper cfg, w1) /\
    files (fs w1) !! "out/search/model_final.pth" = None /\
    log_to_json (__init__ stepper cfg, w1) = Return tt (__init__ stepper cfg, w2) /\
    fs w2 = fs w1 /\
    trace w2 = (trace w1 ++ [EvJsonDump (errors_path cfg)])%list.
Proof.
  assert (Hcan : can_log (config (__init__ stepper cfg)) (fs world0))
    by (vm_compute; reflexivity).
  split; [exact Hcan|].
  destruct (log_to_json_only_writes_statistics (__init__ stepper cfg) world0 Hcan)
    as (w1 & w2 & Hrun1 & Hkeep & Hrun2 & Hfs & Htrace).
  exists w1, w2. split; [exact Hrun1|].
  split; [exact (Hkeep true "model_final.pth" eq_refl)|].
  split; [exact Hrun2|]. split; [exact Hfs | exact Htrace].
Defined.

Lemma setup_checkpointers_unreadable_path_witness :
  _setup_checkpointers (PyStr "missing.pth") true ∅ (start stepper)
  = Raise AssertionError
          (with_checkpointers true ∅ (__init__ stepper cfg) (ObjOwned "graph"), world0).
Proof.
  assert (Hp : "missing.pth" <> "") by discriminate.
  assert (Hm : (∅ ∪ get_checkpointables (optimizer (__init__ stepper cfg))) !! "model"
               = Some (ObjOwned "graph")) by (vm_compute; reflexivity).
  assert (Hhas : fs_exists (last_checkpoint_file
                              (checkpoint_dir true (config (__init__ stepper cfg))))
                           (fs world0) = false) by (vm_compute; reflexivity).
  apply (proj1 (setup_checkpointers_unreadable_path "missing.pth" true ∅
                  (__init__ stepper cfg) world0 (ObjOwned "graph") Hp Hm Hhas)).
  vm_compute. reflexivity.
Defined.
End FurtherWitnesses.

Section FurtherStepperWitnesses.
Import Toy Stepper.

Lemma finished_search_round_trip_witness :
  search_ready cfg run_dirs /\
  exists st1 stk,
    search_setup (PyStr "") Stepper.start_ready = Return 0 st1 /\
    for_each (range 0 (Config.epochs (Config.search cfg))) search_epoch st1 = Return tt stk /\
    files (fs (snd stk)) !! last_checkpoint_file (checkpoint_dir true cfg)
    = Some (TextFile "model_final.pth").
Proof.
  split; [split; vm_compute; reflexivity|].
  pose (st1 := match search_setup (PyStr "") Stepper.start_ready with
               | Return _ s => s
               | Raise _ s => s
               end).
  destruct (finished_search_round_trip 0 cfg Stepper.world_ready (PyStr "") 0 st1)
    as (stk & ck & Hrun & Hlast & _).
  - intros o'. reflexivity.
  - intros o'. eexists. vm_compute. reflexivity.
  - split; vm_compute; reflexivity.
  - vm_compute. reflexivity.
  - reflexivity.
  - exists st1, stk. split; [vm_compute; reflexivity|]. split; [exact Hrun | exact Hlast].
Defined.


Lemma evaluate_retraining_checkpoints_witness :
  eval_ready cfg run_dirs /\
  exists st' evs,
    evaluate true (PyStr "") (PyStr "") (__init__ 0 cfg, world_searched) = Return tt st' /\
    trace (snd st') = ([EvCheckpointLoad "out/search/model_final.pth"] ++ evs)%list /\
    checkpoint_saves evs
    = [ ("out/eval/model_0000000.pth", 0); ("out/eval/model_0000001.pth", 1);
        ("out/eval/model_final.pth", 1) ] /\
    dirs (fs (snd st')) = run_dirs.
Proof.
  split; [vm_compute; reflexivity|].
  pose (st1 := match (sm <- resolve_search_model (PyStr "") ;;
                      _setup_checkpointers sm true ∅)
                       (with_dataloaders (Config.evaluation cfg) (__init__ 0 cfg),
                        world_searched) with
               | Return _ s => s
               | Raise _ s => s
               end).
  pose (st2 := match _setup_checkpointers (PyStr "") false
                       {[ "model" := ObjArch; "optim" := ObjOptim;
                          "scheduler" := ObjScheduler ]}
                       (set_optimizer 100 (fst st1),
                        add_events [EvGetFinalArchitecture; EvToDevice; EvResetWeights;
                                    EvGetOpOptimizer; EvSchedulerNew] (snd st1)) with
               | Return _ s => s
               | Raise _ s => s
               end).
  destruct (evaluate_retraining_checkpoints (__init__ 0 cfg) world_searched
              (PyStr "") (PyStr "") 3 (fst st1) (snd st1) 0 (fst st2) (snd st2))
    as (st' & evs & c & Hrun & Htrace & _ & Hdir & _ & Hsaves & Hdirs & _).
  - vm_compute. reflexivity.
  - reflexivity.
  - vm_compute. reflexivity.
  - vm_compute. reflexivity.
  - discriminate.
  - discriminate.
  - exists st', evs. split; [exact Hrun|]. split; [exact Htrace|].
    split; [|exact Hdirs].
    rewrite Hsaves. destruct c as [m d k]. cbn [save_dir] in Hdir. subst d.
    vm_compute. reflexivity.
Defined.
End FurtherStepperWitnesses.
